(** * terraform-provider-adgroups: the LDAP client layer and its adapters

    A shallow embedding of the directory client ([internal/client]) and of
    the resource and data-source adapters ([internal/provider]) that call it,
    followed by the properties proved about them.

    Go strings are byte sequences: they are modelled by [string], whose
    characters are the 256 values of [ascii].  A Go [error] is modelled by
    the text that its [Error()] method returns, [None] standing for [nil]:
    the adapters classify errors by that text only. *)

From Stdlib Require Import ZArith List String Ascii Bool Lia Permutation.
Import ListNotations.

Local Open Scope string_scope.
Local Open Scope list_scope.

(** ** Characters that cannot be written inside a string literal *)

Definition dquote : ascii := ascii_of_nat 34.
Definition NUL : ascii := ascii_of_nat 0.
Definition LF : ascii := ascii_of_nat 10.
Definition CR : ascii := ascii_of_nat 13.

(** A one-byte string. *)
Definition str1 (b : ascii) : string := String b EmptyString.

(** [%q] of a string without characters that need escaping. *)
Definition quoted (s : string) : string := String dquote (s ++ str1 dquote).

(** ** Package [strings] of the Go library, as far as the repository uses it *)

Module strings.

(** [strings.HasPrefix]. *)
Fixpoint HasPrefix (s pre : string) : bool :=
  match pre, s with
  | EmptyString, _ => true
  | String _ _, EmptyString => false
  | String p pre', String c s' => Ascii.eqb p c && HasPrefix s' pre'
  end.

(** [strings.Contains(s, substr)]: case-sensitive search of a substring. *)
Fixpoint Contains (s substr : string) : bool :=
  HasPrefix s substr ||
  match s with
  | EmptyString => false
  | String _ s' => Contains s' substr
  end.

(** [strings.Split(s, sep)] for a separator of one byte, which is what both
    call sites pass (["|"] and [","]).  [cur] holds the bytes of the field
    being read.  The result has one more element than [s] has separators. *)
Fixpoint splitFrom (sep : ascii) (cur : string) (s : string) : list string :=
  match s with
  | EmptyString => [cur]
  | String c s' =>
      if Ascii.eqb c sep then cur :: splitFrom sep EmptyString s'
      else splitFrom sep (cur ++ str1 c) s'
  end.

Definition Split (s : string) (sep : ascii) : list string :=
  splitFrom sep EmptyString s.

(** [strings.Count(s, sep)] for a separator of one byte. *)
Fixpoint Count (s : string) (sep : ascii) : nat :=
  match s with
  | EmptyString => 0
  | String c s' => (if Ascii.eqb c sep then 1 else 0) + Count s' sep
  end.

(** [strings.NewReplacer(old1, new1, ...)] where every [old] is one byte
    and some [new] is longer: Go builds its byte-to-string replacer, a
    table indexed by byte in which the first pair given for a byte wins. *)
Definition Replacer : Type := list (ascii * string).

Fixpoint lookup (r : Replacer) (b : ascii) : option string :=
  match r with
  | [] => None
  | (old, new) :: r' => if Ascii.eqb old b then Some new else lookup r' b
  end.

(** The [Replace] method of a replacer. *)
Fixpoint Replace (r : Replacer) (s : string) : string :=
  match s with
  | EmptyString => EmptyString
  | String b s' =>
      match lookup r b with
      | Some new => new ++ Replace r s'
      | None => String b (Replace r s')
      end
  end.

(** The bytes for which a replacer has an entry. *)
Definition olds (r : Replacer) : list ascii := map fst r.

End strings.

(** ** client.go: escaping *)

Definition dnReplacer : strings.Replacer :=
  [ ("\"%char, "\\");
    (","%char, "\,");
    ("+"%char, "\+");
    (dquote, String "\" (str1 dquote));
    ("<"%char, "\<");
    (">"%char, "\>");
    (";"%char, "\;");
    ("="%char, "\=");
    (LF, "\0A");
    (CR, "\0D");
    (NUL, "\00") ].

(** [EscapeDN] escapes special characters in a DN component. *)
Definition EscapeDN (value : string) : string :=
  strings.Replace dnReplacer value.

Definition filterReplacer : strings.Replacer :=
  [ ("\"%char, "\5c");
    ("*"%char, "\2a");
    ("("%char, "\28");
    (")"%char, "\29");
    (NUL, "\00") ].

(** [EscapeFilter] escapes special characters in a search filter. *)
Definition EscapeFilter (value : string) : string :=
  strings.Replace filterReplacer value.

(** The bytes of a string. *)
Definition bytes (s : string) : list ascii := list_ascii_of_string s.

(** The special characters of each escaper, as the specification lists them. *)
Definition dnSpecials : list ascii :=
  ["\"%char; ","%char; "+"%char; dquote; "<"%char; ">"%char; ";"%char;
   "="%char; LF; CR; NUL].

Definition filterSpecials : list ascii :=
  ["\"%char; "*"%char; "("%char; ")"%char; NUL].

(** ** Package [strconv] and the [%d] verb of package [fmt] *)

Module strconv.
Local Open Scope Z_scope.

(** The value of a byte. *)
Definition byteVal (c : ascii) : Z := Z.of_N (N_of_ascii c).

Definition isDigit (c : ascii) : bool :=
  (48 <=? byteVal c) && (byteVal c <=? 57).

Definition digitChar (d : Z) : ascii := ascii_of_N (Z.to_N (48 + d)).

(** The digit loop of [formatBits] in base 10 on a non-negative number:
    the last digit is [u mod 10], the digits before it are those of
    [u / 10].  [fuel] bounds the number of divisions. *)
Fixpoint formatBits (fuel : nat) (u : Z) : string :=
  match fuel with
  | O => str1 (digitChar u)
  | S fuel' =>
      if u <? 10 then str1 (digitChar u)
      else (formatBits fuel' (u / 10) ++ str1 (digitChar (u mod 10)))%string
  end.

(** [fmt.Sprintf("%d", i)] and [strconv.FormatInt(i, 10)]: a minus sign
    for a negative number, then the decimal digits of its magnitude.  A
    number below [2 ^ (n + 1)] is divided at most [n] times. *)
Definition FormatInt (i : Z) : string :=
  if i <? 0 then ("-" ++ formatBits (Z.to_nat (Z.log2 (- i))) (- i))%string
  else formatBits (Z.to_nat (Z.log2 i)) i.

Inductive NumError : Type :=
| ErrSyntax
| ErrRange.

Definition maxUint64 : Z := 2 ^ 64 - 1.

(** The loop of [ParseUint(s, 10, 64)] over the bytes of [s], [n] being
    the number read so far. *)
Fixpoint parseLoop (n : Z) (s : string) : NumError + Z :=
  match s with
  | EmptyString => inr n
  | String c s' =>
      if negb (isDigit c) then inl ErrSyntax
      else
        let d := byteVal c - 48 in
        if maxUint64 / 10 + 1 <=? n then inl ErrRange
        else
          let n1 := n * 10 + d in
          if maxUint64 <? n1 then inl ErrRange
          else parseLoop n1 s'
  end.

Definition ParseUint (s : string) : NumError + Z :=
  match s with
  | EmptyString => inl ErrSyntax
  | _ => parseLoop 0 s
  end.

(** [strconv.ParseInt(s, 10, 64)]. *)
Definition ParseInt (s : string) : NumError + Z :=
  match s with
  | EmptyString => inl ErrSyntax
  | String c0 s' =>
      let neg := Ascii.eqb c0 "-" in
      let digits := if Ascii.eqb c0 "+" || neg then s' else s in
      let cutoff := 2 ^ 63 in
      match ParseUint digits with
      | inl ErrSyntax => inl ErrSyntax
      | inl ErrRange => inl ErrRange
      | inr un =>
          if negb neg && (cutoff <=? un) then inl ErrRange
          else if neg && (cutoff <? un) then inl ErrRange
          else inr (if neg then - un else un)
      end
  end.

End strconv.

Module fmt.
Local Open Scope Z_scope.
Import strconv.

Inductive ScanError : Type :=
| UnexpectedNewline
| EOF
| ExpectedInteger
| ParseError (e : NumError).

(** The bytes left after one leading space rune other than a newline, if
    [s] starts with one.  The runes that [isSpace] accepts are U+0009 to
    U+000D, U+0020, U+0085, U+00A0, U+1680, U+2000 to U+200A, U+2028,
    U+2029, U+202F, U+205F and U+3000; each is recognised here by its
    UTF-8 encoding. *)
Definition dropSpaceRune (s : string) : option string :=
  match s with
  | EmptyString => None
  | String c1 r1 =>
      let b1 := byteVal c1 in
      if ((9 <=? b1) && (b1 <=? 13) && negb (b1 =? 10)) || (b1 =? 32)
      then Some r1
      else
        match r1 with
        | EmptyString => None
        | String c2 r2 =>
            let b2 := byteVal c2 in
            if (b1 =? 194) && ((b2 =? 133) || (b2 =? 160)) then Some r2
            else
              match r2 with
              | EmptyString => None
              | String c3 r3 =>
                  let b3 := byteVal c3 in
                  if ((b1 =? 225) && (b2 =? 154) && (b3 =? 128))
                     || ((b1 =? 226) && (b2 =? 128)
                         && (((128 <=? b3) && (b3 <=? 138))
                             || (b3 =? 168) || (b3 =? 169) || (b3 =? 175)))
                     || ((b1 =? 226) && (b2 =? 129) && (b3 =? 159))
                     || ((b1 =? 227) && (b2 =? 128) && (b3 =? 128))
                  then Some r3
                  else None
              end
        end
  end.

(** [SkipSpace] of a scanner made by [Sscanf], for which a newline is not
    a space: a newline met while skipping is an error. *)
Fixpoint skipSpace (fuel : nat) (s : string) : ScanError + string :=
  match fuel with
  | O => inr s
  | S fuel' =>
      match s with
      | EmptyString => inr s
      | String c _ =>
          if byteVal c =? 10 then inl UnexpectedNewline
          else
            match dropSpaceRune s with
            | Some rest => skipSpace fuel' rest
            | None => inr s
            end
      end
  end.

Definition SkipSpace (s : string) : ScanError + string :=
  skipSpace (String.length s) s.

(** The characters that [scanNumber] accepts for the verb [%d]: the
    decimal digits.  (An underscore is accepted only for the verb [%v].) *)
Definition isDecimalDigitRune (c : ascii) : bool := isDigit c.

(** Whether a string starts with a decimal digit. *)
Definition startsWithDigit (s : string) : bool :=
  match s with
  | EmptyString => false
  | String c _ => isDigit c
  end.

(** The longest prefix of [s] made of accepted characters, and the rest. *)
Fixpoint spanDigits (s : string) : string * string :=
  match s with
  | EmptyString => (EmptyString, EmptyString)
  | String c s' =>
      if isDecimalDigitRune c
      then let (tok, rest) := spanDigits s' in (String c tok, rest)
      else (EmptyString, s)
  end.

(** [scanInt] for the verb [%d] and 64 bits: skip spaces, accept a sign,
    read the digits that follow and hand the token to [ParseInt].  What
    comes after the digits is left unread. *)
Definition scanInt (s : string) : ScanError + Z :=
  match SkipSpace s with
  | inl e => inl e
  | inr EmptyString => inl EOF
  | inr (String c0 r0 as r) =>
      let hasSign := Ascii.eqb c0 "+" || Ascii.eqb c0 "-" in
      let sign := if hasSign then str1 c0 else EmptyString in
      let afterSign := if hasSign then r0 else r in
      match afterSign with
      | EmptyString => inl EOF
      | String d _ =>
          if negb (isDecimalDigitRune d) then inl ExpectedInteger
          else
            let (tok, _) := spanDigits afterSign in
            match ParseInt (sign ++ tok) with
            | inl e => inl (ParseError e)
            | inr i => inr i
            end
      end
  end.

(** [fmt.Sscanf(str, "%d", new(int64))]: the number of items scanned and
    the error.  The scanned number goes to the fresh cell, which the
    caller does not keep. *)
Definition Sscanf_d (str : string) : Z * option ScanError :=
  match scanInt str with
  | inl e => (0, Some e)
  | inr _ => (1, None)
  end.

End fmt.

(** ** The [go-ldap] interface that the client is written against *)

Module ldap.

Inductive SearchScope : Type :=
| ScopeBaseObject
| ScopeSingleLevel
| ScopeWholeSubtree.

Definition NeverDerefAliases : Z := 0%Z.

Record SearchRequest : Type := NewSearchRequest {
  sr_BaseDN : string;
  sr_Scope : SearchScope;
  sr_DerefAliases : Z;
  sr_SizeLimit : Z;
  sr_TimeLimit : Z;
  sr_TypesOnly : bool;
  sr_Filter : string;
  sr_Attributes : list string
}.

Record EntryAttribute : Type := {
  ea_Name : string;
  ea_Values : list string
}.

Record Entry : Type := {
  e_DN : string;
  e_Attributes : list EntryAttribute
}.

Record SearchResult : Type := { Entries : list Entry }.

(** [GetAttributeValues]: the values of the first attribute with that
    name, or no value. *)
Fixpoint attributeValues (attrs : list EntryAttribute) (name : string)
  : list string :=
  match attrs with
  | [] => []
  | a :: attrs' =>
      if String.eqb (ea_Name a) name then ea_Values a
      else attributeValues attrs' name
  end.

Definition GetAttributeValues (e : Entry) (name : string) : list string :=
  attributeValues (e_Attributes e) name.

(** [GetAttributeValue]: the first value, or the empty string. *)
Definition GetAttributeValue (e : Entry) (name : string) : string :=
  match GetAttributeValues e name with
  | [] => EmptyString
  | v :: _ => v
  end.

Record Attribute : Type := {
  at_Type : string;
  at_Vals : list string
}.

Record AddRequest : Type := {
  ar_DN : string;
  ar_Attributes : list Attribute
}.

Definition NewAddRequest (dn : string) : AddRequest :=
  {| ar_DN := dn; ar_Attributes := [] |}.

(** [(req).Attribute(attrType, attrVals)] appends an attribute. *)
Definition addAttribute (req : AddRequest) (attrType : string)
    (attrVals : list string) : AddRequest :=
  {| ar_DN := ar_DN req;
     ar_Attributes :=
       ar_Attributes req
         ++ [ {| at_Type := attrType; at_Vals := attrVals |} ] |}.

(** The values that an add request writes for an attribute type, and
    the attribute types in the order of the request. *)
Fixpoint valuesOf (attrs : list Attribute) (attrType : string)
  : option (list string) :=
  match attrs with
  | [] => None
  | a :: attrs' =>
      if String.eqb (at_Type a) attrType then Some (at_Vals a)
      else valuesOf attrs' attrType
  end.

Definition written (req : AddRequest) (attrType : string)
  : option (list string) :=
  valuesOf (ar_Attributes req) attrType.

Definition writtenTypes (req : AddRequest) : list string :=
  map at_Type (ar_Attributes req).

Inductive Operation : Type :=
| AddAttribute
| DeleteAttribute
| ReplaceAttribute.

Record Change : Type := {
  ch_Operation : Operation;
  ch_Type : string;
  ch_Vals : list string
}.

Record ModifyRequest : Type := {
  mr_DN : string;
  mr_Changes : list Change
}.

Definition NewModifyRequest (dn : string) : ModifyRequest :=
  {| mr_DN := dn; mr_Changes := [] |}.

Definition appendChange (req : ModifyRequest) (op : Operation)
    (attrType : string) (attrVals : list string) : ModifyRequest :=
  {| mr_DN := mr_DN req;
     mr_Changes :=
       mr_Changes req
         ++ [ {| ch_Operation := op; ch_Type := attrType;
                 ch_Vals := attrVals |} ] |}.

Record DelRequest : Type := NewDelRequest { dr_DN : string }.

Record ModifyDNRequest : Type := NewModifyDNRequest {
  md_DN : string;
  md_NewRDN : string;
  md_DeleteOldRDN : bool;
  md_NewSuperior : string
}.

(** A bound connection, seen from the client: each operation takes the
    state of the directory server to the error it answers ([None] for
    success) and to the server's next state. *)
Record Conn (Server : Type) : Type := {
  conn_Search : SearchRequest -> Server -> (string + SearchResult) * Server;
  conn_Add : AddRequest -> Server -> option string * Server;
  conn_Modify : ModifyRequest -> Server -> option string * Server;
  conn_Del : DelRequest -> Server -> option string * Server;
  conn_ModifyDN : ModifyDNRequest -> Server -> option string * Server
}.

Arguments conn_Search {Server}.
Arguments conn_Add {Server}.
Arguments conn_Modify {Server}.
Arguments conn_Del {Server}.
Arguments conn_ModifyDN {Server}.

(** The error that the library answers to a request on a nil connection. *)
Definition ErrNilConnection : string := "ldap: conn is nil, expected net.Conn".

(** [ModifyDN] called on a connection pointer, which may be nil: the
    library looks at the pointer before it sends anything. *)
Definition ModifyDN {Server : Type} (l : option (Conn Server))
    (req : ModifyDNRequest) : Server -> option string * Server :=
  match l with
  | Some k => conn_ModifyDN k req
  | None => fun s => (Some ErrNilConnection, s)
  end.

(** The text of a [*ldap.Error]: [LDAP Result Code %d %q: %s] with the
    result code, its name in [LDAPResultCodeMap] and the diagnostic
    message of the server. *)
Definition errorText (code : string) (name : string) (diag : string)
  : string :=
  "LDAP Result Code " ++ code ++ " " ++ quoted name ++ ": " ++ diag.

Definition noSuchObject (diag : string) : string :=
  errorText "32" "No Such Object" diag.

Definition noSuchAttribute (diag : string) : string :=
  errorText "16" "No Such Attribute" diag.

Definition entryAlreadyExists (diag : string) : string :=
  errorText "68" "Entry Already Exists" diag.

End ldap.

(** ** Results of the client's methods *)

(** What a call does: it returns a value, returns an error, or panics. *)
Inductive outcome (A : Type) : Type :=
| Ok (a : A)
| Err (e : string)
| Panic (msg : string).

Arguments Ok {A}.
Arguments Err {A}.
Arguments Panic {A}.

(** A computation that talks to the directory server. *)
Definition M (Server A : Type) : Type := Server -> outcome A * Server.

Definition ret {Server A : Type} (a : A) : M Server A := fun s => (Ok a, s).

Definition fail {Server A : Type} (e : string) : M Server A :=
  fun s => (Err e, s).

Definition bind {Server A B : Type} (m : M Server A) (k : A -> M Server B)
  : M Server B :=
  fun s =>
    match m s with
    | (Ok a, s') => k a s'
    | (Err e, s') => (Err e, s')
    | (Panic msg, s') => (Panic msg, s')
    end.

(** [if err != nil { return fmt.Errorf(prefix + "%w", err) }]. *)
Definition wrap {Server A : Type} (prefix : string) (m : M Server A)
  : M Server A :=
  fun s =>
    match m s with
    | (Err e, s') => (Err (prefix ++ e), s')
    | r => r
    end.

Declare Scope client_scope.
Delimit Scope client_scope with client.
Notation "x <- m ;; k" := (bind m (fun x => k))
  (at level 61, m at next level, right associativity) : client_scope.

(** A call of the connection that answers an error or nothing. *)
Definition liftError {Server : Type} (f : Server -> option string * Server)
  : M Server unit :=
  fun s =>
    match f s with
    | (None, s') => (Ok tt, s')
    | (Some e, s') => (Err e, s')
    end.

Definition liftResult {Server A : Type} (f : Server -> (string + A) * Server)
  : M Server A :=
  fun s =>
    match f s with
    | (inr a, s') => (Ok a, s')
    | (inl e, s') => (Err e, s')
    end.

(** ** The client: client.go and the group accessors *)

Module Client.

(** [Group] represents an Active Directory group. *)
Record Group : Type := {
  DN : string;
  CN : string;
  Name : string;
  SamAccountName : string;
  Description : string;
  GroupType : string;
  ManagedBy : string;
  Members : list string;
  MemberOf : list string;
  ObjectGUID : string;
  ObjectSid : string
}.

(** The attributes that every group search asks for. *)
Definition groupAttributes : list string :=
  ["cn"; "name"; "sAMAccountName"; "description"; "groupType";
   "managedBy"; "member"; "memberOf"; "objectGUID"; "objectSid"].

(** The [Group] literal that [GetGroup], [GetGroupByCN] and [ListGroups]
    each fill from an entry. *)
Definition groupOfEntry (entry : ldap.Entry) : Group :=
  {| DN := ldap.e_DN entry;
     CN := ldap.GetAttributeValue entry "cn";
     Name := ldap.GetAttributeValue entry "name";
     SamAccountName := ldap.GetAttributeValue entry "sAMAccountName";
     Description := ldap.GetAttributeValue entry "description";
     GroupType := ldap.GetAttributeValue entry "groupType";
     ManagedBy := ldap.GetAttributeValue entry "managedBy";
     Members := ldap.GetAttributeValues entry "member";
     MemberOf := ldap.GetAttributeValues entry "memberOf";
     ObjectGUID := ldap.GetAttributeValue entry "objectGUID";
     ObjectSid := ldap.GetAttributeValue entry "objectSid" |}.

Section WithServer.

Variable Server : Type.

(** [Client] represents an LDAP client; [conn] is [None] for the nil
    pointer. *)
Record t : Type := {
  conn : option (ldap.Conn Server);
  baseDN : string;
  username : string;
  password : string;
  server : string;
  port : Z;
  useTLS : bool
}.

Definition notEstablished : string := "LDAP connection is not established".

(** [Search] performs an LDAP search. *)
Definition Search (c : t) (searchRequest : ldap.SearchRequest)
  : M Server ldap.SearchResult :=
  match conn c with
  | None => fail notEstablished
  | Some k =>
      wrap "LDAP search failed: "
        (liftResult (ldap.conn_Search k searchRequest))
  end.

(** [Add] adds an entry to LDAP. *)
Definition Add (c : t) (addRequest : ldap.AddRequest) : M Server unit :=
  match conn c with
  | None => fail notEstablished
  | Some k =>
      wrap "LDAP add failed: " (liftError (ldap.conn_Add k addRequest))
  end.

(** [Modify] modifies an entry in LDAP. *)
Definition Modify (c : t) (modifyRequest : ldap.ModifyRequest)
  : M Server unit :=
  match conn c with
  | None => fail notEstablished
  | Some k =>
      wrap "LDAP modify failed: "
        (liftError (ldap.conn_Modify k modifyRequest))
  end.

(** [Delete] deletes an entry from LDAP. *)
Definition Delete (c : t) (delRequest : ldap.DelRequest) : M Server unit :=
  match conn c with
  | None => fail notEstablished
  | Some k =>
      wrap "LDAP delete failed: " (liftError (ldap.conn_Del k delRequest))
  end.

(** The search request of [GetGroup]. *)
Definition getGroupRequest (dn : string) : ldap.SearchRequest :=
  ldap.NewSearchRequest dn ldap.ScopeBaseObject ldap.NeverDerefAliases
    0%Z 0%Z false "(objectClass=group)" groupAttributes.

(** [GetGroup] retrieves a group by its distinguished name. *)
Definition GetGroup (c : t) (dn : string) : M Server Group :=
  (result <- wrap ("failed to search for group " ++ dn ++ ": ")
               (Search c (getGroupRequest dn)) ;;
   match ldap.Entries result with
   | [] => fail ("group not found: " ++ dn)
   | entry :: _ => ret (groupOfEntry entry)
   end)%client.

(** [GetGroupByCN] retrieves a group by its common name. *)
Definition GetGroupByCN (c : t) (cn : string) : M Server Group :=
  let filter : string :=
    ("(&(objectClass=group)(cn=" ++ EscapeFilter cn ++ "))")%string in
  let searchRequest :=
    ldap.NewSearchRequest (baseDN c) ldap.ScopeWholeSubtree
      ldap.NeverDerefAliases 0%Z 0%Z false filter groupAttributes in
  (result <- wrap ("failed to search for group with CN " ++ cn ++ ": ")
               (Search c searchRequest) ;;
   match ldap.Entries result with
   | [] => fail ("group not found with CN: " ++ cn)
   | entry :: _ => ret (groupOfEntry entry)
   end)%client.

(** The DN that [CreateGroup] gives the new group. *)
Definition createGroupDN (ou cn : string) : string :=
  "CN=" ++ EscapeDN cn ++ "," ++ ou.

(** The add request that [CreateGroup] builds, one [Attribute] call
    after the other. *)
Definition createGroupRequest (ou cn description : string) (groupType : Z)
  : ldap.AddRequest :=
  let dn := createGroupDN ou cn in
  let addRequest := ldap.NewAddRequest dn in
  let addRequest := ldap.addAttribute addRequest "objectClass" ["top"; "group"] in
  let addRequest := ldap.addAttribute addRequest "cn" [cn] in
  let addRequest := ldap.addAttribute addRequest "name" [cn] in
  let addRequest := ldap.addAttribute addRequest "sAMAccountName" [cn] in
  let addRequest :=
    if negb (String.eqb description "")
    then ldap.addAttribute addRequest "description" [description]
    else addRequest in
  ldap.addAttribute addRequest "groupType" [strconv.FormatInt groupType].

(** [CreateGroup] creates a new group. *)
Definition CreateGroup (c : t) (ou cn description : string) (groupType : Z)
  : M Server Group :=
  let dn := createGroupDN ou cn in
  (_ <- wrap ("failed to create group " ++ dn ++ ": ")
          (Add c (createGroupRequest ou cn description groupType)) ;;
   GetGroup c dn)%client.

(** The modify request of [UpdateGroup]; [updates] lists the map's
    entries in the order in which the [range] loop visits them. *)
Definition updateGroupRequest (dn : string)
    (updates : list (string * list string)) : ldap.ModifyRequest :=
  fold_left
    (fun req kv =>
       match snd kv with
       | [] => ldap.appendChange req ldap.DeleteAttribute (fst kv) []
       | values => ldap.appendChange req ldap.ReplaceAttribute (fst kv) values
       end)
    updates (ldap.NewModifyRequest dn).

(** [UpdateGroup] updates an existing group. *)
Definition UpdateGroup (c : t) (dn : string)
    (updates : list (string * list string)) : M Server unit :=
  wrap ("failed to update group " ++ dn ++ ": ")
    (Modify c (updateGroupRequest dn updates)).

(** [DeleteGroup] deletes a group. *)
Definition DeleteGroup (c : t) (dn : string) : M Server unit :=
  wrap ("failed to delete group " ++ dn ++ ": ")
    (Delete c (ldap.NewDelRequest dn)).

(** [AddMemberToGroup] adds a member to a group. *)
Definition AddMemberToGroup (c : t) (groupDN memberDN : string)
  : M Server unit :=
  wrap ("failed to add member " ++ memberDN ++ " to group " ++ groupDN ++ ": ")
    (Modify c
       (ldap.appendChange (ldap.NewModifyRequest groupDN)
          ldap.AddAttribute "member" [memberDN])).

(** [RemoveMemberFromGroup] removes a member from a group. *)
Definition RemoveMemberFromGroup (c : t) (groupDN memberDN : string)
  : M Server unit :=
  wrap ("failed to remove member " ++ memberDN ++ " from group "
          ++ groupDN ++ ": ")
    (Modify c
       (ldap.appendChange (ldap.NewModifyRequest groupDN)
          ldap.DeleteAttribute "member" [memberDN])).

(** [ListGroups] lists all groups in the directory. *)
Definition ListGroups (c : t) (filter : string) : M Server (list Group) :=
  let filter : string :=
    if String.eqb filter "" then "(objectClass=group)" else filter in
  let searchRequest :=
    ldap.NewSearchRequest (baseDN c) ldap.ScopeWholeSubtree
      ldap.NeverDerefAliases 0%Z 0%Z false filter groupAttributes in
  (result <- wrap "failed to list groups: " (Search c searchRequest) ;;
   ret (map groupOfEntry (ldap.Entries result)))%client.

(** [MoveGroup] moves a group to a different organizational unit.  It
    calls [ModifyDN] on the connection without looking at it first; the
    library does, and answers its own error for a nil connection. *)
Definition MoveGroup (c : t) (currentDN newParentDN : string)
  : M Server unit :=
  let parts := strings.Split currentDN "," in
  match parts with
  | [] => fail ("invalid DN format: " ++ currentDN)
  | cn :: _ =>
      let newDN : string := (cn ++ "," ++ newParentDN)%string in
      let modifyDNRequest :=
        ldap.NewModifyDNRequest currentDN cn true newParentDN in
      wrap ("failed to move group from " ++ currentDN ++ " to "
              ++ newDN ++ ": ")
        (liftError (ldap.ModifyDN (conn c) modifyDNRequest))
  end.

End WithServer.

Arguments conn {Server}.
Arguments baseDN {Server}.
Arguments Search {Server}.
Arguments Add {Server}.
Arguments Modify {Server}.
Arguments Delete {Server}.
Arguments GetGroup {Server}.
Arguments GetGroupByCN {Server}.
Arguments CreateGroup {Server}.
Arguments UpdateGroup {Server}.
Arguments DeleteGroup {Server}.
Arguments AddMemberToGroup {Server}.
Arguments RemoveMemberFromGroup {Server}.
Arguments ListGroups {Server}.
Arguments MoveGroup {Server}.

End Client.

(** ** The plugin framework, as far as the adapters use it *)

Module types.

(** A framework value: null, unknown, or known. *)
Inductive value (A : Type) : Type :=
| Null
| Unknown
| Known (a : A).

Arguments Null {A}.
Arguments Unknown {A}.
Arguments Known {A}.

Definition IsNull {A : Type} (v : value A) : bool :=
  match v with Null => true | _ => false end.

Definition IsUnknown {A : Type} (v : value A) : bool :=
  match v with Unknown => true | _ => false end.

Definition String : Type := value string.
Definition Int64 : Type := value Z.
Definition Bool : Type := value bool.

Definition StringValue (s : string) : String := Known s.
Definition Int64Value (i : Z) : Int64 := Known i.

(** The [Value...] getters answer the zero value for null and unknown. *)
Definition ValueString (v : String) : string :=
  match v with Known s => s | _ => EmptyString end.

Definition ValueInt64 (v : Int64) : Z :=
  match v with Known i => i | _ => 0%Z end.

Definition ValueBool (v : Bool) : bool :=
  match v with Known b => b | _ => false end.

(** [Equal] of two framework values: the same state, and for known values
    the same value. *)
Definition Equal {A : Type} (eqb : A -> A -> bool) (v1 v2 : value A) : bool :=
  match v1, v2 with
  | Null, Null => true
  | Unknown, Unknown => true
  | Known a1, Known a2 => eqb a1 a2
  | _, _ => false
  end.

Definition StringEqual : String -> String -> bool := Equal String.eqb.
Definition Int64Equal : Int64 -> Int64 -> bool := Equal Z.eqb.

End types.

Module diag.

Inductive Severity : Type :=
| SeverityError
| SeverityWarning.

Record Diagnostic : Type := {
  severity : Severity;
  Summary : string;
  Detail : string
}.

Definition Diagnostics : Type := list Diagnostic.

Definition isError (d : Diagnostic) : bool :=
  match severity d with SeverityError => true | SeverityWarning => false end.

Definition HasError (ds : Diagnostics) : bool := existsb isError ds.

Definition equal (d1 d2 : Diagnostic) : bool :=
  Bool.eqb (isError d1) (isError d2)
  && String.eqb (Summary d1) (Summary d2)
  && String.eqb (Detail d1) (Detail d2).

(** [AddError] appends an error diagnostic unless an equal one is there. *)
Definition AddError (ds : Diagnostics) (summary detail : string)
  : Diagnostics :=
  let d := {| severity := SeverityError; Summary := summary;
              Detail := detail |} in
  if existsb (equal d) ds then ds else ds ++ [d].

(** [Append] adds the diagnostics of [new] that are not there yet. *)
Definition Append (ds new : Diagnostics) : Diagnostics :=
  fold_left (fun acc d => if existsb (equal d) acc then acc else acc ++ [d])
    new ds.

End diag.

(** ** provider.go: configuration *)

Module ADGroupsProvider.

(** [ADGroupsProviderModel] describes the provider data model. *)
Record ADGroupsProviderModel : Type := {
  Server : types.String;
  Port : types.Int64;
  BaseDN : types.String;
  Username : types.String;
  Password : types.String;
  UseTLS : types.Bool;
  Insecure : types.Bool
}.

(** [ClientConfig] holds the configuration for the LDAP client. *)
Record ClientConfig : Type := {
  cfg_Server : string;
  cfg_Port : Z;
  cfg_BaseDN : string;
  cfg_Username : string;
  cfg_Password : string;
  cfg_UseTLS : bool;
  cfg_Insecure : bool
}.

(** The environment: [os.Getenv], which answers the empty string for a
    variable that is not set. *)
Definition Env : Type := string -> string.

(** A setting taken from the configuration, else from the environment. *)
Definition orEnv (Getenv : Env) (v : types.String) (name : string)
  : string :=
  let s := types.ValueString v in
  if String.eqb s "" then Getenv name else s.

(** The port that [Configure] settles on. *)
Definition configurePort (Getenv : Env) (data : ADGroupsProviderModel) : Z :=
  let port := types.ValueInt64 (Port data) in
  if (port =? 0)%Z then
    if negb (String.eqb (Getenv "AD_PORT") "") then
      389%Z
    else if types.ValueBool (UseTLS data)
            || String.eqb (Getenv "AD_USE_TLS") "true"
    then 636%Z
    else 389%Z
  else port.

Definition missing (what attr var : string) : string :=
  "The provider cannot create the AD client as there is a missing or empty value for the "
    ++ what ++ ". Set the " ++ attr
    ++ " value in the configuration or use the " ++ var
    ++ " environment variable. If either is already set, ensure the value is not empty.".

(** [Configure], from the decoded configuration [data] (and the
    diagnostics [configDiags] of decoding it) to the [ClientConfig] that
    it hands to [client.NewClient]; [None] when it returns before. *)
Definition Configure (Getenv : Env) (configDiags : diag.Diagnostics)
    (data : ADGroupsProviderModel)
  : diag.Diagnostics * option ClientConfig :=
  if diag.HasError configDiags then (configDiags, None)
  else
    let server := orEnv Getenv (Server data) "AD_SERVER" in
    if String.eqb server "" then
      (diag.AddError configDiags "Missing AD Server Configuration"
         (missing "AD server" "server" "AD_SERVER"), None)
    else
      let port := configurePort Getenv data in
      let baseDN := orEnv Getenv (BaseDN data) "AD_BASE_DN" in
      if String.eqb baseDN "" then
        (diag.AddError configDiags "Missing AD Base DN Configuration"
           (missing "base DN" "base_dn" "AD_BASE_DN"), None)
      else
        let username := orEnv Getenv (Username data) "AD_USERNAME" in
        if String.eqb username "" then
          (diag.AddError configDiags "Missing AD Username Configuration"
             (missing "username" "username" "AD_USERNAME"), None)
        else
          let password := orEnv Getenv (Password data) "AD_PASSWORD" in
          if String.eqb password "" then
            (diag.AddError configDiags "Missing AD Password Configuration"
               (missing "password" "password" "AD_PASSWORD"), None)
          else
            let useTLS :=
              if String.eqb (Getenv "AD_USE_TLS") "true" then true
              else types.ValueBool (UseTLS data) in
            let insecure :=
              if String.eqb (Getenv "AD_INSECURE") "true" then true
              else types.ValueBool (Insecure data) in
            (configDiags,
             Some {| cfg_Server := server; cfg_Port := port;
                     cfg_BaseDN := baseDN; cfg_Username := username;
                     cfg_Password := password; cfg_UseTLS := useTLS;
                     cfg_Insecure := insecure |}).

End ADGroupsProvider.

(** ** resource_group.go *)

Module GroupResource.

(** [GroupResourceModel] describes the resource data model. *)
Record GroupResourceModel : Type := {
  ID : types.String;
  DN : types.String;
  CN : types.String;
  Name : types.String;
  SamAccountName : types.String;
  Description : types.String;
  GroupType : types.Int64;
  ManagedBy : types.String;
  OU : types.String;
  ObjectGUID : types.String;
  ObjectSid : types.String
}.

(** What a method leaves in its response: the diagnostics, and the state
    that it saved, if it saved one. *)
Record Response : Type := {
  Diagnostics : diag.Diagnostics;
  State : option GroupResourceModel
}.

(** The group type of a group that the directory returned: the plan's
    value stays when the attribute is empty or does not parse. *)
Definition groupTypeOf (planned : types.Int64) (group : Client.Group)
  : types.Int64 :=
  if negb (String.eqb (Client.GroupType group) "") then
    match strconv.ParseInt (Client.GroupType group) with
    | inr groupTypeInt => types.Int64Value groupTypeInt
    | inl _ => planned
    end
  else planned.

(** The model that [Create], [Read] and [Update] fill from a group. *)
Definition modelOfGroup (data : GroupResourceModel) (group : Client.Group)
  : GroupResourceModel :=
  {| ID := types.StringValue (Client.DN group);
     DN := types.StringValue (Client.DN group);
     CN := types.StringValue (Client.CN group);
     Name := types.StringValue (Client.Name group);
     SamAccountName := types.StringValue (Client.SamAccountName group);
     Description := types.StringValue (Client.Description group);
     GroupType := groupTypeOf (GroupType data) group;
     ManagedBy := types.StringValue (Client.ManagedBy group);
     OU := OU data;
     ObjectGUID := types.StringValue (Client.ObjectGUID group);
     ObjectSid := types.StringValue (Client.ObjectSid group) |}.

Section WithServer.

Variable Server : Type.

Definition clientError (ds : diag.Diagnostics) (detail : string)
  : Response :=
  {| Diagnostics := diag.AddError ds "Client Error" detail;
     State := None |}.

(** [Create]: [planDiags] and [data] are what reading the plan gave. *)
Definition Create (c : Client.t Server) (planDiags : diag.Diagnostics)
    (data : GroupResourceModel) : Server -> outcome Response * Server :=
  fun s =>
    if diag.HasError planDiags
    then (Ok {| Diagnostics := planDiags; State := None |}, s)
    else
      let groupType :=
        if negb (types.IsNull (GroupType data))
           && negb (types.IsUnknown (GroupType data))
        then types.ValueInt64 (GroupType data)
        else (-2147483646)%Z in
      match Client.CreateGroup c (types.ValueString (OU data))
              (types.ValueString (CN data))
              (types.ValueString (Description data)) groupType s with
      | (Panic msg, s1) => (Panic msg, s1)
      | (Err e, s1) =>
          (Ok (clientError planDiags
                 ("Unable to create group, got error: " ++ e)), s1)
      | (Ok group, s1) =>
          let saved g :=
            {| Diagnostics := planDiags;
               State := Some (modelOfGroup data g) |} in
          if negb (types.IsNull (ManagedBy data))
             && negb (types.IsUnknown (ManagedBy data))
          then
            match Client.UpdateGroup c (Client.DN group)
                    [("managedBy", [types.ValueString (ManagedBy data)])]
                    s1 with
            | (Panic msg, s2) => (Panic msg, s2)
            | (Err e, s2) =>
                (Ok (clientError planDiags
                       ("Unable to update group managedBy, got error: "
                          ++ e)), s2)
            | (Ok _, s2) =>
                match Client.GetGroup c (Client.DN group) s2 with
                | (Panic msg, s3) => (Panic msg, s3)
                | (Err e, s3) =>
                    (Ok (clientError planDiags
                           ("Unable to read group after update, got error: "
                              ++ e)), s3)
                | (Ok group', s3) => (Ok (saved group'), s3)
                end
            end
          else (Ok (saved group), s1)
      end.

(** [Delete]: [stateDiags] and [data] are what reading the prior state
    gave.  [Delete] saves no state. *)
Definition Delete (c : Client.t Server) (stateDiags : diag.Diagnostics)
    (data : GroupResourceModel) : Server -> outcome Response * Server :=
  fun s =>
    if diag.HasError stateDiags
    then (Ok {| Diagnostics := stateDiags; State := None |}, s)
    else
      match Client.DeleteGroup c (types.ValueString (DN data)) s with
      | (Panic msg, s1) => (Panic msg, s1)
      | (Err e, s1) =>
          if negb (strings.Contains e "not found")
          then (Ok (clientError stateDiags
                      ("Unable to delete group, got error: " ++ e)), s1)
          else (Ok {| Diagnostics := stateDiags; State := None |}, s1)
      | (Ok _, s1) => (Ok {| Diagnostics := stateDiags; State := None |}, s1)
      end.

(** [Read]: [stateDiags] and [data] are what reading the prior state gave.
    The response starts with the prior state: [RemoveResource] empties it,
    an error leaves it. *)
Definition Read (c : Client.t Server) (stateDiags : diag.Diagnostics)
    (data : GroupResourceModel) : Server -> outcome Response * Server :=
  fun s =>
    if diag.HasError stateDiags
    then (Ok {| Diagnostics := stateDiags; State := Some data |}, s)
    else
      match Client.GetGroup c (types.ValueString (DN data)) s with
      | (Panic msg, s1) => (Panic msg, s1)
      | (Err e, s1) =>
          if strings.Contains e "not found"
          then (Ok {| Diagnostics := stateDiags; State := None |}, s1)
          else
            (Ok {| Diagnostics :=
                     diag.AddError stateDiags "Client Error"
                       ("Unable to read group, got error: " ++ e);
                   State := Some data |}, s1)
      | (Ok group, s1) =>
          (Ok {| Diagnostics := stateDiags;
                 State := Some (modelOfGroup data group) |}, s1)
      end.

(** The entries that [Update] puts into its map of updates, listed by key
    in the order of the three comparisons. *)
Definition updatesOf (data state : GroupResourceModel)
  : list (string * list string) :=
  (if negb (types.StringEqual (Description data) (Description state))
   then [("description",
          if types.IsNull (Description data) then []
          else [types.ValueString (Description data)])]
   else [])
  ++ (if negb (types.StringEqual (ManagedBy data) (ManagedBy state))
      then [("managedBy",
             if types.IsNull (ManagedBy data) then []
             else [types.ValueString (ManagedBy data)])]
      else [])
  ++ (if negb (types.Int64Equal (GroupType data) (GroupType state))
      then [("groupType",
             [strconv.FormatInt (types.ValueInt64 (GroupType data))])]
      else []).

(** [Update]: [data] is the plan and [state] the prior state, with the
    diagnostics of reading each.  [order] is the order in which the [range]
    loop of [UpdateGroup] visits the map.  The response starts with the
    prior state. *)
Definition Update
    (order : list (string * list string) -> list (string * list string))
    (c : Client.t Server) (planDiags : diag.Diagnostics)
    (data : GroupResourceModel) (stateDiags : diag.Diagnostics)
    (state : GroupResourceModel) : Server -> outcome Response * Server :=
  fun s =>
    let diags := diag.Append planDiags stateDiags in
    if diag.HasError diags
    then (Ok {| Diagnostics := diags; State := Some state |}, s)
    else
      let updates := updatesOf data state in
      let reread s1 :=
        match Client.GetGroup c (types.ValueString (DN data)) s1 with
        | (Panic msg, s2) => (Panic msg, s2)
        | (Err e, s2) =>
            (Ok {| Diagnostics :=
                     diag.AddError diags "Client Error"
                       ("Unable to read group after update, got error: " ++ e);
                   State := Some state |}, s2)
        | (Ok group, s2) =>
            (Ok {| Diagnostics := diags;
                   State := Some (modelOfGroup data group) |}, s2)
        end in
      match updates with
      | [] => reread s
      | _ :: _ =>
          match Client.UpdateGroup c (types.ValueString (DN data))
                  (order updates) s with
          | (Panic msg, s1) => (Panic msg, s1)
          | (Err e, s1) =>
              (Ok {| Diagnostics :=
                       diag.AddError diags "Client Error"
                         ("Unable to update group, got error: " ++ e);
                     State := Some state |}, s1)
          | (Ok _, s1) => reread s1
          end
      end.

End WithServer.

Arguments Create {Server}.
Arguments Delete {Server}.
Arguments Read {Server}.
Arguments Update {Server}.

End GroupResource.

(** ** resource_group_membership.go *)

Module GroupMembershipResource.

(** [GroupMembershipResourceModel] describes the resource data model. *)
Record GroupMembershipResourceModel : Type := {
  ID : types.String;
  GroupDN : types.String;
  MemberDN : types.String
}.

(** The state of a response, by root attribute: [SetAttribute] on a root
    path writes one entry. *)
Definition State : Type := list (string * string).

Fixpoint SetAttribute (st : State) (path value : string) : State :=
  match st with
  | [] => [(path, value)]
  | (p, v) :: st' =>
      if String.eqb p path then (path, value) :: st'
      else (p, v) :: SetAttribute st' path value
  end.

(** The value that a state holds for a root attribute. *)
Fixpoint GetAttribute (st : State) (path : string) : option string :=
  match st with
  | [] => None
  | (p, v) :: st' =>
      if String.eqb p path then Some v else GetAttribute st' path
  end.

Record ImportStateResponse : Type := {
  imp_Diagnostics : diag.Diagnostics;
  imp_State : State
}.

(** [ImportState]; the import format is [groupDN|memberDN].  [Quote] is
    the [%q] verb of package [fmt]. *)
Definition ImportState (Quote : string -> string) (reqID : string)
    (resp : ImportStateResponse) : ImportStateResponse :=
  let parts := strings.Split reqID "|" in
  match parts with
  | [groupDN; memberDN] =>
      let st := SetAttribute (imp_State resp) "id" reqID in
      let st := SetAttribute st "group_dn" groupDN in
      let st := SetAttribute st "member_dn" memberDN in
      {| imp_Diagnostics := imp_Diagnostics resp; imp_State := st |}
  | _ =>
      {| imp_Diagnostics :=
           diag.AddError (imp_Diagnostics resp)
             "Unexpected Import Identifier"
             ("Expected import identifier with format: groupDN|memberDN. Got: "
                ++ Quote reqID);
         imp_State := imp_State resp |}
  end.

Section WithServer.

Variable Server : Type.

(** [Delete]: [stateDiags] and [data] are what reading the prior state
    gave; the result is the diagnostics of the response. *)
Definition Delete (c : Client.t Server) (stateDiags : diag.Diagnostics)
    (data : GroupMembershipResourceModel)
  : Server -> outcome diag.Diagnostics * Server :=
  fun s =>
    if diag.HasError stateDiags then (Ok stateDiags, s)
    else
      let groupDN := types.ValueString (GroupDN data) in
      let memberDN := types.ValueString (MemberDN data) in
      match Client.RemoveMemberFromGroup c groupDN memberDN s with
      | (Panic msg, s1) => (Panic msg, s1)
      | (Err e, s1) =>
          if strings.Contains e "not found"
             || strings.Contains e "does not exist"
             || strings.Contains e "no such object"
          then (Ok stateDiags, s1)
          else
            (Ok (diag.AddError stateDiags "Client Error"
                   ("Unable to remove member from group, got error: "
                      ++ e)), s1)
      | (Ok _, s1) => (Ok stateDiags, s1)
      end.

(** What [Create] and [Read] leave in their response. *)
Record Response : Type := {
  Diagnostics : diag.Diagnostics;
  Saved : option GroupMembershipResourceModel
}.

(** [Create]: [planDiags] and [data] are what reading the plan gave. *)
Definition Create (c : Client.t Server) (planDiags : diag.Diagnostics)
    (data : GroupMembershipResourceModel)
  : Server -> outcome Response * Server :=
  fun s =>
    if diag.HasError planDiags
    then (Ok {| Diagnostics := planDiags; Saved := None |}, s)
    else
      let groupDN := types.ValueString (GroupDN data) in
      let memberDN := types.ValueString (MemberDN data) in
      match Client.GetGroup c groupDN s with
      | (Panic msg, s1) => (Panic msg, s1)
      | (Err e, s1) =>
          (Ok {| Diagnostics :=
                   diag.AddError planDiags "Client Error"
                     ("Unable to find group " ++ groupDN ++ ", got error: "
                        ++ e);
                 Saved := None |}, s1)
      | (Ok _, s1) =>
          match Client.AddMemberToGroup c groupDN memberDN s1 with
          | (Panic msg, s2) => (Panic msg, s2)
          | (Err e, s2) =>
              (Ok {| Diagnostics :=
                       diag.AddError planDiags "Client Error"
                         ("Unable to add member to group, got error: " ++ e);
                     Saved := None |}, s2)
          | (Ok _, s2) =>
              (Ok {| Diagnostics := planDiags;
                     Saved :=
                       Some {| ID := types.StringValue
                                       (groupDN ++ "|" ++ memberDN);
                               GroupDN := GroupDN data;
                               MemberDN := MemberDN data |} |}, s2)
          end
      end.

(** [Read]: [stateDiags] and [data] are what reading the prior state gave;
    [EqualFold] is [strings.EqualFold].  The response starts with the prior
    state. *)
Definition Read (EqualFold : string -> string -> bool) (c : Client.t Server)
    (stateDiags : diag.Diagnostics) (data : GroupMembershipResourceModel)
  : Server -> outcome Response * Server :=
  fun s =>
    if diag.HasError stateDiags
    then (Ok {| Diagnostics := stateDiags; Saved := Some data |}, s)
    else
      let groupDN := types.ValueString (GroupDN data) in
      let memberDN := types.ValueString (MemberDN data) in
      match Client.GetGroup c groupDN s with
      | (Panic msg, s1) => (Panic msg, s1)
      | (Err e, s1) =>
          if strings.Contains e "not found"
          then (Ok {| Diagnostics := stateDiags; Saved := None |}, s1)
          else
            (Ok {| Diagnostics :=
                     diag.AddError stateDiags "Client Error"
                       ("Unable to read group, got error: " ++ e);
                   Saved := Some data |}, s1)
      | (Ok group, s1) =>
          let memberFound :=
            existsb (fun member => EqualFold member memberDN)
              (Client.Members group) in
          if negb memberFound
          then (Ok {| Diagnostics := stateDiags; Saved := None |}, s1)
          else (Ok {| Diagnostics := stateDiags; Saved := Some data |}, s1)
      end.

End WithServer.

Arguments Delete {Server}.
Arguments Create {Server}.
Arguments Read {Server}.

End GroupMembershipResource.

(** ** data_source_groups.go *)

Module GroupsDataSource.

Record GroupsDataSourceGroupModel : Type := {
  DN : types.String;
  CN : types.String;
  Name : types.String;
  SamAccountName : types.String;
  Description : types.String;
  GroupType : types.Int64;
  ManagedBy : types.String;
  ObjectGUID : types.String;
  ObjectSid : types.String
}.

(** [GroupsDataSourceModel] describes the data source data model. *)
Record GroupsDataSourceModel : Type := {
  ID : types.String;
  Filter : types.String;
  Groups : list GroupsDataSourceGroupModel
}.

Record Response : Type := {
  Diagnostics : diag.Diagnostics;
  State : option GroupsDataSourceModel
}.

(** The group type that [Read] reports for a group. *)
Definition groupTypeOf (group : Client.Group) : types.Int64 :=
  if negb (String.eqb (Client.GroupType group) "") then
    match fmt.Sscanf_d (Client.GroupType group) with
    | (groupTypeInt, None) =>
        if (groupTypeInt =? 1)%Z then types.Int64Value groupTypeInt
        else types.Null
    | (_, Some _) => types.Null
    end
  else types.Null.

(** One turn of the loop of [Read]: the model of a group. *)
Definition groupModel (group : Client.Group) : GroupsDataSourceGroupModel :=
  {| DN := types.StringValue (Client.DN group);
     CN := types.StringValue (Client.CN group);
     Name := types.StringValue (Client.Name group);
     SamAccountName := types.StringValue (Client.SamAccountName group);
     Description := types.StringValue (Client.Description group);
     GroupType := groupTypeOf group;
     ManagedBy := types.StringValue (Client.ManagedBy group);
     ObjectGUID := types.StringValue (Client.ObjectGUID group);
     ObjectSid := types.StringValue (Client.ObjectSid group) |}.

(** The filter that [Read] searches with. *)
Definition readFilter (data : GroupsDataSourceModel) : string :=
  if negb (types.IsNull (Filter data))
     && negb (types.IsUnknown (Filter data))
  then types.ValueString (Filter data)
  else "(objectClass=group)".

Section WithServer.

Variable Server : Type.

(** [Read]: [configDiags] and [data] are what reading the configuration
    gave. *)
Definition Read (c : Client.t Server) (configDiags : diag.Diagnostics)
    (data : GroupsDataSourceModel) : Server -> outcome Response * Server :=
  fun s =>
    if diag.HasError configDiags
    then (Ok {| Diagnostics := configDiags; State := None |}, s)
    else
      let filter := readFilter data in
      match Client.ListGroups c filter s with
      | (Panic msg, s1) => (Panic msg, s1)
      | (Err e, s1) =>
          (Ok {| Diagnostics :=
                   diag.AddError configDiags "Client Error"
                     ("Unable to list groups, got error: " ++ e);
                 State := None |}, s1)
      | (Ok groups, s1) =>
          (Ok {| Diagnostics := configDiags;
                 State :=
                   Some {| ID := types.StringValue "groups";
                           Filter := types.StringValue filter;
                           Groups := map groupModel groups |} |}, s1)
      end.

End WithServer.

Arguments Read {Server}.

End GroupsDataSource.

(** ** user.go *)

Module User.

(** [User] represents an Active Directory user. *)
Record User : Type := {
  DN : string;
  CN : string;
  SamAccountName : string;
  UserPrincipalName : string;
  DisplayName : string;
  GivenName : string;
  Surname : string;
  Email : string;
  MemberOf : list string;
  ObjectGUID : string;
  ObjectSid : string
}.

(** The attributes that every user search asks for. *)
Definition userAttributes : list string :=
  ["cn"; "sAMAccountName"; "userPrincipalName"; "displayName"; "givenName";
   "sn"; "mail"; "memberOf"; "objectGUID"; "objectSid"].

(** The [User] literal that [GetUser] and [GetUserBySAM] fill from an
    entry. *)
Definition userOfEntry (entry : ldap.Entry) : User :=
  {| DN := ldap.e_DN entry;
     CN := ldap.GetAttributeValue entry "cn";
     SamAccountName := ldap.GetAttributeValue entry "sAMAccountName";
     UserPrincipalName := ldap.GetAttributeValue entry "userPrincipalName";
     DisplayName := ldap.GetAttributeValue entry "displayName";
     GivenName := ldap.GetAttributeValue entry "givenName";
     Surname := ldap.GetAttributeValue entry "sn";
     Email := ldap.GetAttributeValue entry "mail";
     MemberOf := ldap.GetAttributeValues entry "memberOf";
     ObjectGUID := ldap.GetAttributeValue entry "objectGUID";
     ObjectSid := ldap.GetAttributeValue entry "objectSid" |}.

(** The search requests of [GetUser] and [GetUserBySAM]. *)
Definition getUserRequest (dn : string) : ldap.SearchRequest :=
  ldap.NewSearchRequest dn ldap.ScopeBaseObject ldap.NeverDerefAliases
    0%Z 0%Z false "(objectClass=user)" userAttributes.

Definition samFilter (samAccountName : string) : string :=
  "(&(objectClass=user)(sAMAccountName=" ++ EscapeFilter samAccountName ++ "))".

Definition getUserBySAMRequest (baseDN samAccountName : string)
  : ldap.SearchRequest :=
  ldap.NewSearchRequest baseDN ldap.ScopeWholeSubtree ldap.NeverDerefAliases
    0%Z 0%Z false (samFilter samAccountName) userAttributes.

Section WithServer.

Variable Server : Type.

(** [GetUser] retrieves a user by their distinguished name. *)
Definition GetUser (c : Client.t Server) (dn : string) : M Server User :=
  (result <- wrap ("failed to search for user " ++ dn ++ ": ")
               (Client.Search c (getUserRequest dn)) ;;
   match ldap.Entries result with
   | [] => fail ("user not found: " ++ dn)
   | entry :: _ => ret (userOfEntry entry)
   end)%client.

(** [GetUserBySAM] retrieves a user by their SAM account name. *)
Definition GetUserBySAM (c : Client.t Server) (samAccountName : string)
  : M Server User :=
  (result <- wrap ("failed to search for user with SAM " ++ samAccountName
                     ++ ": ")
               (Client.Search c
                  (getUserBySAMRequest (Client.baseDN c) samAccountName)) ;;
   match ldap.Entries result with
   | [] => fail ("user not found with SAM: " ++ samAccountName)
   | entry :: _ => ret (userOfEntry entry)
   end)%client.

End WithServer.

Arguments GetUser {Server}.
Arguments GetUserBySAM {Server}.

End User.

(** ** client.go: connecting *)

Module Connection.

(** What [ldap.Dial] and [ldap.DialTLS] return: the connection, with its
    [Bind] and [Close]. *)
Record Dialed (Server : Type) : Type := {
  d_conn : ldap.Conn Server;
  d_Bind : string -> string -> Server -> option string * Server;
  d_Close : Server -> Server
}.

Arguments d_conn {Server}.
Arguments d_Bind {Server}.
Arguments d_Close {Server}.

Record TLSConfig : Type := { InsecureSkipVerify : bool }.

(** The two ways to dial, by network and address. *)
Record Dialer (Server : Type) : Type := {
  Dial : string -> string -> Server -> (string + Dialed Server) * Server;
  DialTLS :
    string -> string -> TLSConfig -> Server
    -> (string + Dialed Server) * Server
}.

Arguments Dial {Server}.
Arguments DialTLS {Server}.

Section WithServer.

Variable Server : Type.
Variable dialer : Dialer Server.

(** The address that [connect] dials: [%s:%d] of server and port. *)
Definition address (c : Client.t Server) : string :=
  Client.server _ c ++ ":" ++ strconv.FormatInt (Client.port _ c).

(** [connect] establishes a connection to the LDAP server.  It answers its
    error and the client as it leaves it. *)
Definition connect (c : Client.t Server) (insecure : bool)
  : Server -> (option string * Client.t Server) * Server :=
  fun s =>
    let dialed :=
      if Client.useTLS _ c
      then DialTLS dialer "tcp" (address c)
             {| InsecureSkipVerify := insecure |} s
      else Dial dialer "tcp" (address c) s in
    match dialed with
    | (inl e, s1) =>
        ((Some ("failed to dial LDAP server: " ++ e)%string,
          {| Client.conn := None;
             Client.baseDN := Client.baseDN c;
             Client.username := Client.username _ c;
             Client.password := Client.password _ c;
             Client.server := Client.server _ c;
             Client.port := Client.port _ c;
             Client.useTLS := Client.useTLS _ c |}), s1)
    | (inr d, s1) =>
        let c' :=
          {| Client.conn := Some (d_conn d);
             Client.baseDN := Client.baseDN c;
             Client.username := Client.username _ c;
             Client.password := Client.password _ c;
             Client.server := Client.server _ c;
             Client.port := Client.port _ c;
             Client.useTLS := Client.useTLS _ c |} in
        match d_Bind d (Client.username _ c) (Client.password _ c) s1 with
        | (Some e, s2) =>
            ((Some ("failed to bind to LDAP server: " ++ e)%string, c'), d_Close d s2)
        | (None, s2) => ((None, c'), s2)
        end
    end.

(** [NewClient] creates a new LDAP client. *)
Definition NewClient (config : ADGroupsProvider.ClientConfig)
  : Server -> (string + Client.t Server) * Server :=
  fun s =>
    let client :=
      {| Client.conn := None;
         Client.baseDN := ADGroupsProvider.cfg_BaseDN config;
         Client.username := ADGroupsProvider.cfg_Username config;
         Client.password := ADGroupsProvider.cfg_Password config;
         Client.server := ADGroupsProvider.cfg_Server config;
         Client.port := ADGroupsProvider.cfg_Port config;
         Client.useTLS := ADGroupsProvider.cfg_UseTLS config |} in
    match connect client (ADGroupsProvider.cfg_Insecure config) s with
    | ((Some e, _), s1) =>
        (inl ("failed to connect to LDAP server: " ++ e)%string, s1)
    | ((None, client'), s1) => (inr client', s1)
    end.

(** What [Configure] of the provider leaves in its response. *)
Record ConfigureResponse : Type := {
  Diagnostics : diag.Diagnostics;
  DataSourceData : option (Client.t Server);
  ResourceData : option (Client.t Server)
}.

(** [Configure] of the provider, to its end: the configuration is settled
    as [ADGroupsProvider.Configure] does, then the client is created. *)
Definition Configure (Getenv : ADGroupsProvider.Env)
    (configDiags : diag.Diagnostics)
    (data : ADGroupsProvider.ADGroupsProviderModel)
  : Server -> ConfigureResponse * Server :=
  fun s =>
    match ADGroupsProvider.Configure Getenv configDiags data with
    | (ds, None) =>
        ({| Diagnostics := ds; DataSourceData := None;
            ResourceData := None |}, s)
    | (ds, Some config) =>
        match NewClient config s with
        | (inl e, s1) =>
            ({| Diagnostics :=
                  diag.AddError ds "Unable to Create AD Client"
                    ("An unexpected error occurred when creating the AD client. If the error is not clear, please contact the provider developers.\n\nAD Client Error: "
                       ++ e);
                DataSourceData := None; ResourceData := None |}, s1)
        | (inr adClient, s1) =>
            ({| Diagnostics := ds; DataSourceData := Some adClient;
                ResourceData := Some adClient |}, s1)
        end
    end.

End WithServer.

Arguments address {Server}.
Arguments connect {Server}.
Arguments NewClient {Server}.
Arguments Configure {Server}.
Arguments Diagnostics {Server}.
Arguments DataSourceData {Server}.
Arguments ResourceData {Server}.

End Connection.

(** ** data_source_group.go *)

Module GroupDataSource.

(** [GroupDataSourceModel] describes the data source data model. *)
Record GroupDataSourceModel : Type := {
  ID : types.String;
  DN : types.String;
  CN : types.String;
  Name : types.String;
  SamAccountName : types.String;
  Description : types.String;
  GroupType : types.Int64;
  ManagedBy : types.String;
  Members : list types.String;
  MemberOf : list types.String;
  ObjectGUID : types.String;
  ObjectSid : types.String
}.

Record Response : Type := {
  Diagnostics : diag.Diagnostics;
  State : option GroupDataSourceModel
}.

(** The model that [Read] fills from a group; the group type of the
    configuration stays when the attribute is empty or does not parse. *)
Definition modelOfGroup (data : GroupDataSourceModel) (group : Client.Group)
  : GroupDataSourceModel :=
  {| ID := types.StringValue (Client.DN group);
     DN := types.StringValue (Client.DN group);
     CN := types.StringValue (Client.CN group);
     Name := types.StringValue (Client.Name group);
     SamAccountName := types.StringValue (Client.SamAccountName group);
     Description := types.StringValue (Client.Description group);
     GroupType :=
       if negb (String.eqb (Client.GroupType group) "") then
         match strconv.ParseInt (Client.GroupType group) with
         | inr groupTypeInt => types.Int64Value groupTypeInt
         | inl _ => GroupType data
         end
       else GroupType data;
     ManagedBy := types.StringValue (Client.ManagedBy group);
     Members := map types.StringValue (Client.Members group);
     MemberOf := map types.StringValue (Client.MemberOf group);
     ObjectGUID := types.StringValue (Client.ObjectGUID group);
     ObjectSid := types.StringValue (Client.ObjectSid group) |}.

Section WithServer.

Variable Server : Type.

(** [Read]: [configDiags] and [data] are what reading the configuration
    gave. *)
Definition Read (c : Client.t Server) (configDiags : diag.Diagnostics)
    (data : GroupDataSourceModel) : Server -> outcome Response * Server :=
  fun s =>
    if diag.HasError configDiags
    then (Ok {| Diagnostics := configDiags; State := None |}, s)
    else
      let finish (r : outcome Client.Group * Server) :=
        match r with
        | (Panic msg, s1) => (Panic msg, s1)
        | (Err e, s1) =>
            (Ok {| Diagnostics :=
                     diag.AddError configDiags "Client Error"
                       ("Unable to read group, got error: " ++ e);
                   State := None |}, s1)
        | (Ok group, s1) =>
            (Ok {| Diagnostics := configDiags;
                   State := Some (modelOfGroup data group) |}, s1)
        end in
      if negb (types.IsNull (DN data)) && negb (types.IsUnknown (DN data))
      then finish (Client.GetGroup c (types.ValueString (DN data)) s)
      else if negb (types.IsNull (CN data)) && negb (types.IsUnknown (CN data))
      then finish (Client.GetGroupByCN c (types.ValueString (CN data)) s)
      else
        (Ok {| Diagnostics :=
                 diag.AddError configDiags "Missing Required Attribute"
                   "Either 'dn' or 'cn' must be specified to look up the group.";
               State := None |}, s).

End WithServer.

Arguments Read {Server}.

End GroupDataSource.

(** ** data_source_user.go *)

Module UserDataSource.

(** [Read]: a placeholder, which reports that it is not implemented.  It
    reads the configuration and nothing else; [configDiags] are the
    diagnostics of reading it. *)
Definition Read (configDiags : diag.Diagnostics) : diag.Diagnostics :=
  if diag.HasError configDiags then configDiags
  else
    diag.AddError configDiags "Not Implemented"
      "User data source is not yet implemented. This is a placeholder for future functionality.".

End UserDataSource.

(** ** Reading escaped values back

    The client only escapes.  The two functions below undo the escaping, to
    show that it loses nothing. *)

Module Unescape.

(** A backslash and the character after it stand for that character,
    except that [\0A], [\0D] and [\00] stand for newline, carriage return
    and NUL. *)
Fixpoint DN (s : string) : string :=
  match s with
  | EmptyString => EmptyString
  | String c rest =>
      if Ascii.eqb c "\" then
        match rest with
        | EmptyString => str1 c
        | String d rest1 =>
            if Ascii.eqb d "0" then
              match rest1 with
              | EmptyString => str1 d
              | String h rest2 =>
                  if Ascii.eqb h "A" then String LF (DN rest2)
                  else if Ascii.eqb h "D" then String CR (DN rest2)
                  else if Ascii.eqb h "0" then String NUL (DN rest2)
                  else String d (DN rest1)
              end
            else String d (DN rest1)
        end
      else String c (DN rest)
  end.

(** The byte that two hexadecimal digits of a filter escape stand for, for
    the five escapes that [EscapeFilter] writes. *)
Definition filterByte (h1 h2 : ascii) : option ascii :=
  if Ascii.eqb h1 "5" && Ascii.eqb h2 "c" then Some "\"%char
  else if Ascii.eqb h1 "2" && Ascii.eqb h2 "a" then Some "*"%char
  else if Ascii.eqb h1 "2" && Ascii.eqb h2 "8" then Some "("%char
  else if Ascii.eqb h1 "2" && Ascii.eqb h2 "9" then Some ")"%char
  else if Ascii.eqb h1 "0" && Ascii.eqb h2 "0" then Some NUL
  else None.

Fixpoint Filter (s : string) : string :=
  match s with
  | EmptyString => EmptyString
  | String c rest =>
      if Ascii.eqb c "\" then
        match rest with
        | String h1 (String h2 rest2) =>
            match filterByte h1 h2 with
            | Some b => String b (Filter rest2)
            | None => String c (Filter rest)
            end
        | _ => String c (Filter rest)
        end
      else String c (Filter rest)
  end.

End Unescape.

(** ** A directory server to run the client against

    The server is outside the repository.  This one keeps its entries in a
    list, answers as RFC 4511 asks (no such object for a DN that is not
    there, no such attribute for a value that is not there), with an empty
    diagnostic message, and evaluates equality filters [(attr=value)]. *)

Module Directory.

Definition t : Type := list ldap.Entry.

Fixpoint find (d : t) (dn : string) : option ldap.Entry :=
  match d with
  | [] => None
  | e :: d' => if String.eqb (ldap.e_DN e) dn then Some e else find d' dn
  end.

Definition remove (d : t) (dn : string) : t :=
  filter (fun e => negb (String.eqb (ldap.e_DN e) dn)) d.

Fixpoint replace (d : t) (e : ldap.Entry) : t :=
  match d with
  | [] => []
  | e' :: d' =>
      if String.eqb (ldap.e_DN e') (ldap.e_DN e) then e :: d'
      else e' :: replace d' e
  end.

Definition mem (v : string) (vs : list string) : bool :=
  existsb (String.eqb v) vs.

(** [(attr=value)] read as the pair of [attr] and [value]. *)
Definition equalityFilter (f : string) : option (string * string) :=
  match f with
  | String "(" inner =>
      match strings.Split inner ")" with
      | [item; EmptyString] =>
          match strings.Split item "=" with
          | [attr; value] => Some (attr, value)
          | _ => None
          end
      | _ => None
      end
  | _ => None
  end.

Definition matches (f : string) (e : ldap.Entry) : bool :=
  match equalityFilter f with
  | Some (attr, value) => mem value (ldap.GetAttributeValues e attr)
  | None => false
  end.

(** [dn] lies under [base]: it is [base] or ends with a comma and [base]. *)
Fixpoint under (dn base : string) : bool :=
  String.eqb dn base ||
  match dn with
  | EmptyString => false
  | String c dn' => (Ascii.eqb c "," && String.eqb dn' base) || under dn' base
  end.

(** The attributes of an entry that a search asked for. *)
Definition project (names : list string) (e : ldap.Entry) : ldap.Entry :=
  {| ldap.e_DN := ldap.e_DN e;
     ldap.e_Attributes :=
       filter (fun a => mem (ldap.ea_Name a) names) (ldap.e_Attributes e) |}.

Definition search (req : ldap.SearchRequest) (d : t)
  : (string + ldap.SearchResult) * t :=
  let found (es : list ldap.Entry) :=
    inr {| ldap.Entries :=
             map (project (ldap.sr_Attributes req))
               (filter (matches (ldap.sr_Filter req)) es) |} in
  match find d (ldap.sr_BaseDN req) with
  | None => (inl (ldap.noSuchObject ""), d)
  | Some e =>
      match ldap.sr_Scope req with
      | ldap.ScopeBaseObject => (found [e], d)
      | _ =>
          (found (filter (fun e' => under (ldap.e_DN e') (ldap.sr_BaseDN req)) d),
           d)
      end
  end.

Definition add (req : ldap.AddRequest) (d : t) : option string * t :=
  match find d (ldap.ar_DN req) with
  | Some _ => (Some (ldap.entryAlreadyExists ""), d)
  | None =>
      (None,
       d ++ [ {| ldap.e_DN := ldap.ar_DN req;
                 ldap.e_Attributes :=
                   map (fun a => {| ldap.ea_Name := ldap.at_Type a;
                                    ldap.ea_Values := ldap.at_Vals a |})
                     (ldap.ar_Attributes req) |} ])
  end.

Definition del (req : ldap.DelRequest) (d : t) : option string * t :=
  match find d (ldap.dr_DN req) with
  | None => (Some (ldap.noSuchObject ""), d)
  | Some _ => (None, remove d (ldap.dr_DN req))
  end.

Definition setValues (e : ldap.Entry) (name : string) (vs : list string)
  : ldap.Entry :=
  let others :=
    filter (fun a => negb (String.eqb (ldap.ea_Name a) name))
      (ldap.e_Attributes e) in
  {| ldap.e_DN := ldap.e_DN e;
     ldap.e_Attributes :=
       match vs with
       | [] => others
       | _ => others ++ [ {| ldap.ea_Name := name; ldap.ea_Values := vs |} ]
       end |}.

(** One change of a modify request on an entry. *)
Definition change (e : ldap.Entry) (ch : ldap.Change) : string + ldap.Entry :=
  let name := ldap.ch_Type ch in
  let old := ldap.GetAttributeValues e name in
  match ldap.ch_Operation ch with
  | ldap.AddAttribute =>
      if existsb (fun v => mem v old) (ldap.ch_Vals ch)
      then inl (ldap.errorText "20" "Attribute Or Value Exists" "")
      else inr (setValues e name (old ++ ldap.ch_Vals ch))
  | ldap.DeleteAttribute =>
      match old, ldap.ch_Vals ch with
      | [], _ => inl (ldap.noSuchAttribute "")
      | _, [] => inr (setValues e name [])
      | _, vs =>
          if forallb (fun v => mem v old) vs
          then inr (setValues e name
                      (filter (fun v => negb (mem v vs)) old))
          else inl (ldap.noSuchAttribute "")
      end
  | ldap.ReplaceAttribute => inr (setValues e name (ldap.ch_Vals ch))
  end.

Fixpoint changes (e : ldap.Entry) (chs : list ldap.Change)
  : string + ldap.Entry :=
  match chs with
  | [] => inr e
  | ch :: chs' =>
      match change e ch with
      | inl err => inl err
      | inr e' => changes e' chs'
      end
  end.

Definition modify (req : ldap.ModifyRequest) (d : t) : option string * t :=
  match find d (ldap.mr_DN req) with
  | None => (Some (ldap.noSuchObject ""), d)
  | Some e =>
      match changes e (ldap.mr_Changes req) with
      | inl err => (Some err, d)
      | inr e' => (None, replace d e')
      end
  end.

Definition modifyDN (req : ldap.ModifyDNRequest) (d : t) : option string * t :=
  match find d (ldap.md_DN req) with
  | None => (Some (ldap.noSuchObject ""), d)
  | Some e =>
      let dn := (ldap.md_NewRDN req ++ "," ++ ldap.md_NewSuperior req)%string in
      match find d dn with
      | Some _ => (Some (ldap.entryAlreadyExists ""), d)
      | None =>
          (None,
           remove d (ldap.md_DN req)
             ++ [ {| ldap.e_DN := dn;
                     ldap.e_Attributes := ldap.e_Attributes e |} ])
      end
  end.

(** A connection to this server. *)
Definition conn : ldap.Conn t :=
  {| ldap.conn_Search := search;
     ldap.conn_Add := add;
     ldap.conn_Modify := modify;
     ldap.conn_Del := del;
     ldap.conn_ModifyDN := modifyDN |}.

(** A client bound to this server, and one that never connected. *)
Definition client : Client.t t :=
  {| Client.conn := Some conn;
     Client.baseDN := "DC=x";
     Client.username := "CN=admin,DC=x";
     Client.password := "secret";
     Client.server := "ad.example.com";
     Client.port := 389%Z;
     Client.useTLS := false |}.

Definition unconnected : Client.t t :=
  {| Client.conn := None;
     Client.baseDN := "DC=x";
     Client.username := "CN=admin,DC=x";
     Client.password := "secret";
     Client.server := "ad.example.com";
     Client.port := 389%Z;
     Client.useTLS := false |}.

(** A directory with the root, and one that also has a group with one
    member. *)
Definition root : ldap.Entry :=
  {| ldap.e_DN := "DC=x";
     ldap.e_Attributes :=
       [ {| ldap.ea_Name := "objectClass"; ldap.ea_Values := ["top"; "domain"] |} ] |}.

Definition staff : ldap.Entry :=
  {| ldap.e_DN := "CN=staff,DC=x";
     ldap.e_Attributes :=
       [ {| ldap.ea_Name := "objectClass"; ldap.ea_Values := ["top"; "group"] |};
         {| ldap.ea_Name := "cn"; ldap.ea_Values := ["staff"] |};
         {| ldap.ea_Name := "groupType"; ldap.ea_Values := ["-2147483646"] |};
         {| ldap.ea_Name := "member"; ldap.ea_Values := ["CN=ann,DC=x"] |} ] |}.

Definition empty : t := [root].
Definition withStaff : t := [root; staff].

End Directory.

(** ** Inputs to run the adapters on *)

Module Examples.

Definition groupAt (dn : string) : GroupResource.GroupResourceModel :=
  {| GroupResource.ID := types.Known dn;
     GroupResource.DN := types.Known dn;
     GroupResource.CN := types.Null;
     GroupResource.Name := types.Null;
     GroupResource.SamAccountName := types.Null;
     GroupResource.Description := types.Null;
     GroupResource.GroupType := types.Null;
     GroupResource.ManagedBy := types.Null;
     GroupResource.OU := types.Null;
     GroupResource.ObjectGUID := types.Null;
     GroupResource.ObjectSid := types.Null |}.

(** The plan of a group [eng] under [DC=x]. *)
Definition engPlan : GroupResource.GroupResourceModel :=
  {| GroupResource.ID := types.Unknown;
     GroupResource.DN := types.Unknown;
     GroupResource.CN := types.Known "eng";
     GroupResource.Name := types.Unknown;
     GroupResource.SamAccountName := types.Unknown;
     GroupResource.Description := types.Known "Engineering team";
     GroupResource.GroupType := types.Known (-2147483646)%Z;
     GroupResource.ManagedBy := types.Null;
     GroupResource.OU := types.Known "DC=x";
     GroupResource.ObjectGUID := types.Unknown;
     GroupResource.ObjectSid := types.Unknown |}.

Definition membership (groupDN memberDN : string)
  : GroupMembershipResource.GroupMembershipResourceModel :=
  {| GroupMembershipResource.ID :=
       types.Known (groupDN ++ "|" ++ memberDN)%string;
     GroupMembershipResource.GroupDN := types.Known groupDN;
     GroupMembershipResource.MemberDN := types.Known memberDN |}.

(** A provider configuration that asks for TLS and names no port. *)
Definition tlsNoPort : ADGroupsProvider.ADGroupsProviderModel :=
  {| ADGroupsProvider.Server := types.Known "ad.example.com";
     ADGroupsProvider.Port := types.Null;
     ADGroupsProvider.BaseDN := types.Known "DC=x";
     ADGroupsProvider.Username := types.Known "CN=admin,DC=x";
     ADGroupsProvider.Password := types.Known "secret";
     ADGroupsProvider.UseTLS := types.Known true;
     ADGroupsProvider.Insecure := types.Null |}.

(** An environment in which only [AD_PORT] is set, to the LDAPS port. *)
Definition portEnv : ADGroupsProvider.Env :=
  fun name => if String.eqb name "AD_PORT" then "636" else "".

Definition noEnv : ADGroupsProvider.Env := fun _ => "".



(** The state of the group [CN=staff,DC=x] as Terraform holds it. *)
Definition staffState : GroupResource.GroupResourceModel :=
  {| GroupResource.ID := types.Known "CN=staff,DC=x";
     GroupResource.DN := types.Known "CN=staff,DC=x";
     GroupResource.CN := types.Known "staff";
     GroupResource.Name := types.Known "staff";
     GroupResource.SamAccountName := types.Known "staff";
     GroupResource.Description := types.Known "All staff";
     GroupResource.GroupType := types.Known (-2147483646)%Z;
     GroupResource.ManagedBy := types.Null;
     GroupResource.OU := types.Known "DC=x";
     GroupResource.ObjectGUID := types.Known "";
     GroupResource.ObjectSid := types.Known "" |}.

(** Plans for that group: without the description, and with another group
    type. *)
Definition staffWithoutDescription : GroupResource.GroupResourceModel :=
  {| GroupResource.ID := types.Known "CN=staff,DC=x";
     GroupResource.DN := types.Known "CN=staff,DC=x";
     GroupResource.CN := types.Known "staff";
     GroupResource.Name := types.Known "staff";
     GroupResource.SamAccountName := types.Known "staff";
     GroupResource.Description := types.Null;
     GroupResource.GroupType := types.Known (-2147483646)%Z;
     GroupResource.ManagedBy := types.Null;
     GroupResource.OU := types.Known "DC=x";
     GroupResource.ObjectGUID := types.Known "";
     GroupResource.ObjectSid := types.Known "" |}.

Definition staffUniversal : GroupResource.GroupResourceModel :=
  {| GroupResource.ID := types.Known "CN=staff,DC=x";
     GroupResource.DN := types.Known "CN=staff,DC=x";
     GroupResource.CN := types.Known "staff";
     GroupResource.Name := types.Known "staff";
     GroupResource.SamAccountName := types.Known "staff";
     GroupResource.Description := types.Known "All staff";
     GroupResource.GroupType := types.Known (-2147483640)%Z;
     GroupResource.ManagedBy := types.Null;
     GroupResource.OU := types.Known "DC=x";
     GroupResource.ObjectGUID := types.Known "";
     GroupResource.ObjectSid := types.Known "" |}.

(** A directory in which the group has that description. *)
Definition described : Directory.t :=
  [ Directory.root;
    {| ldap.e_DN := "CN=staff,DC=x";
       ldap.e_Attributes :=
         [ {| ldap.ea_Name := "objectClass"; ldap.ea_Values := ["top"; "group"] |};
           {| ldap.ea_Name := "cn"; ldap.ea_Values := ["staff"] |};
           {| ldap.ea_Name := "description"; ldap.ea_Values := ["All staff"] |};
           {| ldap.ea_Name := "groupType"; ldap.ea_Values := ["-2147483646"] |} ] |} ].

(** The configuration of a group lookup, by DN and by common name. *)
Definition lookup (dn cn : types.String)
  : GroupDataSource.GroupDataSourceModel :=
  {| GroupDataSource.ID := types.Null;
     GroupDataSource.DN := dn;
     GroupDataSource.CN := cn;
     GroupDataSource.Name := types.Null;
     GroupDataSource.SamAccountName := types.Null;
     GroupDataSource.Description := types.Null;
     GroupDataSource.GroupType := types.Null;
     GroupDataSource.ManagedBy := types.Null;
     GroupDataSource.Members := [];
     GroupDataSource.MemberOf := [];
     GroupDataSource.ObjectGUID := types.Null;
     GroupDataSource.ObjectSid := types.Null |}.

(** A network on which every dial reaches the directory, and the bind is
    accepted for one password only. *)
Definition reached : Connection.Dialed Directory.t :=
  {| Connection.d_conn := Directory.conn;
     Connection.d_Bind :=
       fun _ password d =>
         if String.eqb password "secret" then (None, d)
         else (Some (ldap.errorText "49" "Invalid Credentials" ""), d);
     Connection.d_Close := fun d => d |}.

Definition network : Connection.Dialer Directory.t :=
  {| Connection.Dial := fun _ _ d => (inr reached, d);
     Connection.DialTLS := fun _ _ _ d => (inr reached, d) |}.

(** Client configurations: over plain LDAP, and over TLS with a password
    that the directory does not accept. *)
Definition plainConfig : ADGroupsProvider.ClientConfig :=
  {| ADGroupsProvider.cfg_Server := "ad.example.com";
     ADGroupsProvider.cfg_Port := 389%Z;
     ADGroupsProvider.cfg_BaseDN := "DC=x";
     ADGroupsProvider.cfg_Username := "CN=admin,DC=x";
     ADGroupsProvider.cfg_Password := "secret";
     ADGroupsProvider.cfg_UseTLS := false;
     ADGroupsProvider.cfg_Insecure := false |}.

Definition wrongPassword : ADGroupsProvider.ClientConfig :=
  {| ADGroupsProvider.cfg_Server := "ad.example.com";
     ADGroupsProvider.cfg_Port := 636%Z;
     ADGroupsProvider.cfg_BaseDN := "DC=x";
     ADGroupsProvider.cfg_Username := "CN=admin,DC=x";
     ADGroupsProvider.cfg_Password := "guess";
     ADGroupsProvider.cfg_UseTLS := true;
     ADGroupsProvider.cfg_Insecure := false |}.

(** A network on which nothing answers. *)
Definition unreachable : Connection.Dialer Directory.t :=
  {| Connection.Dial :=
       fun _ address d => (inl ("dial tcp " ++ address ++ ": connection refused")%string, d);
     Connection.DialTLS :=
       fun _ address _ d => (inl ("dial tcp " ++ address ++ ": connection refused")%string, d) |}.

End Examples.

(** * Properties *)

(** ** Strings *)

Lemma append_empty_r (s : string) : (s ++ "")%string = s.
Proof.
  induction s as [| c s IH]; simpl; [reflexivity | now rewrite IH].
Qed.

Lemma append_assoc (s1 s2 s3 : string) :
  ((s1 ++ s2) ++ s3)%string = (s1 ++ (s2 ++ s3))%string.
Proof.
  induction s1 as [| c s1 IH]; simpl; [reflexivity | now rewrite IH].
Qed.

Lemma lookup_none_iff (r : strings.Replacer) (b : ascii) :
  strings.lookup r b = None <-> ~ In b (strings.olds r).
Proof.
  induction r as [| [old new] r IH]; simpl.
  - tauto.
  - destruct (Ascii.eqb_spec old b) as [-> | Hne].
    + split; [discriminate | intros H; exfalso; apply H; now left].
    + rewrite IH. split.
      * intros H [Heq | Hin]; [now apply Hne | now apply H].
      * intros H Hin. apply H. now right.
Qed.

(** A replacer leaves alone a string none of whose bytes it has an entry
    for. *)
Lemma Replace_unchanged (r : strings.Replacer) (s : string) :
  (forall c, In c (bytes s) -> ~ In c (strings.olds r)) ->
  strings.Replace r s = s.
Proof.
  induction s as [| b s IH]; simpl; intros H.
  - reflexivity.
  - assert (Hb : strings.lookup r b = None).
    { apply lookup_none_iff. apply H. now left. }
    rewrite Hb. f_equal. apply IH. intros c Hc. apply H. now right.
Qed.

(** Each escaper has an entry for exactly the special characters listed. *)
Lemma dnReplacer_olds : strings.olds dnReplacer = dnSpecials.
Proof. reflexivity. Qed.

Lemma filterReplacer_olds : strings.olds filterReplacer = filterSpecials.
Proof. reflexivity. Qed.

(** C3: a string that contains none of the special characters of an escaper
    comes back unchanged, from [EscapeDN] (backslash, comma, plus, double
    quote, angle brackets, semicolon, equals, newline, carriage return, NUL)
    and from [EscapeFilter] (backslash, asterisk, parentheses, NUL). *)
Theorem escape_without_specials_unchanged (s : string) :
  ((forall c, In c (bytes s) -> ~ In c dnSpecials) -> EscapeDN s = s)
  /\ ((forall c, In c (bytes s) -> ~ In c filterSpecials) ->
      EscapeFilter s = s).
Proof.
  split; intros H.
  - apply Replace_unchanged. now rewrite dnReplacer_olds.
  - apply Replace_unchanged. now rewrite filterReplacer_olds.
Qed.

Lemma no_special_in (l : list ascii) (specials : list ascii) :
  forallb (fun c => negb (existsb (Ascii.eqb c) specials)) l = true ->
  forall c, In c l -> ~ In c specials.
Proof.
  intros H c Hc Hs.
  rewrite forallb_forall in H. specialize (H c Hc).
  apply negb_true_iff in H.
  assert (Ht : existsb (Ascii.eqb c) specials = true).
  { apply existsb_exists. exists c. split; [assumption | apply Ascii.eqb_refl]. }
  congruence.
Qed.

Lemma escape_without_specials_unchanged_witness :
  EscapeDN "Domain Admins" = "Domain Admins"
  /\ EscapeFilter "Domain Admins" = "Domain Admins".
Proof.
  destruct (escape_without_specials_unchanged "Domain Admins") as [Hdn Hfilter].
  split.
  - apply Hdn. apply no_special_in. vm_compute. reflexivity.
  - apply Hfilter. apply no_special_in. vm_compute. reflexivity.
Defined.

(** ** Splitting *)

Lemma splitFrom_length (sep : ascii) (s cur : string) :
  List.length (strings.splitFrom sep cur s) = S (strings.Count s sep).
Proof.
  revert cur. induction s as [| c s IH]; intros cur; simpl.
  - reflexivity.
  - destruct (Ascii.eqb c sep); simpl; now rewrite IH.
Qed.

(** [Split] answers one more field than the string has separators; in
    particular it never answers the empty list. *)
Lemma Split_length (s : string) (sep : ascii) :
  List.length (strings.Split s sep) = S (strings.Count s sep).
Proof. apply splitFrom_length. Qed.

Lemma Split_cons (s : string) (sep : ascii) :
  exists first rest, strings.Split s sep = first :: rest.
Proof.
  pose proof (Split_length s sep) as H.
  destruct (strings.Split s sep) as [| first rest]; [discriminate |].
  now exists first, rest.
Qed.

(** ** Diagnostics *)

Lemma equal_isError (d1 d2 : diag.Diagnostic) :
  diag.equal d1 d2 = true -> diag.isError d2 = diag.isError d1.
Proof.
  unfold diag.equal. intros H.
  apply andb_true_iff in H. destruct H as [H _].
  apply andb_true_iff in H. destruct H as [H _].
  symmetry. now apply Bool.eqb_prop.
Qed.

(** After [AddError] the diagnostics have an error. *)
Lemma HasError_AddError (ds : diag.Diagnostics) (summary detail : string) :
  diag.HasError (diag.AddError ds summary detail) = true.
Proof.
  unfold diag.AddError, diag.HasError.
  destruct (existsb (diag.equal _) ds) eqn:Hdup.
  - apply existsb_exists in Hdup. destruct Hdup as [d [Hin Heq]].
    apply existsb_exists. exists d. split; [assumption |].
    now rewrite (equal_isError _ _ Heq).
  - rewrite existsb_app. simpl. now rewrite orb_true_r.
Qed.

(** Without an error before, [AddError] appends one diagnostic. *)
Lemma AddError_fresh (ds : diag.Diagnostics) (summary detail : string) :
  diag.HasError ds = false ->
  diag.AddError ds summary detail
  = ds ++ [ {| diag.severity := diag.SeverityError;
               diag.Summary := summary; diag.Detail := detail |} ].
Proof.
  unfold diag.AddError, diag.HasError. intros H.
  destruct (existsb (diag.equal _) ds) eqn:Hdup; [| reflexivity].
  apply existsb_exists in Hdup. destruct Hdup as [d [Hin Heq]].
  apply equal_isError in Heq. simpl in Heq.
  assert (Ht : existsb diag.isError ds = true).
  { apply existsb_exists. now exists d. }
  congruence.
Qed.

(** ** Import of a group membership *)

Lemma GetAttribute_SetAttribute_same
    (st : GroupMembershipResource.State) (path value : string) :
  GroupMembershipResource.GetAttribute
    (GroupMembershipResource.SetAttribute st path value) path = Some value.
Proof.
  induction st as [| [p v] st IH]; simpl.
  - now rewrite String.eqb_refl.
  - destruct (String.eqb p path) eqn:E; simpl.
    + now rewrite String.eqb_refl.
    + now rewrite E.
Qed.

Lemma GetAttribute_SetAttribute_other
    (st : GroupMembershipResource.State) (path path' value : string) :
  path <> path' ->
  GroupMembershipResource.GetAttribute
    (GroupMembershipResource.SetAttribute st path value) path'
  = GroupMembershipResource.GetAttribute st path'.
Proof.
  intros Hne. induction st as [| [p v] st IH]; simpl.
  - destruct (String.eqb_spec path path'); [contradiction | reflexivity].
  - destruct (String.eqb_spec p path) as [-> | Hp]; simpl.
    + destruct (String.eqb_spec path path'); [contradiction | reflexivity].
    + destruct (String.eqb p path'); [reflexivity | assumption].
Qed.

(** An identifier that does not have exactly one separator is refused:
    one error more, and the state as it was. *)
Lemma ImportState_refused (Quote : string -> string) (reqID : string)
    (resp : GroupMembershipResource.ImportStateResponse) :
  strings.Count reqID "|" <> 1 ->
  GroupMembershipResource.ImportState Quote reqID resp
  = {| GroupMembershipResource.imp_Diagnostics :=
         diag.AddError (GroupMembershipResource.imp_Diagnostics resp)
           "Unexpected Import Identifier"
           ("Expected import identifier with format: groupDN|memberDN. Got: "
              ++ Quote reqID);
       GroupMembershipResource.imp_State :=
         GroupMembershipResource.imp_State resp |}.
Proof.
  intros Hcount. unfold GroupMembershipResource.ImportState.
  pose proof (Split_length reqID "|") as Hlen.
  destruct (strings.Split reqID "|") as [| a [| b [| c parts]]];
    try reflexivity.
  simpl in Hlen. exfalso. apply Hcount. congruence.
Qed.

(** C5: the import identifier [CN=g,DC=x|CN=u,DC=x] is read as the group DN
    [CN=g,DC=x] and the member DN [CN=u,DC=x], with no diagnostic added; an
    identifier that does not contain exactly one [|] gets a validation error
    and leaves the state as it was. *)
Theorem membership_import_identifier (Quote : string -> string)
    (resp : GroupMembershipResource.ImportStateResponse) :
  (let resp' :=
     GroupMembershipResource.ImportState Quote "CN=g,DC=x|CN=u,DC=x" resp in
   GroupMembershipResource.GetAttribute
     (GroupMembershipResource.imp_State resp') "group_dn" = Some "CN=g,DC=x"
   /\ GroupMembershipResource.GetAttribute
        (GroupMembershipResource.imp_State resp') "member_dn" = Some "CN=u,DC=x"
   /\ GroupMembershipResource.GetAttribute
        (GroupMembershipResource.imp_State resp') "id"
      = Some "CN=g,DC=x|CN=u,DC=x"
   /\ GroupMembershipResource.imp_Diagnostics resp'
      = GroupMembershipResource.imp_Diagnostics resp)
  /\ (forall reqID : string,
        strings.Count reqID "|" <> 1 ->
        let resp' := GroupMembershipResource.ImportState Quote reqID resp in
        diag.HasError (GroupMembershipResource.imp_Diagnostics resp') = true
        /\ GroupMembershipResource.imp_Diagnostics resp'
           = diag.AddError (GroupMembershipResource.imp_Diagnostics resp)
               "Unexpected Import Identifier"
               ("Expected import identifier with format: groupDN|memberDN. Got: "
                  ++ Quote reqID)
        /\ GroupMembershipResource.imp_State resp'
           = GroupMembershipResource.imp_State resp).
Proof.
  split.
  - cbn zeta.
    change (GroupMembershipResource.ImportState Quote "CN=g,DC=x|CN=u,DC=x" resp)
      with {| GroupMembershipResource.imp_Diagnostics :=
                GroupMembershipResource.imp_Diagnostics resp;
              GroupMembershipResource.imp_State :=
                GroupMembershipResource.SetAttribute
                  (GroupMembershipResource.SetAttribute
                     (GroupMembershipResource.SetAttribute
                        (GroupMembershipResource.imp_State resp)
                        "id" "CN=g,DC=x|CN=u,DC=x")
                     "group_dn" "CN=g,DC=x")
                  "member_dn" "CN=u,DC=x" |}.
    cbn [GroupMembershipResource.imp_State
           GroupMembershipResource.imp_Diagnostics].
    repeat split.
    + rewrite GetAttribute_SetAttribute_other by discriminate.
      apply GetAttribute_SetAttribute_same.
    + apply GetAttribute_SetAttribute_same.
    + rewrite !GetAttribute_SetAttribute_other by discriminate.
      apply GetAttribute_SetAttribute_same.
  - intros reqID Hcount resp'. subst resp'.
    rewrite (ImportState_refused Quote reqID resp Hcount). simpl.
    repeat split. apply HasError_AddError.
Qed.

Lemma membership_import_identifier_witness :
  let resp :=
    GroupMembershipResource.ImportState quoted "CN=g,DC=x"
      {| GroupMembershipResource.imp_Diagnostics := [];
         GroupMembershipResource.imp_State := [] |} in
  strings.Count "CN=g,DC=x" "|" <> 1
  /\ diag.HasError (GroupMembershipResource.imp_Diagnostics resp) = true
  /\ GroupMembershipResource.imp_State resp = [].
Proof.
  assert (Hcount : strings.Count "CN=g,DC=x" "|" <> 1) by (vm_compute; lia).
  split; [exact Hcount |].
  destruct (membership_import_identifier quoted
              {| GroupMembershipResource.imp_Diagnostics := [];
                 GroupMembershipResource.imp_State := [] |}) as [_ H].
  destruct (H "CN=g,DC=x" Hcount) as [Herr [_ Hstate]].
  split; [exact Herr | exact Hstate].
Defined.

(** ** Decimal rendering and parsing *)

Section Decimal.
Local Open Scope Z_scope.
Import strconv.

Lemma byteVal_digitChar (d : Z) :
  0 <= d <= 9 -> byteVal (digitChar d) = 48 + d.
Proof.
  intros H.
  assert (Hd : d = 0 \/ d = 1 \/ d = 2 \/ d = 3 \/ d = 4 \/ d = 5 \/ d = 6
               \/ d = 7 \/ d = 8 \/ d = 9) by lia.
  repeat (destruct Hd as [-> | Hd]; [reflexivity |]).
  subst d. reflexivity.
Qed.

Lemma isDigit_digitChar (d : Z) : 0 <= d <= 9 -> isDigit (digitChar d) = true.
Proof.
  intros H. unfold isDigit. rewrite (byteVal_digitChar d H).
  apply andb_true_iff. split; apply Z.leb_le; lia.
Qed.

Lemma isDigit_bounds (c : ascii) :
  isDigit c = true -> 48 <= byteVal c <= 57.
Proof.
  unfold isDigit. intros H. apply andb_true_iff in H.
  destruct H as [H1 H2]. apply Z.leb_le in H1. apply Z.leb_le in H2. lia.
Qed.

Lemma parseLoop_app (s1 s2 : string) (n : Z) :
  parseLoop n (s1 ++ s2)
  = match parseLoop n s1 with
    | inr m => parseLoop m s2
    | inl e => inl e
    end.
Proof.
  revert n. induction s1 as [| c s1 IH]; intros n; simpl.
  - reflexivity.
  - destruct (negb (isDigit c)); [reflexivity |].
    destruct (Z.leb _ n); [reflexivity |].
    destruct (Z.ltb _ _); [reflexivity |].
    apply IH.
Qed.

(** Reading one more digit after [n]. *)
Lemma parseLoop_digit (n d : Z) :
  0 <= d <= 9 -> 0 <= n -> n * 10 + d <= maxUint64 ->
  parseLoop n (str1 (digitChar d)) = inr (n * 10 + d).
Proof.
  intros Hd Hn Hmax. unfold str1. cbn [parseLoop].
  rewrite (isDigit_digitChar d Hd). cbn [negb].
  rewrite (byteVal_digitChar d Hd).
  replace (48 + d - 48) with d by lia.
  assert (Hcut : (maxUint64 / 10 + 1 <=? n) = false).
  { apply Z.leb_gt. unfold maxUint64 in *.
    change (2 ^ 64 - 1) with 18446744073709551615 in *.
    change (18446744073709551615 / 10) with 1844674407370955161. lia. }
  rewrite Hcut.
  assert (Hover : (maxUint64 <? n * 10 + d) = false) by (apply Z.ltb_ge; lia).
  now rewrite Hover.
Qed.

(** The digits of a number are read back as the number. *)
Lemma parseLoop_formatBits (fuel : nat) (u : Z) :
  0 <= u < 2 ^ (Z.of_nat fuel + 1) -> u <= maxUint64 ->
  parseLoop 0 (formatBits fuel u) = inr u.
Proof.
  revert u. induction fuel as [| fuel IH]; intros u Hu Hmax.
  - cbn [formatBits]. change (2 ^ (Z.of_nat 0 + 1)) with 2 in Hu.
    rewrite parseLoop_digit by lia. f_equal; lia.
  - cbn [formatBits]. destruct (Z.ltb_spec u 10) as [Hlt | Hge].
    + rewrite parseLoop_digit by lia. f_equal; lia.
    + rewrite parseLoop_app.
      assert (Hdiv : 0 <= u / 10 < 2 ^ (Z.of_nat fuel + 1)).
      { split; [apply Z.div_pos; lia |].
        apply Z.div_lt_upper_bound; [lia |].
        replace (Z.of_nat (S fuel) + 1) with (Z.succ (Z.of_nat fuel + 1)) in Hu
          by lia.
        rewrite Z.pow_succ_r in Hu by lia. lia. }
      assert (Hle : u / 10 <= u) by (apply Z.div_le_upper_bound; lia).
      rewrite IH by (try assumption; lia).
      pose proof (Z.mod_pos_bound u 10 ltac:(lia)) as Hmod.
      pose proof (Z.div_mod u 10 ltac:(lia)) as Hdm.
      rewrite parseLoop_digit by lia.
      f_equal; lia.
Qed.

(** The digits of a number start with a digit. *)
Lemma formatBits_head (fuel : nat) (u : Z) :
  0 <= u < 2 ^ (Z.of_nat fuel + 1) ->
  exists d rest, 0 <= d <= 9 /\ formatBits fuel u = String (digitChar d) rest.
Proof.
  revert u. induction fuel as [| fuel IH]; intros u Hu.
  - exists u, EmptyString. change (2 ^ (Z.of_nat 0 + 1)) with 2 in Hu.
    split; [lia | reflexivity].
  - cbn [formatBits]. destruct (Z.ltb_spec u 10) as [Hlt | Hge].
    + exists u, EmptyString. split; [lia | reflexivity].
    + assert (Hdiv : 0 <= u / 10 < 2 ^ (Z.of_nat fuel + 1)).
      { split; [apply Z.div_pos; lia |].
        apply Z.div_lt_upper_bound; [lia |].
        replace (Z.of_nat (S fuel) + 1) with (Z.succ (Z.of_nat fuel + 1)) in Hu
          by lia.
        rewrite Z.pow_succ_r in Hu by lia. lia. }
      destruct (IH (u / 10) Hdiv) as [d [rest [Hd Heq]]].
      exists d, (rest ++ str1 (digitChar (u mod 10)))%string.
      split; [assumption |]. now rewrite Heq.
Qed.

Lemma log2_fuel (u : Z) :
  0 <= u -> 0 <= u < 2 ^ (Z.of_nat (Z.to_nat (Z.log2 u)) + 1).
Proof.
  intros Hu. rewrite Z2Nat.id by apply Z.log2_nonneg.
  split; [assumption |].
  destruct (Z.eq_dec u 0) as [-> | Hne]; [reflexivity |].
  replace (Z.log2 u + 1) with (Z.succ (Z.log2 u)) by lia.
  apply Z.log2_spec. lia.
Qed.

Lemma digitChar_not_sign (d : Z) :
  0 <= d <= 9 ->
  Ascii.eqb (digitChar d) "+" = false /\ Ascii.eqb (digitChar d) "-" = false.
Proof.
  intros H.
  assert (Hd : d = 0 \/ d = 1 \/ d = 2 \/ d = 3 \/ d = 4 \/ d = 5 \/ d = 6
               \/ d = 7 \/ d = 8 \/ d = 9) by lia.
  repeat (destruct Hd as [-> | Hd]; [split; reflexivity |]).
  subst d. split; reflexivity.
Qed.

(** [ParseInt] reads back what [FormatInt] wrote, for every number of 64
    bits. *)
Lemma ParseInt_FormatInt (i : Z) :
  - 2 ^ 63 <= i < 2 ^ 63 -> ParseInt (FormatInt i) = inr i.
Proof.
  intros Hi. unfold FormatInt.
  change (2 ^ 63) with 9223372036854775808 in Hi.
  destruct (Z.ltb_spec i 0) as [Hneg | Hpos].
  - simpl append. unfold ParseInt.
    change (Ascii.eqb "-" "-") with true.
    change (Ascii.eqb "-" "+") with false. cbn [orb].
    pose proof (log2_fuel (- i) ltac:(lia)) as Hfuel.
    destruct (formatBits_head _ _ Hfuel) as [d [rest [Hd Heq]]].
    unfold ParseUint. rewrite Heq. rewrite <- Heq.
    rewrite parseLoop_formatBits
      by (try assumption; unfold maxUint64;
          change (2 ^ 64 - 1) with 18446744073709551615; lia).
    cbn [negb andb].
    change (2 ^ 63) with 9223372036854775808.
    assert (Hc : (9223372036854775808 <? - i) = false)
      by (apply Z.ltb_ge; lia).
    rewrite Hc. f_equal. lia.
  - pose proof (log2_fuel i Hpos) as Hfuel.
    destruct (formatBits_head _ _ Hfuel) as [d [rest [Hd Heq]]].
    unfold ParseInt. rewrite Heq.
    destruct (digitChar_not_sign d Hd) as [Hplus Hminus].
    rewrite Hplus, Hminus. cbn [orb negb andb].
    unfold ParseUint. rewrite <- Heq.
    rewrite parseLoop_formatBits
      by (try assumption; unfold maxUint64;
          change (2 ^ 64 - 1) with 18446744073709551615; lia).
    change (2 ^ 63) with 9223372036854775808.
    assert (Hc : (9223372036854775808 <=? i) = false)
      by (apply Z.leb_gt; lia).
    now rewrite Hc.
Qed.

(** The rendering of a number is not the empty string. *)
Lemma FormatInt_not_empty (i : Z) :
  - 2 ^ 63 <= i < 2 ^ 63 -> FormatInt i <> EmptyString.
Proof.
  intros Hi Hempty. pose proof (ParseInt_FormatInt i Hi) as H.
  rewrite Hempty in H. discriminate.
Qed.

End Decimal.

(** ** Creating a group *)

(** C4: [CreateGroup] gives the new group the DN [CN=<escaped cn>,<ouPath>];
    the add request writes objectClass [top, group], then cn, name and
    sAMAccountName, all the raw [cn], a description exactly when it is not
    empty, and groupType as the decimal rendering of the signed integer;
    after a successful add the returned group is what [GetGroup] reads at
    that DN, and a failed add is returned as an error. *)
Theorem CreateGroup_request_then_reread (Server : Type) (c : Client.t Server)
    (ou cn description : string) (groupType : Z) :
  let req := Client.createGroupRequest ou cn description groupType in
  let dn := ("CN=" ++ EscapeDN cn ++ "," ++ ou)%string in
  ldap.ar_DN req = dn
  /\ ldap.written req "objectClass" = Some ["top"; "group"]
  /\ ldap.written req "cn" = Some [cn]
  /\ ldap.written req "name" = Some [cn]
  /\ ldap.written req "sAMAccountName" = Some [cn]
  /\ ldap.written req "description"
     = (if String.eqb description "" then None else Some [description])
  /\ ldap.written req "groupType" = Some [strconv.FormatInt groupType]
  /\ ldap.writtenTypes req
     = ["objectClass"; "cn"; "name"; "sAMAccountName"]
         ++ (if String.eqb description "" then [] else ["description"])
         ++ ["groupType"]
  /\ forall s : Server,
       Client.CreateGroup c ou cn description groupType s
       = match Client.Add c req s with
         | (Ok _, s1) => Client.GetGroup c dn s1
         | (Err e, s1) =>
             (Err ("failed to create group " ++ dn ++ ": " ++ e), s1)
         | (Panic msg, s1) => (Panic msg, s1)
         end.
Proof.
  cbv zeta. unfold Client.createGroupRequest, Client.createGroupDN.
  destruct (String.eqb description "") eqn:Hd;
    cbn [negb]; repeat split; try reflexivity.
  - intros s. unfold Client.CreateGroup, Client.createGroupRequest,
      Client.createGroupDN, bind, wrap.
    rewrite Hd. cbn [negb].
    destruct (Client.Add c _ s) as [[[] | e | msg] s1]; try reflexivity.
    do 2 f_equal. now rewrite !append_assoc.
  - intros s. unfold Client.CreateGroup, Client.createGroupRequest,
      Client.createGroupDN, bind, wrap.
    rewrite Hd. cbn [negb].
    destruct (Client.Add c _ s) as [[[] | e | msg] s1]; try reflexivity.
    do 2 f_equal. now rewrite !append_assoc.
Qed.

Lemma createGroupRequest_DN (ou cn description : string) (groupType : Z) :
  ldap.ar_DN (Client.createGroupRequest ou cn description groupType)
  = Client.createGroupDN ou cn.
Proof.
  unfold Client.createGroupRequest.
  destruct (String.eqb description ""); reflexivity.
Qed.

Lemma createGroupRequest_groupType (ou cn description : string)
    (groupType : Z) :
  ldap.written (Client.createGroupRequest ou cn description groupType)
    "groupType"
  = Some [strconv.FormatInt groupType].
Proof.
  unfold Client.createGroupRequest.
  destruct (String.eqb description ""); reflexivity.
Qed.

(** With a connection, [Add] and [Search] answer what the connection
    answers, errors wrapped. *)
Lemma Add_connected (Server : Type) (c : Client.t Server)
    (k : ldap.Conn Server) (req : ldap.AddRequest) (s s1 : Server) :
  Client.conn c = Some k ->
  ldap.conn_Add k req s = (None, s1) ->
  Client.Add c req s = (Ok tt, s1).
Proof.
  intros Hk Hadd. unfold Client.Add, wrap, liftError. now rewrite Hk, Hadd.
Qed.

Lemma GetGroup_found (Server : Type) (c : Client.t Server)
    (k : ldap.Conn Server) (dn : string) (e : ldap.Entry)
    (es : list ldap.Entry) (s s1 : Server) :
  Client.conn c = Some k ->
  ldap.conn_Search k (Client.getGroupRequest dn) s
  = (inr {| ldap.Entries := e :: es |}, s1) ->
  Client.GetGroup c dn s = (Ok (Client.groupOfEntry e), s1).
Proof.
  intros Hk Hsearch.
  unfold Client.GetGroup, Client.Search, bind, wrap, liftResult, ret.
  now rewrite Hk, Hsearch.
Qed.

(** What [CreateGroup] returns when the add succeeds and the search that
    follows finds an entry. *)
Lemma CreateGroup_found (Server : Type) (c : Client.t Server)
    (k : ldap.Conn Server) (ou cn description : string) (groupType : Z)
    (e : ldap.Entry) (es : list ldap.Entry) (s s1 s2 : Server) :
  Client.conn c = Some k ->
  ldap.conn_Add k (Client.createGroupRequest ou cn description groupType) s
  = (None, s1) ->
  ldap.conn_Search k (Client.getGroupRequest (Client.createGroupDN ou cn)) s1
  = (inr {| ldap.Entries := e :: es |}, s2) ->
  Client.CreateGroup c ou cn description groupType s
  = (Ok (Client.groupOfEntry e), s2).
Proof.
  intros Hk Hadd Hsearch. unfold Client.CreateGroup, bind, wrap.
  rewrite (Add_connected _ c k _ s s1 Hk Hadd).
  apply (GetGroup_found _ c k _ e es s1 s2 Hk Hsearch).
Qed.

(** C8: the group type survives creation and reading back.  For a signed
    32-bit [g], when the add succeeds and the entries that the directory
    then returns at the new DN hold for groupType what the add request
    wrote, [CreateGroup] returns a group whose group type parses to [g], a
    [GetGroup] that follows returns such a group again, and [Create] of the
    group resource (for a plan without managed_by) saves [g] as the group
    type. *)
Theorem group_type_round_trip (Server : Type) (c : Client.t Server)
    (k : ldap.Conn Server) (diags : diag.Diagnostics)
    (data : GroupResource.GroupResourceModel) (g : Z)
    (e e' : ldap.Entry) (es es' : list ldap.Entry) (s s1 s2 s3 : Server) :
  let ou := types.ValueString (GroupResource.OU data) in
  let cn := types.ValueString (GroupResource.CN data) in
  let description := types.ValueString (GroupResource.Description data) in
  let req := Client.createGroupRequest ou cn description g in
  (- 2147483648 <= g <= 2147483647)%Z ->
  GroupResource.GroupType data = types.Known g ->
  diag.HasError diags = false ->
  Client.conn c = Some k ->
  ldap.conn_Add k req s = (None, s1) ->
  ldap.conn_Search k (Client.getGroupRequest (ldap.ar_DN req)) s1
  = (inr {| ldap.Entries := e :: es |}, s2) ->
  Some (ldap.GetAttributeValues e "groupType") = ldap.written req "groupType" ->
  ldap.conn_Search k (Client.getGroupRequest (ldap.e_DN e)) s2
  = (inr {| ldap.Entries := e' :: es' |}, s3) ->
  Some (ldap.GetAttributeValues e' "groupType") = ldap.written req "groupType" ->
  let group := Client.groupOfEntry e in
  let group' := Client.groupOfEntry e' in
  Client.CreateGroup c ou cn description g s = (Ok group, s2)
  /\ strconv.ParseInt (Client.GroupType group) = inr g
  /\ Client.GetGroup c (Client.DN group) s2 = (Ok group', s3)
  /\ strconv.ParseInt (Client.GroupType group') = inr g
  /\ (types.IsNull (GroupResource.ManagedBy data)
      || types.IsUnknown (GroupResource.ManagedBy data) = true ->
      exists saved : GroupResource.GroupResourceModel,
        GroupResource.Create c diags data s
        = (Ok {| GroupResource.Diagnostics := diags;
                 GroupResource.State := Some saved |}, s2)
        /\ GroupResource.GroupType saved = types.Known g).
Proof.
  intros ou cn description req Hg Htype Hdiags Hk Hadd Hsearch Hstored
    Hsearch' Hstored'.
  assert (Hwritten :
            ldap.written req "groupType" = Some [strconv.FormatInt g]).
  { apply createGroupRequest_groupType. }
  rewrite Hwritten in Hstored, Hstored'.
  injection Hstored as Hvalues. injection Hstored' as Hvalues'.
  assert (Hvalue : ldap.GetAttributeValue e "groupType" = strconv.FormatInt g).
  { unfold ldap.GetAttributeValue. now rewrite Hvalues. }
  assert (Hvalue' : ldap.GetAttributeValue e' "groupType" = strconv.FormatInt g).
  { unfold ldap.GetAttributeValue. now rewrite Hvalues'. }
  assert (H64 : (- 2 ^ 63 <= g < 2 ^ 63)%Z).
  { change (2 ^ 63)%Z with 9223372036854775808%Z. lia. }
  unfold req in Hsearch. rewrite createGroupRequest_DN in Hsearch.
  pose proof (CreateGroup_found Server c k ou cn description g e es s s1 s2
                Hk Hadd Hsearch) as Hcreate.
  assert (Hparse :
            strconv.ParseInt (Client.GroupType (Client.groupOfEntry e)) = inr g).
  { cbn [Client.groupOfEntry Client.GroupType]. rewrite Hvalue.
    apply ParseInt_FormatInt. exact H64. }
  assert (Hparse' :
            strconv.ParseInt (Client.GroupType (Client.groupOfEntry e')) = inr g).
  { cbn [Client.groupOfEntry Client.GroupType]. rewrite Hvalue'.
    apply ParseInt_FormatInt. exact H64. }
  cbv zeta.
  split; [exact Hcreate |]. split; [exact Hparse |].
  split; [exact (GetGroup_found Server c k _ e' es' s2 s3 Hk Hsearch') |].
  split; [exact Hparse' |].
  intros Hmanaged.
  exists (GroupResource.modelOfGroup data (Client.groupOfEntry e)). split.
  - unfold GroupResource.Create. rewrite Hdiags, Htype.
    cbn [types.IsNull types.IsUnknown negb andb types.ValueInt64].
    fold ou cn description. rewrite Hcreate.
    rewrite <- negb_orb, Hmanaged. reflexivity.
  - cbn [GroupResource.modelOfGroup GroupResource.GroupType].
    unfold GroupResource.groupTypeOf. rewrite Hparse.
    cbn [Client.groupOfEntry Client.GroupType]. rewrite Hvalue.
    destruct (String.eqb_spec (strconv.FormatInt g) "") as [Hempty | _].
    + exfalso. exact (FormatInt_not_empty g H64 Hempty).
    + reflexivity.
Qed.

(** ** Scanning a group type *)

Section Scanning.
Local Open Scope Z_scope.
Import strconv fmt.

(** A byte from [!] to [DEL] does not start a space rune. *)
Lemma dropSpaceRune_graphic (c : ascii) (r : string) :
  33 <= byteVal c <= 127 -> dropSpaceRune (String c r) = None.
Proof.
  intros Hc. unfold dropSpaceRune.
  assert (H13 : (byteVal c <=? 13) = false) by (apply Z.leb_gt; lia).
  assert (H32 : (byteVal c =? 32) = false) by (apply Z.eqb_neq; lia).
  assert (H194 : (byteVal c =? 194) = false) by (apply Z.eqb_neq; lia).
  assert (H225 : (byteVal c =? 225) = false) by (apply Z.eqb_neq; lia).
  assert (H226 : (byteVal c =? 226) = false) by (apply Z.eqb_neq; lia).
  assert (H227 : (byteVal c =? 227) = false) by (apply Z.eqb_neq; lia).
  rewrite H13, H32, H194, H225, H226, H227.
  rewrite andb_false_r. cbn [andb orb].
  destruct r as [| c2 [| c3 r3]]; reflexivity.
Qed.

Lemma SkipSpace_graphic (c : ascii) (r : string) :
  33 <= byteVal c <= 127 -> SkipSpace (String c r) = inr (String c r).
Proof.
  intros Hc. unfold SkipSpace. cbn [String.length skipSpace].
  assert (H10 : (byteVal c =? 10) = false) by (apply Z.eqb_neq; lia).
  rewrite H10. now rewrite (dropSpaceRune_graphic c r Hc).
Qed.

Lemma dropSpaceRune_shorter (s rest : string) :
  dropSpaceRune s = Some rest -> (String.length rest < String.length s)%nat.
Proof.
  unfold dropSpaceRune. destruct s as [| c1 [| c2 [| c3 r3]]];
    repeat match goal with
      | |- context [if ?b then _ else _] => destruct b
      end;
    intros H; try discriminate; injection H as <-; simpl; lia.
Qed.

(** The fuel that [SkipSpace] gives is enough: what is left after skipping
    is empty or starts with a rune that is neither a space nor a newline. *)
Lemma skipSpace_settled (fuel : nat) (s r : string) :
  (String.length s <= fuel)%nat ->
  skipSpace fuel s = inr r ->
  r = EmptyString
  \/ exists c r', r = String c r' /\ byteVal c <> 10
                  /\ dropSpaceRune r = None.
Proof.
  revert s. induction fuel as [| fuel IH]; intros s Hlen H.
  - destruct s; simpl in Hlen; [| lia]. injection H as <-. now left.
  - cbn [skipSpace] in H. destruct s as [| c s'].
    + injection H as <-. now left.
    + destruct (Z.eqb_spec (byteVal c) 10) as [| Hnl]; [discriminate |].
      destruct (dropSpaceRune (String c s')) as [rest |] eqn:Hdrop.
      * apply (IH rest); [| exact H].
        apply dropSpaceRune_shorter in Hdrop. simpl in *. lia.
      * injection H as <-. right. now exists c, s'.
Qed.

(** The digits that the digit loop reads to their end are what the scan
    takes from a string that goes on with something else than a digit. *)
Lemma spanDigits_prefix (s rest : string) (n v : Z) :
  parseLoop n s = inr v ->
  startsWithDigit rest = false ->
  spanDigits (s ++ rest) = (s, rest).
Proof.
  intros H Hrest. revert n H. induction s as [| c s IH]; intros n H.
  - cbn [append]. destruct rest as [| c r]; [reflexivity |].
    cbn [spanDigits]. unfold isDecimalDigitRune.
    cbn [startsWithDigit] in Hrest. now rewrite Hrest.
  - cbn [parseLoop] in H. cbn [append spanDigits]. unfold isDecimalDigitRune.
    destruct (isDigit c); cbn [negb] in *; [| discriminate].
    destruct (Z.leb _ n); [discriminate |].
    destruct (Z.ltb _ _); [discriminate |].
    now rewrite (IH _ H).
Qed.

Lemma parsed_head_digit (c : ascii) (s : string) (n v : Z) :
  parseLoop n (String c s) = inr v -> isDigit c = true.
Proof.
  cbn [parseLoop]. destruct (isDigit c); [reflexivity | discriminate].
Qed.

(** [ParseUint] answers what its loop answers on a string with a byte. *)
Lemma ParseUint_parsed (s : string) (un : Z) :
  ParseUint s = inr un ->
  exists d rest, s = String d rest /\ isDigit d = true
                 /\ parseLoop 0 s = inr un.
Proof.
  destruct s as [| d rest]; [discriminate |].
  unfold ParseUint. intros H. exists d, rest.
  split; [reflexivity |]. split; [| exact H].
  exact (parsed_head_digit d rest 0 un H).
Qed.

(** The [%d] verb scans a number that [ParseInt] accepts, to the same
    value, from the start of any string that goes on with something else
    than a digit. *)
Lemma scanInt_prefix (number rest : string) (v : Z) :
  ParseInt number = inr v ->
  startsWithDigit rest = false ->
  scanInt (number ++ rest) = inr v.
Proof.
  intros H Hrest. destruct number as [| c0 s']; [discriminate |].
  assert (Hdigits :
            exists un, ParseUint (if Ascii.eqb c0 "+" || Ascii.eqb c0 "-"
                                  then s' else String c0 s') = inr un).
  { unfold ParseInt in H. destruct (ParseUint _) as [[] | un];
      [discriminate | discriminate | now exists un]. }
  destruct Hdigits as [un Hun].
  assert (Hgraphic : 33 <= byteVal c0 <= 127).
  { destruct (Ascii.eqb_spec c0 "+") as [-> | Hplus]; [vm_compute; split; discriminate |].
    destruct (Ascii.eqb_spec c0 "-") as [-> | Hminus]; [vm_compute; split; discriminate |].
    cbn [orb] in Hun. destruct (ParseUint_parsed _ _ Hun) as [d [tail [Heq [Hd _]]]].
    injection Heq as -> ->. apply isDigit_bounds in Hd. lia. }
  cbn [append]. unfold scanInt.
  rewrite (SkipSpace_graphic c0 (s' ++ rest) Hgraphic).
  destruct (Ascii.eqb c0 "+" || Ascii.eqb c0 "-") eqn:Hsign.
  - destruct (ParseUint_parsed _ _ Hun) as [d [tail [-> [Hd Hloop]]]].
    change (String d tail ++ rest)%string with (String d (tail ++ rest)).
    unfold isDecimalDigitRune at 1. rewrite Hd. cbn [negb].
    change (String d (tail ++ rest)) with (String d tail ++ rest)%string.
    rewrite (spanDigits_prefix _ rest _ _ Hloop Hrest).
    unfold str1. cbn [append]. now rewrite H.
  - destruct (ParseUint_parsed _ _ Hun) as [d [tail [Heq [Hd Hloop]]]].
    injection Heq as <- <-.
    unfold isDecimalDigitRune at 1. rewrite Hd. cbn [negb].
    change (String c0 (s' ++ rest)) with (String c0 s' ++ rest)%string.
    rewrite (spanDigits_prefix _ rest _ _ Hloop Hrest).
    cbn [append]. now rewrite H.
Qed.

(** What [ParseInt] accepts, the [%d] verb scans, to the same number. *)
Lemma scanInt_ParseInt (s : string) (v : Z) :
  ParseInt s = inr v -> scanInt s = inr v.
Proof.
  intros H. rewrite <- (append_empty_r s).
  now apply scanInt_prefix.
Qed.

End Scanning.



(** What the scan makes of some values: it stops at the first character
    that is not a digit, and skips leading spaces. *)
Example Sscanf_d_values :
  fmt.Sscanf_d "-2147483646" = (1%Z, None)
  /\ fmt.Sscanf_d "1_000" = (1%Z, None)
  /\ fmt.Sscanf_d "12abc" = (1%Z, None)
  /\ fmt.Sscanf_d " 12" = (1%Z, None)
  /\ fmt.Sscanf_d "0x10" = (1%Z, None)
  /\ fmt.Sscanf_d "abc" = (0%Z, Some fmt.ExpectedInteger)
  /\ fmt.Sscanf_d "-" = (0%Z, Some fmt.EOF)
  /\ fmt.Sscanf_d "" = (0%Z, Some fmt.EOF)
  /\ fmt.Sscanf_d "99999999999999999999"
     = (0%Z, Some (fmt.ParseError strconv.ErrRange)).
Proof. repeat split. Qed.




Lemma group_type_round_trip_witness :
  exists (group' : Client.Group) (saved : GroupResource.GroupResourceModel)
         (d : Directory.t),
    GroupResource.Create Directory.client [] Examples.engPlan Directory.empty
    = (Ok {| GroupResource.Diagnostics := [];
             GroupResource.State := Some saved |}, d)
    /\ GroupResource.GroupType saved = types.Known (-2147483646)%Z
    /\ Client.GetGroup Directory.client "CN=eng,DC=x" d = (Ok group', d)
    /\ strconv.ParseInt (Client.GroupType group') = inr (-2147483646)%Z.
Proof.
  edestruct (group_type_round_trip Directory.t Directory.client Directory.conn
               [] Examples.engPlan (-2147483646)%Z) with (s := Directory.empty)
    as [_ [_ [Hget [Hparse Hcreate]]]].
  - lia.
  - reflexivity.
  - reflexivity.
  - reflexivity.
  - reflexivity.
  - reflexivity.
  - reflexivity.
  - reflexivity.
  - reflexivity.
  - destruct (Hcreate eq_refl) as [saved [Hsaved Htype]].
    eexists. exists saved. eexists.
    split; [exact Hsaved |]. split; [exact Htype |].
    split; [exact Hget | exact Hparse].
Defined.

(** ** Moving a group *)

(** C10: the invalid-DN branch of [MoveGroup] is never taken.  Splitting any
    string, the empty one included, on [,] gives at least one component;
    [MoveGroup] never returns the invalid-DN-format error, and always goes
    on to the rename of [currentDN] with the first component as the new RDN,
    deleting the old RDN, under the new parent.  With a connection that
    rename is what the connection is asked; the call is reached without a
    connection too, where the library refuses it with its nil-connection
    error and the server sees nothing. *)
Theorem MoveGroup_invalid_DN_unreachable (Server : Type) (c : Client.t Server)
    (currentDN newParentDN : string) (s : Server) :
  exists (cn : string) (rest : list string),
    strings.Split currentDN "," = cn :: rest
    /\ fst (Client.MoveGroup c currentDN newParentDN s)
       <> Err ("invalid DN format: " ++ currentDN)
    /\ Client.MoveGroup c currentDN newParentDN s
       = match Client.conn c with
         | Some k =>
             match
               ldap.conn_ModifyDN k
                 (ldap.NewModifyDNRequest currentDN cn true newParentDN) s
             with
             | (None, s1) => (Ok tt, s1)
             | (Some e, s1) =>
                 (Err ("failed to move group from " ++ currentDN ++ " to "
                         ++ cn ++ "," ++ newParentDN ++ ": " ++ e), s1)
             end
         | None =>
             (Err ("failed to move group from " ++ currentDN ++ " to "
                     ++ cn ++ "," ++ newParentDN ++ ": "
                     ++ "ldap: conn is nil, expected net.Conn"), s)
         end.
Proof.
  destruct (Split_cons currentDN ",") as [cn [rest Hsplit]].
  exists cn, rest. split; [exact Hsplit |].
  unfold Client.MoveGroup. rewrite Hsplit. unfold wrap, liftError.
  destruct (Client.conn c) as [k |]; cbn [ldap.ModifyDN].
  - destruct (ldap.conn_ModifyDN k _ s) as [[e |] s1]; cbn [fst].
    + split; [discriminate |]. do 2 f_equal. now rewrite !append_assoc.
    + split; [discriminate | reflexivity].
  - cbn [fst]. split; [discriminate |].
    do 2 f_equal. now rewrite !append_assoc.
Qed.

(** ** Operations without a connection *)

(** The four operations of client.go look at the connection first: without
    one they return the not-connected error and the server sees nothing. *)
Lemma guarded_operations_fail_fast (Server : Type) (c : Client.t Server)
    (s : Server) :
  Client.conn c = None ->
  (forall req, Client.Search c req s = (Err Client.notEstablished, s))
  /\ (forall req, Client.Add c req s = (Err Client.notEstablished, s))
  /\ (forall req, Client.Modify c req s = (Err Client.notEstablished, s))
  /\ (forall req, Client.Delete c req s = (Err Client.notEstablished, s)).
Proof.
  intros Hnil.
  unfold Client.Search, Client.Add, Client.Modify, Client.Delete.
  rewrite Hnil. repeat split.
Qed.

(** [MoveGroup] leaves the look to the library: without a connection it
    returns the library's error, under its own prefix, and the server sees
    nothing. *)
Lemma MoveGroup_nil_connection (Server : Type) (c : Client.t Server)
    (currentDN newParentDN cn : string) (rest : list string) (s : Server) :
  Client.conn c = None ->
  strings.Split currentDN "," = cn :: rest ->
  Client.MoveGroup c currentDN newParentDN s
  = (Err (("failed to move group from " ++ currentDN ++ " to "
             ++ (cn ++ "," ++ newParentDN) ++ ": ") ++ ldap.ErrNilConnection),
     s).
Proof.
  intros Hnil Hsplit. unfold Client.MoveGroup, wrap, liftError.
  now rewrite Hsplit, Hnil.
Qed.

(** C2: without a connection every transport operation returns an error,
    asks nothing of the directory and does not panic.  [Search], [Add],
    [Modify] and [Delete] return the client's not-connected error;
    [MoveGroup] returns the nil-connection error of the library under its
    own prefix.  In each case the server is left as it was. *)
Theorem operations_fail_fast_without_connection (Server : Type)
    (c : Client.t Server) (s : Server) :
  Client.conn c = None ->
  (forall req,
      Client.Search c req s = (Err "LDAP connection is not established", s))
  /\ (forall req,
        Client.Add c req s = (Err "LDAP connection is not established", s))
  /\ (forall req,
        Client.Modify c req s = (Err "LDAP connection is not established", s))
  /\ (forall req,
        Client.Delete c req s = (Err "LDAP connection is not established", s))
  /\ (forall currentDN newParentDN : string,
        exists (cn : string) (rest : list string),
          strings.Split currentDN "," = cn :: rest
          /\ Client.MoveGroup c currentDN newParentDN s
             = (Err ("failed to move group from " ++ currentDN ++ " to "
                       ++ cn ++ "," ++ newParentDN ++ ": "
                       ++ "ldap: conn is nil, expected net.Conn"), s)).
Proof.
  intros Hnil.
  destruct (guarded_operations_fail_fast Server c s Hnil)
    as [Hsearch [Hadd [Hmodify Hdelete]]].
  repeat split; try assumption.
  intros currentDN newParentDN.
  destruct (Split_cons currentDN ",") as [cn [rest Hsplit]].
  exists cn, rest. split; [exact Hsplit |].
  rewrite (MoveGroup_nil_connection Server c currentDN newParentDN cn rest s
             Hnil Hsplit).
  do 2 f_equal. now rewrite !append_assoc.
Qed.

Lemma operations_fail_fast_without_connection_witness :
  Client.conn Directory.unconnected = None
  /\ Client.MoveGroup Directory.unconnected "CN=staff,DC=x" "OU=Groups,DC=x"
       Directory.withStaff
     = (Err "failed to move group from CN=staff,DC=x to CN=staff,OU=Groups,DC=x: ldap: conn is nil, expected net.Conn",
        Directory.withStaff)
  /\ Client.Delete Directory.unconnected (ldap.NewDelRequest "CN=staff,DC=x")
       Directory.withStaff
     = (Err "LDAP connection is not established", Directory.withStaff).
Proof.
  split; [reflexivity |].
  destruct (operations_fail_fast_without_connection Directory.t
              Directory.unconnected Directory.withStaff eq_refl)
    as [_ [_ [_ [Hdelete Hmove]]]].
  split.
  - destruct (Hmove "CN=staff,DC=x" "OU=Groups,DC=x")
      as [cn [rest [Hsplit Hcn]]].
    vm_compute in Hsplit. injection Hsplit as <- <-.
    exact Hcn.
  - exact (Hdelete (ldap.NewDelRequest "CN=staff,DC=x")).
Defined.

(** ** Deleting what is not there *)

(** How [Delete] of the group resource sorts the errors of [DeleteGroup]:
    an error whose text contains [not found] is dropped, any other error is
    reported. *)
Lemma GroupResource_Delete_sorts_errors (Server : Type) (c : Client.t Server)
    (diags : diag.Diagnostics) (data : GroupResource.GroupResourceModel)
    (e : string) (s s1 : Server) :
  diag.HasError diags = false ->
  Client.DeleteGroup c (types.ValueString (GroupResource.DN data)) s
  = (Err e, s1) ->
  GroupResource.Delete c diags data s
  = (Ok {| GroupResource.Diagnostics :=
             if strings.Contains e "not found" then diags
             else diag.AddError diags "Client Error"
                    ("Unable to delete group, got error: " ++ e);
           GroupResource.State := None |}, s1).
Proof.
  intros Hdiags Hdelete. unfold GroupResource.Delete.
  rewrite Hdiags, Hdelete.
  destruct (strings.Contains e "not found"); reflexivity.
Qed.

(** C1: deleting a group that is not in the directory is reported as an
    error.  The directory answers the delete of [CN=ghost,DC=x], which it
    does not have, with no such object; the text of that error does not
    contain [not found], and [Delete] of the group resource adds a client
    error. *)
Theorem GroupResource_Delete_absent_group_reports_error :
  Directory.find Directory.empty "CN=ghost,DC=x" = None
  /\ GroupResource.Delete Directory.client []
       (Examples.groupAt "CN=ghost,DC=x") Directory.empty
     = (Ok {| GroupResource.Diagnostics :=
                [ {| diag.severity := diag.SeverityError;
                     diag.Summary := "Client Error";
                     diag.Detail :=
                       "Unable to delete group, got error: failed to delete group CN=ghost,DC=x: LDAP delete failed: "
                         ++ ldap.noSuchObject "" |} ];
              GroupResource.State := None |},
        Directory.empty).
Proof. split; reflexivity. Qed.

(** How [Delete] of the membership resource sorts the errors of
    [RemoveMemberFromGroup]. *)
Lemma GroupMembershipResource_Delete_sorts_errors (Server : Type)
    (c : Client.t Server) (diags : diag.Diagnostics)
    (data : GroupMembershipResource.GroupMembershipResourceModel)
    (e : string) (s s1 : Server) :
  diag.HasError diags = false ->
  Client.RemoveMemberFromGroup c
    (types.ValueString (GroupMembershipResource.GroupDN data))
    (types.ValueString (GroupMembershipResource.MemberDN data)) s
  = (Err e, s1) ->
  GroupMembershipResource.Delete c diags data s
  = (Ok (if strings.Contains e "not found"
            || strings.Contains e "does not exist"
            || strings.Contains e "no such object"
         then diags
         else diag.AddError diags "Client Error"
                ("Unable to remove member from group, got error: " ++ e)),
     s1).
Proof.
  intros Hdiags Hremove. unfold GroupMembershipResource.Delete.
  rewrite Hdiags. cbv zeta. rewrite Hremove.
  destruct (strings.Contains e "not found" || strings.Contains e "does not exist"
            || strings.Contains e "no such object"); reflexivity.
Qed.

(** C6: removing a membership that is not there is reported as an error,
    both when the group does not have the member (the directory answers no
    such attribute) and when the directory does not have the group (it
    answers no such object): neither text contains one of the three phrases
    that [Delete] of the membership resource looks for. *)
Theorem GroupMembershipResource_Delete_absent_edge_reports_error :
  (ldap.GetAttributeValues Directory.staff "member" = ["CN=ann,DC=x"]
   /\ GroupMembershipResource.Delete Directory.client []
        (Examples.membership "CN=staff,DC=x" "CN=bob,DC=x") Directory.withStaff
      = (Ok [ {| diag.severity := diag.SeverityError;
                 diag.Summary := "Client Error";
                 diag.Detail :=
                   "Unable to remove member from group, got error: failed to remove member CN=bob,DC=x from group CN=staff,DC=x: LDAP modify failed: "
                     ++ ldap.noSuchAttribute "" |} ],
         Directory.withStaff))
  /\ (Directory.find Directory.withStaff "CN=ghost,DC=x" = None
      /\ GroupMembershipResource.Delete Directory.client []
           (Examples.membership "CN=ghost,DC=x" "CN=ann,DC=x")
           Directory.withStaff
         = (Ok [ {| diag.severity := diag.SeverityError;
                    diag.Summary := "Client Error";
                    diag.Detail :=
                      "Unable to remove member from group, got error: failed to remove member CN=ann,DC=x from group CN=ghost,DC=x: LDAP modify failed: "
                        ++ ldap.noSuchObject "" |} ],
            Directory.withStaff)).
Proof. repeat split. Qed.

(** ** The port of the provider *)

(** Without a port in the configuration and without [AD_PORT], the port is
    636 when TLS is asked for and 389 otherwise. *)
Lemma configurePort_default (Getenv : ADGroupsProvider.Env)
    (data : ADGroupsProvider.ADGroupsProviderModel) :
  types.ValueInt64 (ADGroupsProvider.Port data) = 0%Z ->
  Getenv "AD_PORT" = "" ->
  ADGroupsProvider.configurePort Getenv data
  = if types.ValueBool (ADGroupsProvider.UseTLS data)
       || String.eqb (Getenv "AD_USE_TLS") "true"
    then 636%Z else 389%Z.
Proof.
  intros Hport Henv. unfold ADGroupsProvider.configurePort.
  now rewrite Hport, Henv.
Qed.

(** With [AD_PORT] set, the port is 389 whatever the variable holds and
    whether TLS is asked for or not. *)
Lemma configurePort_AD_PORT (Getenv : ADGroupsProvider.Env)
    (data : ADGroupsProvider.ADGroupsProviderModel) :
  types.ValueInt64 (ADGroupsProvider.Port data) = 0%Z ->
  Getenv "AD_PORT" <> "" ->
  ADGroupsProvider.configurePort Getenv data = 389%Z.
Proof.
  intros Hport Henv. unfold ADGroupsProvider.configurePort. rewrite Hport.
  destruct (String.eqb_spec (Getenv "AD_PORT") ""); [contradiction | reflexivity].
Qed.

(** C7: with TLS asked for, no port in the configuration and [AD_PORT] set
    to 636, [Configure] hands port 389 to the client, with TLS on. *)
Theorem Configure_TLS_with_AD_PORT_gives_389 :
  ADGroupsProvider.Configure Examples.portEnv [] Examples.tlsNoPort
  = ([],
     Some {| ADGroupsProvider.cfg_Server := "ad.example.com";
             ADGroupsProvider.cfg_Port := 389%Z;
             ADGroupsProvider.cfg_BaseDN := "DC=x";
             ADGroupsProvider.cfg_Username := "CN=admin,DC=x";
             ADGroupsProvider.cfg_Password := "secret";
             ADGroupsProvider.cfg_UseTLS := true;
             ADGroupsProvider.cfg_Insecure := false |})
  /\ ADGroupsProvider.configurePort Examples.noEnv Examples.tlsNoPort = 636%Z.
Proof. split; reflexivity. Qed.

(** ** Escaping loses nothing and lets nothing through *)

Lemma lookup_cons (old : ascii) (new : string) (r : strings.Replacer)
    (b : ascii) :
  strings.lookup ((old, new) :: r) b
  = if Ascii.eqb old b then Some new else strings.lookup r b.
Proof. reflexivity. Qed.

Lemma lookup_nil (b : ascii) : strings.lookup [] b = None.
Proof. reflexivity. Qed.

(** Splits a goal on the entry of a replacer that applies to a byte. *)
Ltac by_entry b :=
  repeat (rewrite lookup_cons;
          match goal with
          | |- context [Ascii.eqb ?old b] =>
              destruct (Ascii.eqb_spec old b) as [<- | ?]
          end;
          [reflexivity || (simpl; congruence) |]);
  rewrite lookup_nil.

Lemma Unescape_DN_EscapeDN (s : string) : Unescape.DN (EscapeDN s) = s.
Proof.
  unfold EscapeDN. induction s as [| b s IH]; [reflexivity |].
  cbn [strings.Replace]. unfold dnReplacer at 1.
  rewrite lookup_cons.
  destruct (Ascii.eqb_spec "\"%char b) as [<- | Hbackslash];
    [simpl; congruence |].
  by_entry b.
  cbn [Unescape.DN].
  destruct (Ascii.eqb_spec b "\"%char) as [-> | _]; [congruence |].
  now rewrite IH.
Qed.

Lemma Unescape_Filter_EscapeFilter (s : string) :
  Unescape.Filter (EscapeFilter s) = s.
Proof.
  unfold EscapeFilter. induction s as [| b s IH]; [reflexivity |].
  cbn [strings.Replace]. unfold filterReplacer at 1.
  rewrite lookup_cons.
  destruct (Ascii.eqb_spec "\"%char b) as [<- | Hbackslash];
    [simpl; congruence |].
  by_entry b.
  cbn [Unescape.Filter].
  destruct (Ascii.eqb_spec b "\"%char) as [-> | _]; [congruence |].
  now rewrite IH.
Qed.

(** X1: [EscapeDN] is injective: two values with the same escaped form are
    the same value. *)
Theorem EscapeDN_injective (s t : string) :
  EscapeDN s = EscapeDN t -> s = t.
Proof.
  intros H. rewrite <- (Unescape_DN_EscapeDN s), <- (Unescape_DN_EscapeDN t).
  now rewrite H.
Qed.

Lemma EscapeDN_injective_witness :
  EscapeDN "a,b" = "a\,b" /\ "a,b" = Unescape.DN "a\,b".
Proof.
  split; [reflexivity |].
  apply (EscapeDN_injective "a,b" (Unescape.DN "a\,b")). reflexivity.
Defined.

(** X2: [EscapeFilter] is injective. *)
Theorem EscapeFilter_injective (s t : string) :
  EscapeFilter s = EscapeFilter t -> s = t.
Proof.
  intros H.
  rewrite <- (Unescape_Filter_EscapeFilter s),
    <- (Unescape_Filter_EscapeFilter t).
  now rewrite H.
Qed.

Lemma EscapeFilter_injective_witness :
  EscapeFilter "a*(b)" = "a\2a\28b\29"
  /\ "a*(b)" = Unescape.Filter "a\2a\28b\29".
Proof.
  split; [reflexivity |].
  apply (EscapeFilter_injective "a*(b)" (Unescape.Filter "a\2a\28b\29")).
  reflexivity.
Defined.

Lemma bytes_app (s1 s2 : string) :
  bytes (s1 ++ s2) = bytes s1 ++ bytes s2.
Proof.
  induction s1 as [| c s1 IH]; simpl; [reflexivity | now rewrite <- IH].
Qed.

Lemma lookup_some_in (r : strings.Replacer) (b : ascii) (new : string) :
  strings.lookup r b = Some new -> In (b, new) r.
Proof.
  induction r as [| [old new'] r IH]; simpl; [discriminate |].
  destruct (Ascii.eqb_spec old b) as [-> | _].
  - intros H. injection H as ->. now left.
  - intros H. right. now apply IH.
Qed.

(** A byte of a replaced string is a byte of the string that the replacer
    has no entry for, or a byte of one of the replacements. *)
Lemma Replace_bytes (r : strings.Replacer) (s : string) (c : ascii) :
  In c (bytes (strings.Replace r s)) ->
  (In c (bytes s) /\ ~ In c (strings.olds r))
  \/ exists old new, In (old, new) r /\ In c (bytes new).
Proof.
  induction s as [| b s IH]; simpl; [tauto |].
  destruct (strings.lookup r b) as [new |] eqn:Hb.
  - rewrite bytes_app, in_app_iff. intros [Hnew | Hrest].
    + right. exists b, new. split; [now apply lookup_some_in | assumption].
    + destruct (IH Hrest) as [[Hin Hold] | Hrepl]; [left | right]; tauto.
  - simpl. intros [<- | Hrest].
    + left. split; [now left | now apply lookup_none_iff].
    + destruct (IH Hrest) as [[Hin Hold] | Hrepl]; [left | right]; tauto.
Qed.

(** X3: the escaped form of a filter value has no asterisk, no parenthesis
    and no NUL. *)
Theorem EscapeFilter_no_metacharacter (s : string) (c : ascii) :
  In c (bytes (EscapeFilter s)) -> ~ In c ["*"%char; "("%char; ")"%char; NUL].
Proof.
  intros Hc Hmeta. unfold EscapeFilter in Hc.
  destruct (Replace_bytes _ _ _ Hc) as [[_ Hold] | [old [new [Hentry Hnew]]]].
  - apply Hold. rewrite filterReplacer_olds. simpl in *. tauto.
  - simpl in Hentry.
    repeat (destruct Hentry as [Hentry | Hentry];
            [injection Hentry as <- <-; cbv in Hnew, Hmeta;
             intuition congruence |]).
    contradiction.
Qed.

Lemma EscapeFilter_no_metacharacter_witness :
  ~ In "\"%char ["*"%char; "("%char; ")"%char; NUL].
Proof.
  apply (EscapeFilter_no_metacharacter "*" "\"%char). simpl. now left.
Defined.

(** X4: the escaped form of a DN value has no newline, no carriage return
    and no NUL. *)
Theorem EscapeDN_no_control_character (s : string) (c : ascii) :
  In c (bytes (EscapeDN s)) -> ~ In c [LF; CR; NUL].
Proof.
  intros Hc Hctl. unfold EscapeDN in Hc.
  destruct (Replace_bytes _ _ _ Hc) as [[_ Hold] | [old [new [Hentry Hnew]]]].
  - apply Hold. rewrite dnReplacer_olds. simpl in *. tauto.
  - simpl in Hentry.
    repeat (destruct Hentry as [Hentry | Hentry];
            [injection Hentry as <- <-; cbv in Hnew, Hctl;
             intuition congruence |]).
    contradiction.
Qed.

Lemma EscapeDN_no_control_character_witness :
  ~ In "A"%char [LF; CR; NUL].
Proof.
  apply (EscapeDN_no_control_character (str1 LF) "A"%char).
  simpl. right. right. now left.
Defined.

(** ** The first component of a DN *)

Lemma Count_app (s1 s2 : string) (sep : ascii) :
  strings.Count (s1 ++ s2) sep
  = (strings.Count s1 sep + strings.Count s2 sep)%nat.
Proof.
  induction s1 as [| c s1 IH]; simpl; [reflexivity | rewrite IH; lia].
Qed.

Lemma splitFrom_first (sep : ascii) (a b cur : string) :
  strings.Count a sep = 0%nat ->
  strings.splitFrom sep cur (a ++ String sep b)
  = (cur ++ a)%string :: strings.splitFrom sep EmptyString b.
Proof.
  revert cur. induction a as [| c a IH]; intros cur Hcount; simpl.
  - rewrite Ascii.eqb_refl. now rewrite append_empty_r.
  - simpl in Hcount. destruct (Ascii.eqb c sep); [discriminate |].
    rewrite (IH _ Hcount). now rewrite append_assoc.
Qed.

Lemma splitFrom_whole (sep : ascii) (a cur : string) :
  strings.Count a sep = 0%nat ->
  strings.splitFrom sep cur a = [(cur ++ a)%string].
Proof.
  revert cur. induction a as [| c a IH]; intros cur Hcount; simpl.
  - now rewrite append_empty_r.
  - simpl in Hcount. destruct (Ascii.eqb c sep); [discriminate |].
    rewrite (IH _ Hcount). now rewrite append_assoc.
Qed.

(** The first field of a string is what stands before its first
    separator. *)
Lemma Split_first (sep : ascii) (a b : string) :
  strings.Count a sep = 0%nat ->
  strings.Split (a ++ String sep b) sep = a :: strings.Split b sep.
Proof. intros H. unfold strings.Split. now rewrite splitFrom_first. Qed.

Lemma Replace_app (r : strings.Replacer) (s1 s2 : string) :
  strings.Replace r (s1 ++ s2)
  = (strings.Replace r s1 ++ strings.Replace r s2)%string.
Proof.
  induction s1 as [| b s1 IH]; simpl; [reflexivity |].
  rewrite IH. destruct (strings.lookup r b); [now rewrite append_assoc | reflexivity].
Qed.

(** Escaping a value without a comma gives a value without a comma. *)
Lemma EscapeDN_no_comma (s : string) :
  strings.Count s "," = 0%nat -> strings.Count (EscapeDN s) "," = 0%nat.
Proof.
  unfold EscapeDN. induction s as [| b s IH]; [reflexivity |].
  intros H. cbn [strings.Replace]. unfold dnReplacer at 1.
  repeat (rewrite lookup_cons;
          match goal with
          | |- context [Ascii.eqb ?old b] =>
              destruct (Ascii.eqb_spec old b) as [<- | ?]
          end;
          [simpl in H |- *; first [discriminate | now apply IH] |]).
  rewrite lookup_nil. simpl in H |- *.
  destruct (Ascii.eqb b ","); [discriminate | now apply IH].
Qed.

(** With a connection, [MoveGroup] asks it for the rename whose new RDN is
    the first field of the current DN. *)
Lemma MoveGroup_connected (Server : Type) (c : Client.t Server)
    (k : ldap.Conn Server) (currentDN newParentDN cn : string)
    (rest : list string) (s : Server) :
  Client.conn c = Some k ->
  strings.Split currentDN "," = cn :: rest ->
  Client.MoveGroup c currentDN newParentDN s
  = match
      ldap.conn_ModifyDN k
        (ldap.NewModifyDNRequest currentDN cn true newParentDN) s
    with
    | (None, s1) => (Ok tt, s1)
    | (Some e, s1) =>
        (Err (("failed to move group from " ++ currentDN ++ " to "
                 ++ (cn ++ "," ++ newParentDN) ++ ": ") ++ e), s1)
    end.
Proof.
  intros Hk Hsplit. unfold Client.MoveGroup, wrap, liftError.
  rewrite Hsplit, Hk. cbn [ldap.ModifyDN].
  destruct (ldap.conn_ModifyDN k _ s) as [[e |] s1]; reflexivity.
Qed.

(** X5: moving a group that [CreateGroup] named keeps its RDN when the
    common name has no comma: the rename that the connection is asked for
    has the new RDN [CN=<escaped cn>]. *)
Theorem MoveGroup_of_created_group (Server : Type) (c : Client.t Server)
    (k : ldap.Conn Server) (ou cn newParentDN : string) (s : Server) :
  Client.conn c = Some k ->
  strings.Count cn "," = 0%nat ->
  let dn := Client.createGroupDN ou cn in
  let rdn := ("CN=" ++ EscapeDN cn)%string in
  Client.MoveGroup c dn newParentDN s
  = match
      ldap.conn_ModifyDN k (ldap.NewModifyDNRequest dn rdn true newParentDN) s
    with
    | (None, s1) => (Ok tt, s1)
    | (Some e, s1) =>
        (Err (("failed to move group from " ++ dn ++ " to "
                 ++ (rdn ++ "," ++ newParentDN) ++ ": ") ++ e), s1)
    end.
Proof.
  intros Hk Hcomma dn rdn.
  apply (MoveGroup_connected Server c k dn newParentDN rdn
           (strings.Split ou ",") s Hk).
  unfold dn, Client.createGroupDN.
  change ("CN=" ++ EscapeDN cn ++ "," ++ ou)%string
    with (("CN=" ++ EscapeDN cn) ++ String "," ou)%string.
  apply Split_first.
  change (strings.Count (EscapeDN cn) "," = 0%nat).
  exact (EscapeDN_no_comma cn Hcomma).
Qed.

Lemma MoveGroup_of_created_group_witness :
  Client.MoveGroup Directory.client (Client.createGroupDN "DC=x" "staff")
    "OU=Groups,DC=x" Directory.withStaff
  = match
      ldap.conn_ModifyDN Directory.conn
        (ldap.NewModifyDNRequest "CN=staff,DC=x" "CN=staff" true
           "OU=Groups,DC=x") Directory.withStaff
    with
    | (None, s1) => (Ok tt, s1)
    | (Some e, s1) =>
        (Err (("failed to move group from " ++ "CN=staff,DC=x" ++ " to "
                 ++ ("CN=staff" ++ "," ++ "OU=Groups,DC=x") ++ ": ") ++ e), s1)
    end.
Proof.
  apply (MoveGroup_of_created_group Directory.t Directory.client Directory.conn
           "DC=x" "staff" "OU=Groups,DC=x" Directory.withStaff).
  - reflexivity.
  - reflexivity.
Defined.

(** X6: moving a group whose common name has a comma cuts its RDN at that
    comma.  For the common name [a,b], [a] without a comma, the rename that
    the connection is asked for has the new RDN [CN=<escaped a>\], the
    backslash being the one that escapes the comma. *)
Theorem MoveGroup_cuts_RDN_at_escaped_comma (Server : Type)
    (c : Client.t Server) (k : ldap.Conn Server)
    (ou a b newParentDN : string) (s : Server) :
  Client.conn c = Some k ->
  strings.Count a "," = 0%nat ->
  let dn := Client.createGroupDN ou (a ++ "," ++ b) in
  let rdn := ("CN=" ++ EscapeDN a ++ "\")%string in
  Client.MoveGroup c dn newParentDN s
  = match
      ldap.conn_ModifyDN k (ldap.NewModifyDNRequest dn rdn true newParentDN) s
    with
    | (None, s1) => (Ok tt, s1)
    | (Some e, s1) =>
        (Err (("failed to move group from " ++ dn ++ " to "
                 ++ (rdn ++ "," ++ newParentDN) ++ ": ") ++ e), s1)
    end.
Proof.
  intros Hk Hcomma dn rdn.
  apply (MoveGroup_connected Server c k dn newParentDN rdn
           (strings.Split (EscapeDN b ++ "," ++ ou) ",") s Hk).
  unfold dn, rdn, Client.createGroupDN, EscapeDN.
  rewrite !Replace_app.
  change (strings.Replace dnReplacer ",") with "\,"%string.
  replace ("CN=" ++ (strings.Replace dnReplacer a ++ "\,"
                       ++ strings.Replace dnReplacer b) ++ "," ++ ou)%string
    with (("CN=" ++ strings.Replace dnReplacer a ++ "\")
            ++ String "," (strings.Replace dnReplacer b ++ "," ++ ou))%string.
  - apply Split_first. rewrite !Count_app.
    fold (EscapeDN a). now rewrite (EscapeDN_no_comma a Hcomma).
  - simpl. rewrite !append_assoc. reflexivity.
Qed.

Lemma MoveGroup_cuts_RDN_at_escaped_comma_witness :
  let d := [ {| ldap.e_DN := "CN=Smith\, Ann,DC=x"; ldap.e_Attributes := [] |} ] in
  strings.Count "Smith" "," = 0%nat
  /\ Client.MoveGroup Directory.client
       (Client.createGroupDN "DC=x" "Smith, Ann") "OU=Groups,DC=x" d
     = match
         ldap.conn_ModifyDN Directory.conn
           (ldap.NewModifyDNRequest "CN=Smith\, Ann,DC=x" "CN=Smith\" true
              "OU=Groups,DC=x") d
       with
       | (None, s1) => (Ok tt, s1)
       | (Some e, s1) =>
           (Err (("failed to move group from " ++ "CN=Smith\, Ann,DC=x"
                    ++ " to " ++ ("CN=Smith\" ++ "," ++ "OU=Groups,DC=x")
                    ++ ": ") ++ e), s1)
       end.
Proof.
  split; [reflexivity |].
  exact (MoveGroup_cuts_RDN_at_escaped_comma Directory.t Directory.client
           Directory.conn "DC=x" "Smith" " Ann" "OU=Groups,DC=x"
           [ {| ldap.e_DN := "CN=Smith\, Ann,DC=x";
                ldap.e_Attributes := [] |} ] eq_refl eq_refl).
Defined.

(** ** The identifier of a membership *)

(** An identifier made of two DNs without [|] is accepted. *)
Lemma ImportState_accepted (Quote : string -> string) (groupDN memberDN : string)
    (resp : GroupMembershipResource.ImportStateResponse) :
  strings.Count groupDN "|" = 0%nat ->
  strings.Count memberDN "|" = 0%nat ->
  GroupMembershipResource.ImportState Quote (groupDN ++ "|" ++ memberDN) resp
  = {| GroupMembershipResource.imp_Diagnostics :=
         GroupMembershipResource.imp_Diagnostics resp;
       GroupMembershipResource.imp_State :=
         GroupMembershipResource.SetAttribute
           (GroupMembershipResource.SetAttribute
              (GroupMembershipResource.SetAttribute
                 (GroupMembershipResource.imp_State resp)
                 "id" (groupDN ++ "|" ++ memberDN))
              "group_dn" groupDN)
           "member_dn" memberDN |}.
Proof.
  intros Hgroup Hmember. unfold GroupMembershipResource.ImportState.
  change (groupDN ++ "|" ++ memberDN)%string
    with (groupDN ++ String "|" memberDN)%string.
  rewrite (Split_first "|" groupDN memberDN Hgroup).
  unfold strings.Split. rewrite (splitFrom_whole "|" memberDN "" Hmember).
  reflexivity.
Qed.

(** What [Create] of the membership resource saves when it saves. *)
Lemma Create_saved (Server : Type) (c : Client.t Server)
    (diags diags' : diag.Diagnostics)
    (data saved : GroupMembershipResource.GroupMembershipResourceModel)
    (s s' : Server) :
  GroupMembershipResource.Create c diags data s
  = (Ok {| GroupMembershipResource.Diagnostics := diags';
           GroupMembershipResource.Saved := Some saved |}, s') ->
  saved
  = {| GroupMembershipResource.ID :=
         types.Known
           (types.ValueString (GroupMembershipResource.GroupDN data) ++ "|"
              ++ types.ValueString (GroupMembershipResource.MemberDN data))%string;
       GroupMembershipResource.GroupDN := GroupMembershipResource.GroupDN data;
       GroupMembershipResource.MemberDN :=
         GroupMembershipResource.MemberDN data |}
  /\ diags' = diags.
Proof.
  unfold GroupMembershipResource.Create.
  destruct (diag.HasError diags); [intros H; discriminate |].
  destruct (Client.GetGroup c _ s) as [[group | e | msg] s1];
    try (intros H; discriminate).
  destruct (Client.AddMemberToGroup c _ _ s1) as [[[] | e | msg] s2];
    try (intros H; discriminate).
  intros H. injection H as <- <- _. now split.
Qed.

(** X7: the identifier that [Create] of the membership resource saves is
    read back by [ImportState] as the same group DN and member DN, when
    neither DN contains [|]. *)
Theorem membership_ID_imports_back (Server : Type)
    (Quote : string -> string) (c : Client.t Server)
    (diags diags' : diag.Diagnostics)
    (data saved : GroupMembershipResource.GroupMembershipResourceModel)
    (s s' : Server) (resp : GroupMembershipResource.ImportStateResponse) :
  GroupMembershipResource.Create c diags data s
  = (Ok {| GroupMembershipResource.Diagnostics := diags';
           GroupMembershipResource.Saved := Some saved |}, s') ->
  strings.Count (types.ValueString (GroupMembershipResource.GroupDN data)) "|"
  = 0%nat ->
  strings.Count (types.ValueString (GroupMembershipResource.MemberDN data)) "|"
  = 0%nat ->
  let id := types.ValueString (GroupMembershipResource.ID saved) in
  let resp' := GroupMembershipResource.ImportState Quote id resp in
  GroupMembershipResource.GetAttribute
    (GroupMembershipResource.imp_State resp') "group_dn"
  = Some (types.ValueString (GroupMembershipResource.GroupDN data))
  /\ GroupMembershipResource.GetAttribute
       (GroupMembershipResource.imp_State resp') "member_dn"
     = Some (types.ValueString (GroupMembershipResource.MemberDN data))
  /\ GroupMembershipResource.GetAttribute
       (GroupMembershipResource.imp_State resp') "id" = Some id
  /\ GroupMembershipResource.imp_Diagnostics resp'
     = GroupMembershipResource.imp_Diagnostics resp.
Proof.
  intros Hcreate Hgroup Hmember id resp'.
  destruct (Create_saved Server c diags diags' data saved s s' Hcreate)
    as [Hsaved _].
  subst resp' id. rewrite Hsaved.
  cbn [GroupMembershipResource.ID types.ValueString].
  rewrite (ImportState_accepted Quote _ _ resp Hgroup Hmember).
  cbn [GroupMembershipResource.imp_State
         GroupMembershipResource.imp_Diagnostics].
  repeat split.
  - rewrite GetAttribute_SetAttribute_other by discriminate.
    apply GetAttribute_SetAttribute_same.
  - apply GetAttribute_SetAttribute_same.
  - rewrite !GetAttribute_SetAttribute_other by discriminate.
    apply GetAttribute_SetAttribute_same.
Qed.

Lemma membership_ID_imports_back_witness :
  exists (saved : GroupMembershipResource.GroupMembershipResourceModel)
         (d : Directory.t),
    GroupMembershipResource.Create Directory.client []
      (Examples.membership "CN=staff,DC=x" "CN=bob,DC=x") Directory.withStaff
    = (Ok {| GroupMembershipResource.Diagnostics := [];
             GroupMembershipResource.Saved := Some saved |}, d)
    /\ GroupMembershipResource.GetAttribute
         (GroupMembershipResource.imp_State
            (GroupMembershipResource.ImportState quoted
               (types.ValueString (GroupMembershipResource.ID saved))
               {| GroupMembershipResource.imp_Diagnostics := [];
                  GroupMembershipResource.imp_State := [] |}))
         "member_dn"
       = Some "CN=bob,DC=x".
Proof.
  eexists. eexists. split; [reflexivity |].
  eapply (membership_ID_imports_back Directory.t quoted Directory.client [] []
            (Examples.membership "CN=staff,DC=x" "CN=bob,DC=x") _
            Directory.withStaff).
  - reflexivity.
  - reflexivity.
  - reflexivity.
Defined.

(** X8: [ImportState] of the membership resource accepts the identifier
    [groupDN|memberDN] exactly when neither DN contains [|]: a membership
    one of whose DNs contains [|] cannot be imported under its own
    identifier. *)
Theorem membership_ID_accepted_iff (Quote : string -> string)
    (groupDN memberDN : string)
    (resp : GroupMembershipResource.ImportStateResponse) :
  diag.HasError (GroupMembershipResource.imp_Diagnostics resp) = false ->
  diag.HasError
    (GroupMembershipResource.imp_Diagnostics
       (GroupMembershipResource.ImportState Quote
          (groupDN ++ "|" ++ memberDN) resp)) = false
  <-> strings.Count groupDN "|" = 0%nat /\ strings.Count memberDN "|" = 0%nat.
Proof.
  intros Hclean. split.
  - intros Haccepted.
    destruct (Nat.eq_dec (strings.Count (groupDN ++ "|" ++ memberDN) "|") 1)
      as [Hone | Hmore].
    + rewrite Count_app in Hone. simpl in Hone. lia.
    + rewrite (ImportState_refused Quote _ resp Hmore) in Haccepted.
      cbn [GroupMembershipResource.imp_Diagnostics] in Haccepted.
      rewrite HasError_AddError in Haccepted. discriminate.
  - intros [Hgroup Hmember].
    now rewrite (ImportState_accepted Quote _ _ resp Hgroup Hmember).
Qed.

Lemma membership_ID_accepted_iff_witness :
  diag.HasError
    (GroupMembershipResource.imp_Diagnostics
       (GroupMembershipResource.ImportState quoted
          ("CN=a|b,DC=x" ++ "|" ++ "CN=u,DC=x")
          {| GroupMembershipResource.imp_Diagnostics := [];
             GroupMembershipResource.imp_State := [] |})) <> false.
Proof.
  intros H.
  apply (membership_ID_accepted_iff quoted "CN=a|b,DC=x" "CN=u,DC=x"
           {| GroupMembershipResource.imp_Diagnostics := [];
              GroupMembershipResource.imp_State := [] |} eq_refl) in H.
  destruct H as [H _]. vm_compute in H. discriminate.
Defined.

(** ** The accessors *)

(** X9: without a connection every accessor that goes through [Search],
    [Add], [Modify] or [Delete] returns the not-connected error, under the
    accessor's own prefix, and the server sees nothing. *)
Theorem accessors_fail_fast_without_connection (Server : Type)
    (c : Client.t Server) (s : Server) :
  Client.conn c = None ->
  let down := "LDAP connection is not established" in
  (forall dn,
      Client.GetGroup c dn s
      = (Err (("failed to search for group " ++ dn ++ ": ") ++ down), s))
  /\ (forall cn,
        Client.GetGroupByCN c cn s
        = (Err (("failed to search for group with CN " ++ cn ++ ": ") ++ down),
           s))
  /\ (forall filter,
        Client.ListGroups c filter s
        = (Err ("failed to list groups: " ++ down), s))
  /\ (forall ou cn description groupType,
        Client.CreateGroup c ou cn description groupType s
        = (Err (("failed to create group " ++ Client.createGroupDN ou cn
                   ++ ": ") ++ down), s))
  /\ (forall dn updates,
        Client.UpdateGroup c dn updates s
        = (Err (("failed to update group " ++ dn ++ ": ") ++ down), s))
  /\ (forall dn,
        Client.DeleteGroup c dn s
        = (Err (("failed to delete group " ++ dn ++ ": ") ++ down), s))
  /\ (forall groupDN memberDN,
        Client.AddMemberToGroup c groupDN memberDN s
        = (Err (("failed to add member " ++ memberDN ++ " to group "
                   ++ groupDN ++ ": ") ++ down), s))
  /\ (forall groupDN memberDN,
        Client.RemoveMemberFromGroup c groupDN memberDN s
        = (Err (("failed to remove member " ++ memberDN ++ " from group "
                   ++ groupDN ++ ": ") ++ down), s))
  /\ (forall dn,
        User.GetUser c dn s
        = (Err (("failed to search for user " ++ dn ++ ": ") ++ down), s))
  /\ (forall sam,
        User.GetUserBySAM c sam s
        = (Err (("failed to search for user with SAM " ++ sam ++ ": ") ++ down),
           s)).
Proof.
  intros Hnil down.
  unfold Client.GetGroup, Client.GetGroupByCN, Client.ListGroups,
    Client.CreateGroup, Client.UpdateGroup, Client.DeleteGroup,
    Client.AddMemberToGroup, Client.RemoveMemberFromGroup, User.GetUser,
    User.GetUserBySAM, Client.Search, Client.Add, Client.Modify,
    Client.Delete, bind, wrap, fail.
  rewrite Hnil. repeat split.
Qed.

Lemma accessors_fail_fast_without_connection_witness :
  Client.DeleteGroup Directory.unconnected "CN=staff,DC=x" Directory.withStaff
  = (Err "failed to delete group CN=staff,DC=x: LDAP connection is not established",
     Directory.withStaff).
Proof.
  destruct (accessors_fail_fast_without_connection Directory.t
              Directory.unconnected Directory.withStaff eq_refl)
    as [_ [_ [_ [_ [_ [Hdelete _]]]]]].
  exact (Hdelete "CN=staff,DC=x").
Defined.

(** The escaped form of a filter value, counted. *)
Lemma EscapeFilter_counts (s : string) :
  strings.Count (EscapeFilter s) "(" = 0%nat
  /\ strings.Count (EscapeFilter s) ")" = 0%nat
  /\ strings.Count (EscapeFilter s) "*" = 0%nat
  /\ strings.Count (EscapeFilter s) NUL = 0%nat.
Proof.
  unfold EscapeFilter. induction s as [| b s [IH1 [IH2 [IH3 IH4]]]];
    [repeat split |].
  cbn [strings.Replace].
  set (rest := strings.Replace filterReplacer s) in *.
  unfold filterReplacer.
  rewrite !lookup_cons, !lookup_nil.
  repeat (match goal with
          | |- context [Ascii.eqb ?old b] =>
              destruct (Ascii.eqb_spec old b) as [<- | ?]
          end;
          [simpl; tauto |]).
  cbn [strings.Count].
  rewrite IH1, IH2, IH3, IH4.
  repeat match goal with
         | |- context [Ascii.eqb b ?m] =>
             destruct (Ascii.eqb_spec b m) as [-> | ?]; [congruence |]
         end.
  repeat split.
Qed.

(** X10: the filters of the two lookups by name cannot be broken out of.
    Whatever the common name or SAM account name, the filter that
    [GetGroupByCN] and [GetUserBySAM] hand to the search has its three
    opening and three closing parentheses, no asterisk and no NUL, and the
    search runs over the whole subtree under the base DN. *)
Theorem name_lookup_filters_are_closed (Server : Type) (c : Client.t Server)
    (name : string) :
  let groupFilter :=
    ("(&(objectClass=group)(cn=" ++ EscapeFilter name ++ "))")%string in
  let userFilter := User.samFilter name in
  (strings.Count groupFilter "(" = 3%nat
   /\ strings.Count groupFilter ")" = 3%nat
   /\ strings.Count groupFilter "*" = 0%nat
   /\ strings.Count groupFilter NUL = 0%nat)
  /\ (strings.Count userFilter "(" = 3%nat
      /\ strings.Count userFilter ")" = 3%nat
      /\ strings.Count userFilter "*" = 0%nat
      /\ strings.Count userFilter NUL = 0%nat)
  /\ (forall s : Server,
        Client.GetGroupByCN c name s
        = bind
            (wrap ("failed to search for group with CN " ++ name ++ ": ")
               (Client.Search c
                  (ldap.NewSearchRequest (Client.baseDN c)
                     ldap.ScopeWholeSubtree ldap.NeverDerefAliases 0%Z 0%Z
                     false groupFilter Client.groupAttributes)))
            (fun result =>
               match ldap.Entries result with
               | [] => fail ("group not found with CN: " ++ name)
               | entry :: _ => ret (Client.groupOfEntry entry)
               end) s)
  /\ (forall s : Server,
        User.GetUserBySAM c name s
        = bind
            (wrap ("failed to search for user with SAM " ++ name ++ ": ")
               (Client.Search c
                  (ldap.NewSearchRequest (Client.baseDN c)
                     ldap.ScopeWholeSubtree ldap.NeverDerefAliases 0%Z 0%Z
                     false userFilter User.userAttributes)))
            (fun result =>
               match ldap.Entries result with
               | [] => fail ("user not found with SAM: " ++ name)
               | entry :: _ => ret (User.userOfEntry entry)
               end) s).
Proof.
  cbv zeta. unfold User.samFilter.
  destruct (EscapeFilter_counts name) as [Hopen [Hclose [Hstar Hnul]]].
  repeat split; try reflexivity;
    repeat first [rewrite Count_app | rewrite Hopen | rewrite Hclose
                 | rewrite Hstar | rewrite Hnul];
    reflexivity.
Qed.

Lemma fold_changes (updates : list (string * list string))
    (req : ldap.ModifyRequest) :
  fold_left
    (fun req kv =>
       match snd kv with
       | [] => ldap.appendChange req ldap.DeleteAttribute (fst kv) []
       | values => ldap.appendChange req ldap.ReplaceAttribute (fst kv) values
       end)
    updates req
  = {| ldap.mr_DN := ldap.mr_DN req;
       ldap.mr_Changes :=
         ldap.mr_Changes req
           ++ map (fun kv =>
                     {| ldap.ch_Operation :=
                          match snd kv with
                          | [] => ldap.DeleteAttribute
                          | _ => ldap.ReplaceAttribute
                          end;
                        ldap.ch_Type := fst kv;
                        ldap.ch_Vals := snd kv |}) updates |}.
Proof.
  revert req. induction updates as [| [attr values] updates IH]; intros req.
  - simpl. rewrite app_nil_r. now destruct req.
  - cbn [fold_left]. rewrite IH. cbn [fst snd map].
    destruct values; cbn [ldap.appendChange ldap.mr_DN ldap.mr_Changes];
      now rewrite <- app_assoc.
Qed.

(** X11: the modify request of [UpdateGroup] has one change for each update,
    in the order given: the attribute is deleted, with no value named, when
    its list of values is empty, and replaced by the values otherwise.
    [UpdateGroup] never adds to an attribute. *)
Theorem UpdateGroup_request_changes (dn : string)
    (updates : list (string * list string)) :
  let req := Client.updateGroupRequest dn updates in
  ldap.mr_DN req = dn
  /\ ldap.mr_Changes req
     = map (fun kv =>
              {| ldap.ch_Operation :=
                   match snd kv with
                   | [] => ldap.DeleteAttribute
                   | _ => ldap.ReplaceAttribute
                   end;
                 ldap.ch_Type := fst kv;
                 ldap.ch_Vals := snd kv |}) updates
  /\ Forall (fun ch => ldap.ch_Operation ch <> ldap.AddAttribute)
       (ldap.mr_Changes req).
Proof.
  cbv zeta. unfold Client.updateGroupRequest. rewrite fold_changes.
  cbn [ldap.mr_DN ldap.mr_Changes ldap.NewModifyRequest app].
  repeat split. apply Forall_forall. intros ch Hin.
  apply in_map_iff in Hin. destruct Hin as [[attr values] [<- _]].
  cbn [ldap.ch_Operation snd]. destruct values; discriminate.
Qed.

(** ** Reading what is gone *)

Lemma HasPrefix_app (s q sub : string) :
  strings.HasPrefix s sub = true -> strings.HasPrefix (s ++ q) sub = true.
Proof.
  revert s. induction sub as [| p sub IH]; intros s H;
    [now destruct (s ++ q)%string |].
  destruct s as [| c s]; [discriminate |]. simpl in *.
  apply andb_true_iff in H. destruct H as [Hc Hs].
  now rewrite Hc, (IH _ Hs).
Qed.

Lemma Contains_app_l (s q sub : string) :
  strings.Contains s sub = true -> strings.Contains (s ++ q) sub = true.
Proof.
  induction s as [| c s IH]; intros H.
  - simpl in H. rewrite orb_false_r in H.
    destruct sub; [now destruct q | discriminate].
  - cbn [strings.Contains] in H. apply orb_true_iff in H.
    change (String c s ++ q)%string with (String c (s ++ q)).
    cbn [strings.Contains]. apply orb_true_iff. destruct H as [H | H].
    + left. exact (HasPrefix_app (String c s) q sub H).
    + right. now apply IH.
Qed.

Lemma Contains_app_r (p s sub : string) :
  strings.Contains s sub = true -> strings.Contains (p ++ s) sub = true.
Proof.
  intros H. induction p as [| c p IH]; [exact H |].
  change (String c p ++ s)%string with (String c (p ++ s)).
  cbn [strings.Contains]. rewrite IH. apply orb_true_r.
Qed.

(** Every error of [GetGroup] names the DN. *)
Lemma GetGroup_error_names_DN (Server : Type) (c : Client.t Server)
    (dn e : string) (s s1 : Server) :
  Client.GetGroup c dn s = (Err e, s1) ->
  exists before after : string, e = (before ++ dn ++ after)%string.
Proof.
  unfold Client.GetGroup, bind, wrap, fail, ret.
  destruct (Client.Search c _ s) as [[result | e' | msg] s'];
    [| | discriminate].
  - destruct (ldap.Entries result); [| discriminate].
    intros H. injection H as <- _.
    exists "group not found: "%string, EmptyString. now rewrite append_empty_r.
  - intros H. injection H as <- _.
    exists "failed to search for group "%string, (": " ++ e')%string.
    now rewrite !append_assoc.
Qed.

(** [GetGroup] when the search answers no entry. *)
Lemma GetGroup_no_entry (Server : Type) (c : Client.t Server)
    (k : ldap.Conn Server) (dn : string) (s s1 : Server) :
  Client.conn c = Some k ->
  ldap.conn_Search k (Client.getGroupRequest dn) s
  = (inr {| ldap.Entries := [] |}, s1) ->
  Client.GetGroup c dn s = (Err ("group not found: " ++ dn), s1).
Proof.
  intros Hk Hsearch.
  unfold Client.GetGroup, Client.Search, bind, wrap, liftResult, fail.
  now rewrite Hk, Hsearch.
Qed.

(** X12: a group that the search no longer finds is dropped from the state
    without an error.  When the search at the DN answers no entry, [Read] of
    the group resource and [Read] of the membership resource both remove
    the resource and add no diagnostic. *)
Theorem Read_removes_what_is_not_found (Server : Type) (c : Client.t Server)
    (k : ldap.Conn Server) (diags : diag.Diagnostics) (dn : string)
    (s s1 : Server) :
  Client.conn c = Some k ->
  diag.HasError diags = false ->
  ldap.conn_Search k (Client.getGroupRequest dn) s
  = (inr {| ldap.Entries := [] |}, s1) ->
  (forall data : GroupResource.GroupResourceModel,
      types.ValueString (GroupResource.DN data) = dn ->
      GroupResource.Read c diags data s
      = (Ok {| GroupResource.Diagnostics := diags;
               GroupResource.State := None |}, s1))
  /\ (forall (EqualFold : string -> string -> bool)
             (data : GroupMembershipResource.GroupMembershipResourceModel),
        types.ValueString (GroupMembershipResource.GroupDN data) = dn ->
        GroupMembershipResource.Read EqualFold c diags data s
        = (Ok {| GroupMembershipResource.Diagnostics := diags;
                 GroupMembershipResource.Saved := None |}, s1)).
Proof.
  intros Hk Hdiags Hsearch.
  pose proof (GetGroup_no_entry Server c k dn s s1 Hk Hsearch) as Hget.
  assert (Hfound : strings.Contains ("group not found: " ++ dn) "not found"
                   = true) by reflexivity.
  split.
  - intros data <-. unfold GroupResource.Read.
    now rewrite Hdiags, Hget, Hfound.
  - intros EqualFold data <-. unfold GroupMembershipResource.Read.
    rewrite Hdiags. cbv zeta. now rewrite Hget, Hfound.
Qed.

Lemma Read_removes_what_is_not_found_witness :
  GroupResource.Read Directory.client [] (Examples.groupAt "DC=x")
    Directory.empty
  = (Ok {| GroupResource.Diagnostics := []; GroupResource.State := None |},
     Directory.empty).
Proof.
  destruct (Read_removes_what_is_not_found Directory.t Directory.client
              Directory.conn [] "DC=x" Directory.empty Directory.empty
              eq_refl eq_refl eq_refl) as [Hgroup _].
  exact (Hgroup (Examples.groupAt "DC=x") eq_refl).
Defined.

(** X13: [Read] tells absence from other failures by looking for
    [not found] in the error text, and the text names the DN.  For a group
    whose DN contains [not found], every error of the lookup, whatever its
    cause, makes [Read] of the group resource and [Read] of the membership
    resource drop the resource from the state without a diagnostic. *)
Theorem Read_takes_any_error_for_absence (Server : Type)
    (c : Client.t Server) (diags : diag.Diagnostics) (dn e : string)
    (s s1 : Server) :
  diag.HasError diags = false ->
  strings.Contains dn "not found" = true ->
  Client.GetGroup c dn s = (Err e, s1) ->
  (forall data : GroupResource.GroupResourceModel,
      types.ValueString (GroupResource.DN data) = dn ->
      GroupResource.Read c diags data s
      = (Ok {| GroupResource.Diagnostics := diags;
               GroupResource.State := None |}, s1))
  /\ (forall (EqualFold : string -> string -> bool)
             (data : GroupMembershipResource.GroupMembershipResourceModel),
        types.ValueString (GroupMembershipResource.GroupDN data) = dn ->
        GroupMembershipResource.Read EqualFold c diags data s
        = (Ok {| GroupMembershipResource.Diagnostics := diags;
                 GroupMembershipResource.Saved := None |}, s1)).
Proof.
  intros Hdiags Hdn Hget.
  destruct (GetGroup_error_names_DN Server c dn e s s1 Hget)
    as [before [after ->]].
  assert (Hfound : strings.Contains (before ++ dn ++ after) "not found" = true).
  { apply Contains_app_r. now apply Contains_app_l. }
  split.
  - intros data <-. unfold GroupResource.Read.
    now rewrite Hdiags, Hget, Hfound.
  - intros EqualFold data <-. unfold GroupMembershipResource.Read.
    rewrite Hdiags. cbv zeta. now rewrite Hget, Hfound.
Qed.

Lemma Read_takes_any_error_for_absence_witness :
  GroupResource.Read Directory.unconnected []
    (Examples.groupAt "CN=not found,DC=x") Directory.withStaff
  = (Ok {| GroupResource.Diagnostics := []; GroupResource.State := None |},
     Directory.withStaff).
Proof.
  edestruct (Read_takes_any_error_for_absence Directory.t Directory.unconnected
               [] "CN=not found,DC=x") with (s := Directory.withStaff)
    as [Hgroup _].
  - reflexivity.
  - reflexivity.
  - reflexivity.
  - exact (Hgroup (Examples.groupAt "CN=not found,DC=x") eq_refl).
Defined.

(** X14: [Create] of the membership resource adds the member only to a
    group that it found.  When the search at the group DN answers no entry,
    [Create] reports the error, saves nothing, and leaves the server as the
    search left it: no modify request is sent. *)
Theorem membership_Create_needs_the_group (Server : Type)
    (c : Client.t Server) (k : ldap.Conn Server) (diags : diag.Diagnostics)
    (data : GroupMembershipResource.GroupMembershipResourceModel)
    (s s1 : Server) :
  let groupDN := types.ValueString (GroupMembershipResource.GroupDN data) in
  Client.conn c = Some k ->
  diag.HasError diags = false ->
  ldap.conn_Search k (Client.getGroupRequest groupDN) s
  = (inr {| ldap.Entries := [] |}, s1) ->
  GroupMembershipResource.Create c diags data s
  = (Ok {| GroupMembershipResource.Diagnostics :=
             diags
               ++ [ {| diag.severity := diag.SeverityError;
                       diag.Summary := "Client Error";
                       diag.Detail :=
                         "Unable to find group " ++ groupDN
                           ++ ", got error: group not found: " ++ groupDN |} ];
           GroupMembershipResource.Saved := None |}, s1).
Proof.
  intros groupDN Hk Hdiags Hsearch.
  unfold GroupMembershipResource.Create. rewrite Hdiags. cbv zeta.
  fold groupDN.
  rewrite (GetGroup_no_entry Server c k groupDN s s1 Hk Hsearch).
  now rewrite (AddError_fresh diags _ _ Hdiags).
Qed.

Lemma membership_Create_needs_the_group_witness :
  exists ds : diag.Diagnostics,
    GroupMembershipResource.Create Directory.client []
      (Examples.membership "DC=x" "CN=ann,DC=x") Directory.withStaff
    = (Ok {| GroupMembershipResource.Diagnostics := ds;
             GroupMembershipResource.Saved := None |}, Directory.withStaff)
    /\ diag.HasError ds = true.
Proof.
  eexists. split.
  - apply (membership_Create_needs_the_group Directory.t Directory.client
             Directory.conn [] (Examples.membership "DC=x" "CN=ann,DC=x")
             Directory.withStaff Directory.withStaff);
      reflexivity.
  - reflexivity.
Defined.

(** ** Updating a group *)

Lemma UpdateGroup_done (Server : Type) (c : Client.t Server)
    (k : ldap.Conn Server) (dn : string)
    (updates : list (string * list string)) (s s1 : Server) :
  Client.conn c = Some k ->
  ldap.conn_Modify k (Client.updateGroupRequest dn updates) s = (None, s1) ->
  Client.UpdateGroup c dn updates s = (Ok tt, s1).
Proof.
  intros Hk Hmodify. unfold Client.UpdateGroup, Client.Modify, wrap, liftError.
  now rewrite Hk, Hmodify.
Qed.

(** A loop over a map with one entry visits that entry. *)
Lemma order_single
    (order : list (string * list string) -> list (string * list string))
    (entry : string * list string) :
  (forall l, Permutation (order l) l) -> order [entry] = [entry].
Proof.
  intros Horder. apply Permutation_length_1_inv.
  apply Permutation_sym. apply Horder.
Qed.

(** X15: an update that changes nothing sends no modify request.  When the
    plan has the description, manager and group type of the state, [Update]
    only reads the group again, whatever the order of the map's loop, and
    saves what it read. *)
Theorem Update_without_change_only_reads (Server : Type)
    (order : list (string * list string) -> list (string * list string))
    (c : Client.t Server) (k : ldap.Conn Server)
    (planDiags stateDiags : diag.Diagnostics)
    (data state : GroupResource.GroupResourceModel)
    (e : ldap.Entry) (es : list ldap.Entry) (s s1 : Server) :
  let dn := types.ValueString (GroupResource.DN data) in
  Client.conn c = Some k ->
  diag.HasError (diag.Append planDiags stateDiags) = false ->
  types.StringEqual (GroupResource.Description data)
    (GroupResource.Description state) = true ->
  types.StringEqual (GroupResource.ManagedBy data)
    (GroupResource.ManagedBy state) = true ->
  types.Int64Equal (GroupResource.GroupType data)
    (GroupResource.GroupType state) = true ->
  ldap.conn_Search k (Client.getGroupRequest dn) s
  = (inr {| ldap.Entries := e :: es |}, s1) ->
  GroupResource.Update order c planDiags data stateDiags state s
  = (Ok {| GroupResource.Diagnostics := diag.Append planDiags stateDiags;
           GroupResource.State :=
             Some (GroupResource.modelOfGroup data (Client.groupOfEntry e)) |},
     s1).
Proof.
  intros dn Hk Hdiags Hdescription Hmanaged Htype Hsearch.
  unfold GroupResource.Update, GroupResource.updatesOf.
  rewrite Hdiags, Hdescription, Hmanaged, Htype. cbn [negb app].
  fold dn. now rewrite (GetGroup_found Server c k dn e es s s1 Hk Hsearch).
Qed.

Lemma Update_without_change_only_reads_witness :
  exists saved : GroupResource.GroupResourceModel,
    GroupResource.Update (fun l => rev l) Directory.client []
      Examples.staffState [] Examples.staffState Examples.described
    = (Ok {| GroupResource.Diagnostics := [];
             GroupResource.State := Some saved |}, Examples.described)
    /\ GroupResource.Description saved = types.Known "All staff".
Proof.
  eexists. split.
  - eapply (Update_without_change_only_reads Directory.t (fun l => rev l)
              Directory.client Directory.conn [] [] Examples.staffState
              Examples.staffState _ _ Examples.described Examples.described);
      reflexivity.
  - reflexivity.
Defined.

(** X16: taking the description out of the configuration deletes the
    attribute.  When the plan has no description where the state has one,
    and nothing else differs, the one modify request that [Update] sends
    deletes [description] with no value named; the group is then read again
    and saved. *)
Theorem Update_deletes_cleared_description (Server : Type)
    (order : list (string * list string) -> list (string * list string))
    (c : Client.t Server) (k : ldap.Conn Server)
    (planDiags stateDiags : diag.Diagnostics)
    (data state : GroupResource.GroupResourceModel) (old : string)
    (e : ldap.Entry) (es : list ldap.Entry) (s s1 s2 : Server) :
  let dn := types.ValueString (GroupResource.DN data) in
  (forall l, Permutation (order l) l) ->
  Client.conn c = Some k ->
  diag.HasError (diag.Append planDiags stateDiags) = false ->
  GroupResource.Description data = types.Null ->
  GroupResource.Description state = types.Known old ->
  types.StringEqual (GroupResource.ManagedBy data)
    (GroupResource.ManagedBy state) = true ->
  types.Int64Equal (GroupResource.GroupType data)
    (GroupResource.GroupType state) = true ->
  ldap.conn_Modify k
    {| ldap.mr_DN := dn;
       ldap.mr_Changes :=
         [ {| ldap.ch_Operation := ldap.DeleteAttribute;
              ldap.ch_Type := "description";
              ldap.ch_Vals := [] |} ] |} s
  = (None, s1) ->
  ldap.conn_Search k (Client.getGroupRequest dn) s1
  = (inr {| ldap.Entries := e :: es |}, s2) ->
  GroupResource.Update order c planDiags data stateDiags state s
  = (Ok {| GroupResource.Diagnostics := diag.Append planDiags stateDiags;
           GroupResource.State :=
             Some (GroupResource.modelOfGroup data (Client.groupOfEntry e)) |},
     s2).
Proof.
  intros dn Horder Hk Hdiags Hplan Hstate Hmanaged Htype Hmodify Hsearch.
  unfold GroupResource.Update, GroupResource.updatesOf.
  rewrite Hdiags, Hplan, Hstate, Hmanaged, Htype.
  cbn [types.StringEqual types.Equal types.IsNull negb app].
  rewrite (order_single order _ Horder). fold dn.
  rewrite (UpdateGroup_done Server c k dn [("description", [])] s s1 Hk
             Hmodify).
  now rewrite (GetGroup_found Server c k dn e es s1 s2 Hk Hsearch).
Qed.

Lemma Update_deletes_cleared_description_witness :
  exists (saved : GroupResource.GroupResourceModel) (d : Directory.t),
    GroupResource.Update (fun l => l) Directory.client []
      Examples.staffWithoutDescription [] Examples.staffState
      Examples.described
    = (Ok {| GroupResource.Diagnostics := [];
             GroupResource.State := Some saved |}, d)
    /\ GroupResource.Description saved = types.Known ""
    /\ option_map (fun e => ldap.GetAttributeValues e "description")
         (Directory.find d "CN=staff,DC=x") = Some [].
Proof.
  eexists. eexists. split.
  - eapply (Update_deletes_cleared_description Directory.t (fun l => l)
              Directory.client Directory.conn [] []
              Examples.staffWithoutDescription Examples.staffState "All staff"
              _ _ Examples.described).
    + intros l. apply Permutation_refl.
    + reflexivity.
    + reflexivity.
    + reflexivity.
    + reflexivity.
    + reflexivity.
    + reflexivity.
    + reflexivity.
    + reflexivity.
  - split; reflexivity.
Defined.

(** X17: a new group type is written in decimal and comes back.  When only
    the group type differs, the one modify request that [Update] sends
    replaces [groupType] by the decimal rendering of the planned value [g];
    when the entry read afterwards holds that rendering, the saved state has
    the group type [g]. *)
Theorem Update_group_type_round_trip (Server : Type)
    (order : list (string * list string) -> list (string * list string))
    (c : Client.t Server) (k : ldap.Conn Server)
    (planDiags stateDiags : diag.Diagnostics)
    (data state : GroupResource.GroupResourceModel) (g : Z)
    (e : ldap.Entry) (es : list ldap.Entry) (s s1 s2 : Server) :
  let dn := types.ValueString (GroupResource.DN data) in
  (forall l, Permutation (order l) l) ->
  (- 2 ^ 63 <= g < 2 ^ 63)%Z ->
  Client.conn c = Some k ->
  diag.HasError (diag.Append planDiags stateDiags) = false ->
  GroupResource.GroupType data = types.Known g ->
  types.Int64Equal (types.Known g) (GroupResource.GroupType state) = false ->
  types.StringEqual (GroupResource.Description data)
    (GroupResource.Description state) = true ->
  types.StringEqual (GroupResource.ManagedBy data)
    (GroupResource.ManagedBy state) = true ->
  ldap.conn_Modify k
    {| ldap.mr_DN := dn;
       ldap.mr_Changes :=
         [ {| ldap.ch_Operation := ldap.ReplaceAttribute;
              ldap.ch_Type := "groupType";
              ldap.ch_Vals := [strconv.FormatInt g] |} ] |} s
  = (None, s1) ->
  ldap.conn_Search k (Client.getGroupRequest dn) s1
  = (inr {| ldap.Entries := e :: es |}, s2) ->
  ldap.GetAttributeValue e "groupType" = strconv.FormatInt g ->
  exists saved : GroupResource.GroupResourceModel,
    GroupResource.Update order c planDiags data stateDiags state s
    = (Ok {| GroupResource.Diagnostics := diag.Append planDiags stateDiags;
             GroupResource.State := Some saved |}, s2)
    /\ GroupResource.GroupType saved = types.Known g.
Proof.
  intros dn Horder Hg Hk Hdiags Hplan Hdiffers Hdescription Hmanaged Hmodify
    Hsearch Hvalue.
  exists (GroupResource.modelOfGroup data (Client.groupOfEntry e)). split.
  - unfold GroupResource.Update, GroupResource.updatesOf.
    rewrite Hdiags, Hdescription, Hmanaged, Hplan, Hdiffers.
    cbn [negb app types.ValueInt64].
    rewrite (order_single order _ Horder). fold dn.
    rewrite (UpdateGroup_done Server c k dn
               [("groupType", [strconv.FormatInt g])] s s1 Hk Hmodify).
    now rewrite (GetGroup_found Server c k dn e es s1 s2 Hk Hsearch).
  - cbn [GroupResource.modelOfGroup GroupResource.GroupType].
    unfold GroupResource.groupTypeOf.
    cbn [Client.groupOfEntry Client.GroupType]. rewrite Hvalue.
    rewrite (ParseInt_FormatInt g Hg).
    destruct (String.eqb_spec (strconv.FormatInt g) "") as [Hempty | _].
    + exfalso. exact (FormatInt_not_empty g Hg Hempty).
    + reflexivity.
Qed.

Lemma Update_group_type_round_trip_witness :
  exists (saved : GroupResource.GroupResourceModel) (d : Directory.t),
    GroupResource.Update (fun l => l) Directory.client []
      Examples.staffUniversal [] Examples.staffState Examples.described
    = (Ok {| GroupResource.Diagnostics := [];
             GroupResource.State := Some saved |}, d)
    /\ GroupResource.GroupType saved = types.Known (-2147483640)%Z.
Proof.
  edestruct (Update_group_type_round_trip Directory.t (fun l => l)
               Directory.client Directory.conn [] []
               Examples.staffUniversal Examples.staffState (-2147483640)%Z)
    with (s := Examples.described) as [saved [Hupdate Htype]].
  - intros l. apply Permutation_refl.
  - vm_compute. split; [discriminate | reflexivity].
  - reflexivity.
  - reflexivity.
  - reflexivity.
  - reflexivity.
  - reflexivity.
  - reflexivity.
  - reflexivity.
  - reflexivity.
  - reflexivity.
  - exists saved. eexists. split; [exact Hupdate | exact Htype].
Defined.

(** ** Looking a group up *)

(** X18: in the group lookup the DN wins over the common name.  Two
    configurations with the same known DN (and the same group type to fall
    back on) are read alike, whatever their common names. *)
Theorem lookup_by_DN_ignores_CN (Server : Type) (c : Client.t Server)
    (diags : diag.Diagnostics)
    (data data' : GroupDataSource.GroupDataSourceModel) (dn : string)
    (s : Server) :
  GroupDataSource.DN data = types.Known dn ->
  GroupDataSource.DN data' = types.Known dn ->
  GroupDataSource.GroupType data = GroupDataSource.GroupType data' ->
  GroupDataSource.Read c diags data s = GroupDataSource.Read c diags data' s.
Proof.
  intros Hdn Hdn' Htype. unfold GroupDataSource.Read.
  rewrite Hdn, Hdn'. cbn [types.IsNull types.IsUnknown negb andb].
  destruct (diag.HasError diags); [reflexivity |].
  destruct (Client.GetGroup c _ s) as [[group | e | msg] s1];
    try reflexivity.
  unfold GroupDataSource.modelOfGroup. now rewrite Htype.
Qed.

Lemma lookup_by_DN_ignores_CN_witness :
  GroupDataSource.Read Directory.client []
    (Examples.lookup (types.Known "CN=staff,DC=x") (types.Known "nobody"))
    Directory.withStaff
  = GroupDataSource.Read Directory.client []
      (Examples.lookup (types.Known "CN=staff,DC=x") types.Null)
      Directory.withStaff.
Proof.
  apply (lookup_by_DN_ignores_CN Directory.t Directory.client []
           (Examples.lookup (types.Known "CN=staff,DC=x") (types.Known "nobody"))
           (Examples.lookup (types.Known "CN=staff,DC=x") types.Null)
           "CN=staff,DC=x" Directory.withStaff);
    reflexivity.
Defined.

(** X19: a group lookup that names neither a DN nor a common name is
    refused before anything is asked of the directory: one error is added,
    no state is saved and the server is as it was, for every client. *)
Theorem lookup_needs_DN_or_CN (Server : Type) (c : Client.t Server)
    (diags : diag.Diagnostics) (data : GroupDataSource.GroupDataSourceModel)
    (s : Server) :
  diag.HasError diags = false ->
  types.IsNull (GroupDataSource.DN data)
  || types.IsUnknown (GroupDataSource.DN data) = true ->
  types.IsNull (GroupDataSource.CN data)
  || types.IsUnknown (GroupDataSource.CN data) = true ->
  GroupDataSource.Read c diags data s
  = (Ok {| GroupDataSource.Diagnostics :=
             diags
               ++ [ {| diag.severity := diag.SeverityError;
                       diag.Summary := "Missing Required Attribute";
                       diag.Detail :=
                         "Either 'dn' or 'cn' must be specified to look up the group." |} ];
           GroupDataSource.State := None |}, s).
Proof.
  intros Hdiags Hdn Hcn. unfold GroupDataSource.Read.
  rewrite Hdiags, <- !negb_orb, Hdn, Hcn. cbn [negb].
  now rewrite (AddError_fresh diags _ _ Hdiags).
Qed.

Lemma lookup_needs_DN_or_CN_witness :
  exists ds : diag.Diagnostics,
    GroupDataSource.Read Directory.unconnected []
      (Examples.lookup types.Null types.Unknown) Directory.withStaff
    = (Ok {| GroupDataSource.Diagnostics := ds;
             GroupDataSource.State := None |}, Directory.withStaff)
    /\ diag.HasError ds = true.
Proof.
  eexists. split.
  - apply (lookup_needs_DN_or_CN Directory.t Directory.unconnected []
             (Examples.lookup types.Null types.Unknown) Directory.withStaff);
      reflexivity.
  - reflexivity.
Defined.

(** X20: the group lookup reports the group type that the directory holds.
    When the entry found at the DN holds the decimal rendering of a 64-bit
    [g] for groupType, the saved group type is [g], and the members are the
    values of the member attribute, one for one. *)
Theorem lookup_reports_parsed_group_type (Server : Type)
    (c : Client.t Server) (k : ldap.Conn Server) (diags : diag.Diagnostics)
    (data : GroupDataSource.GroupDataSourceModel) (dn : string) (g : Z)
    (e : ldap.Entry) (es : list ldap.Entry) (s s1 : Server) :
  (- 2 ^ 63 <= g < 2 ^ 63)%Z ->
  Client.conn c = Some k ->
  diag.HasError diags = false ->
  GroupDataSource.DN data = types.Known dn ->
  ldap.conn_Search k (Client.getGroupRequest dn) s
  = (inr {| ldap.Entries := e :: es |}, s1) ->
  ldap.GetAttributeValue e "groupType" = strconv.FormatInt g ->
  exists saved : GroupDataSource.GroupDataSourceModel,
    GroupDataSource.Read c diags data s
    = (Ok {| GroupDataSource.Diagnostics := diags;
             GroupDataSource.State := Some saved |}, s1)
    /\ GroupDataSource.GroupType saved = types.Known g
    /\ GroupDataSource.DN saved = types.Known (ldap.e_DN e)
    /\ GroupDataSource.Members saved
       = map types.Known (ldap.GetAttributeValues e "member").
Proof.
  intros Hg Hk Hdiags Hdn Hsearch Hvalue.
  exists (GroupDataSource.modelOfGroup data (Client.groupOfEntry e)).
  split; [| split; [| split; reflexivity]].
  - unfold GroupDataSource.Read. rewrite Hdiags, Hdn.
    cbn [types.IsNull types.IsUnknown negb andb types.ValueString].
    now rewrite (GetGroup_found Server c k dn e es s s1 Hk Hsearch).
  - cbn [GroupDataSource.modelOfGroup GroupDataSource.GroupType
           Client.groupOfEntry Client.GroupType].
    rewrite Hvalue, (ParseInt_FormatInt g Hg).
    destruct (String.eqb_spec (strconv.FormatInt g) "") as [Hempty | _].
    + exfalso. exact (FormatInt_not_empty g Hg Hempty).
    + reflexivity.
Qed.

Lemma lookup_reports_parsed_group_type_witness :
  exists saved : GroupDataSource.GroupDataSourceModel,
    GroupDataSource.Read Directory.client []
      (Examples.lookup (types.Known "CN=staff,DC=x") types.Null)
      Directory.withStaff
    = (Ok {| GroupDataSource.Diagnostics := [];
             GroupDataSource.State := Some saved |}, Directory.withStaff)
    /\ GroupDataSource.GroupType saved = types.Known (-2147483646)%Z
    /\ GroupDataSource.Members saved = [types.Known "CN=ann,DC=x"].
Proof.
  edestruct (lookup_reports_parsed_group_type Directory.t Directory.client
               Directory.conn []
               (Examples.lookup (types.Known "CN=staff,DC=x") types.Null)
               "CN=staff,DC=x" (-2147483646)%Z)
    with (s := Directory.withStaff) as [saved [Hread [Htype [_ Hmembers]]]].
  - vm_compute. split; [discriminate | reflexivity].
  - reflexivity.
  - reflexivity.
  - reflexivity.
  - reflexivity.
  - reflexivity.
  - exists saved. split; [exact Hread |]. split; [exact Htype | exact Hmembers].
Defined.

(** X21: the user lookup always fails: whatever the configuration, its
    [Read] leaves an error in the diagnostics. *)
Theorem user_lookup_always_fails (configDiags : diag.Diagnostics) :
  diag.HasError (UserDataSource.Read configDiags) = true
  /\ (diag.HasError configDiags = false ->
      UserDataSource.Read configDiags
      = configDiags
          ++ [ {| diag.severity := diag.SeverityError;
                  diag.Summary := "Not Implemented";
                  diag.Detail :=
                    "User data source is not yet implemented. This is a placeholder for future functionality." |} ]).
Proof.
  unfold UserDataSource.Read.
  destruct (diag.HasError configDiags) eqn:Hdiags.
  - split; [exact Hdiags | discriminate].
  - split; [apply HasError_AddError |].
    intros _. now apply AddError_fresh.
Qed.

Lemma user_lookup_always_fails_witness :
  diag.HasError (UserDataSource.Read []) = true.
Proof. exact (proj1 (user_lookup_always_fails [])). Defined.

(** ** Configuring the provider and connecting *)

(** X22: what [Configure] hands to the client is complete.  When it gets as
    far as a client configuration, no diagnostic was added, the server, base
    DN, user name and password are not empty, the port is not 0, and TLS is
    on exactly when the configuration or the environment asks for it. *)
Theorem Configure_hands_over_complete_config (Getenv : ADGroupsProvider.Env)
    (configDiags ds : diag.Diagnostics)
    (data : ADGroupsProvider.ADGroupsProviderModel)
    (config : ADGroupsProvider.ClientConfig) :
  ADGroupsProvider.Configure Getenv configDiags data = (ds, Some config) ->
  ds = configDiags
  /\ diag.HasError configDiags = false
  /\ ADGroupsProvider.cfg_Server config <> ""
  /\ ADGroupsProvider.cfg_BaseDN config <> ""
  /\ ADGroupsProvider.cfg_Username config <> ""
  /\ ADGroupsProvider.cfg_Password config <> ""
  /\ ADGroupsProvider.cfg_Port config <> 0%Z
  /\ (ADGroupsProvider.cfg_UseTLS config = true
      <-> types.ValueBool (ADGroupsProvider.UseTLS data) = true
          \/ Getenv "AD_USE_TLS" = "true").
Proof.
  unfold ADGroupsProvider.Configure.
  destruct (diag.HasError configDiags); [discriminate |].
  destruct (String.eqb_spec
              (ADGroupsProvider.orEnv Getenv (ADGroupsProvider.Server data)
                 "AD_SERVER") "") as [| Hserver]; [discriminate |].
  destruct (String.eqb_spec
              (ADGroupsProvider.orEnv Getenv (ADGroupsProvider.BaseDN data)
                 "AD_BASE_DN") "") as [| HbaseDN]; [discriminate |].
  destruct (String.eqb_spec
              (ADGroupsProvider.orEnv Getenv (ADGroupsProvider.Username data)
                 "AD_USERNAME") "") as [| Husername]; [discriminate |].
  destruct (String.eqb_spec
              (ADGroupsProvider.orEnv Getenv (ADGroupsProvider.Password data)
                 "AD_PASSWORD") "") as [| Hpassword]; [discriminate |].
  intros H. injection H as <- <-.
  cbn [ADGroupsProvider.cfg_Server ADGroupsProvider.cfg_BaseDN
         ADGroupsProvider.cfg_Username ADGroupsProvider.cfg_Password
         ADGroupsProvider.cfg_Port ADGroupsProvider.cfg_UseTLS].
  repeat split; try assumption.
  - unfold ADGroupsProvider.configurePort.
    destruct (Z.eqb_spec (types.ValueInt64 (ADGroupsProvider.Port data)) 0)
      as [| Hport]; [| exact Hport].
    destruct (negb _); [discriminate |].
    destruct (_ || _); discriminate.
  - destruct (String.eqb_spec (Getenv "AD_USE_TLS") "true"); [now right |].
    intros H. now left.
  - intros [H | H].
    + destruct (String.eqb (Getenv "AD_USE_TLS") "true"); [reflexivity | exact H].
    + rewrite H. reflexivity.
Qed.

Lemma Configure_hands_over_complete_config_witness :
  exists config : ADGroupsProvider.ClientConfig,
    ADGroupsProvider.Configure Examples.noEnv [] Examples.tlsNoPort
    = ([], Some config)
    /\ ADGroupsProvider.cfg_Port config <> 0%Z.
Proof.
  eexists. split; [reflexivity |].
  eapply (Configure_hands_over_complete_config Examples.noEnv [] []
            Examples.tlsNoPort).
  reflexivity.
Defined.

(** X23: each of the four settings is mandatory.  When the server, the base
    DN, the user name or the password is empty in the configuration and in
    the environment, [Configure] adds an error and hands over no client
    configuration. *)
Theorem Configure_refuses_missing_setting (Getenv : ADGroupsProvider.Env)
    (configDiags : diag.Diagnostics)
    (data : ADGroupsProvider.ADGroupsProviderModel) :
  ADGroupsProvider.orEnv Getenv (ADGroupsProvider.Server data) "AD_SERVER" = ""
  \/ ADGroupsProvider.orEnv Getenv (ADGroupsProvider.BaseDN data) "AD_BASE_DN"
     = ""
  \/ ADGroupsProvider.orEnv Getenv (ADGroupsProvider.Username data)
       "AD_USERNAME" = ""
  \/ ADGroupsProvider.orEnv Getenv (ADGroupsProvider.Password data)
       "AD_PASSWORD" = "" ->
  snd (ADGroupsProvider.Configure Getenv configDiags data) = None
  /\ diag.HasError (fst (ADGroupsProvider.Configure Getenv configDiags data))
     = true.
Proof.
  intros Hmissing. unfold ADGroupsProvider.Configure.
  destruct (diag.HasError configDiags) eqn:Hdiags; [now split |].
  destruct (String.eqb_spec
              (ADGroupsProvider.orEnv Getenv (ADGroupsProvider.Server data)
                 "AD_SERVER") "") as [| Hserver];
    [split; [reflexivity | apply HasError_AddError] |].
  destruct (String.eqb_spec
              (ADGroupsProvider.orEnv Getenv (ADGroupsProvider.BaseDN data)
                 "AD_BASE_DN") "") as [| HbaseDN];
    [split; [reflexivity | apply HasError_AddError] |].
  destruct (String.eqb_spec
              (ADGroupsProvider.orEnv Getenv (ADGroupsProvider.Username data)
                 "AD_USERNAME") "") as [| Husername];
    [split; [reflexivity | apply HasError_AddError] |].
  destruct (String.eqb_spec
              (ADGroupsProvider.orEnv Getenv (ADGroupsProvider.Password data)
                 "AD_PASSWORD") "") as [| Hpassword];
    [split; [reflexivity | apply HasError_AddError] |].
  tauto.
Qed.

Lemma Configure_refuses_missing_setting_witness :
  snd (ADGroupsProvider.Configure Examples.noEnv []
         {| ADGroupsProvider.Server := types.Known "ad.example.com";
            ADGroupsProvider.Port := types.Null;
            ADGroupsProvider.BaseDN := types.Known "DC=x";
            ADGroupsProvider.Username := types.Known "CN=admin,DC=x";
            ADGroupsProvider.Password := types.Null;
            ADGroupsProvider.UseTLS := types.Null;
            ADGroupsProvider.Insecure := types.Null |}) = None.
Proof.
  apply Configure_refuses_missing_setting.
  right. right. right. reflexivity.
Defined.

(** X24: a client that [NewClient] returns has a connection, and the base
    DN, server, port, TLS flag and credentials of the configuration; its
    [Search] goes to the connection.  [NewClient] never returns a client in
    the not-connected state. *)
Theorem NewClient_returns_connected_client (Server : Type)
    (dialer : Connection.Dialer Server)
    (config : ADGroupsProvider.ClientConfig) (client : Client.t Server)
    (s s' : Server) :
  Connection.NewClient dialer config s = (inr client, s') ->
  exists k : ldap.Conn Server,
    client
    = {| Client.conn := Some k;
         Client.baseDN := ADGroupsProvider.cfg_BaseDN config;
         Client.username := ADGroupsProvider.cfg_Username config;
         Client.password := ADGroupsProvider.cfg_Password config;
         Client.server := ADGroupsProvider.cfg_Server config;
         Client.port := ADGroupsProvider.cfg_Port config;
         Client.useTLS := ADGroupsProvider.cfg_UseTLS config |}
    /\ forall req s0,
         Client.Search client req s0
         = match ldap.conn_Search k req s0 with
           | (inr result, s1) => (Ok result, s1)
           | (inl e, s1) => (Err ("LDAP search failed: " ++ e), s1)
           end.
Proof.
  unfold Connection.NewClient, Connection.connect.
  cbn [Client.useTLS Client.username Client.password Client.server Client.port
         Client.baseDN].
  destruct (if ADGroupsProvider.cfg_UseTLS config then _ else _)
    as [[e | d] s1]; [discriminate |].
  destruct (Connection.d_Bind d _ _ s1) as [[e |] s2]; [discriminate |].
  intros H. injection H as <- _.
  exists (Connection.d_conn d). split; [reflexivity |].
  intros req s0. unfold Client.Search, wrap, liftResult.
  cbn [Client.conn].
  destruct (ldap.conn_Search (Connection.d_conn d) req s0) as [[e | result] s3];
    reflexivity.
Qed.

Lemma NewClient_returns_connected_client_witness :
  exists client : Client.t Directory.t,
    Connection.NewClient Examples.network Examples.plainConfig
      Directory.withStaff
    = (inr client, Directory.withStaff)
    /\ Client.conn client <> None.
Proof.
  eexists. split; [reflexivity |].
  edestruct (NewClient_returns_connected_client Directory.t Examples.network
               Examples.plainConfig) with (s := Directory.withStaff)
    as [k [Hclient _]].
  - reflexivity.
  - rewrite Hclient. discriminate.
Defined.

(** X25: a connection whose bind is refused is closed.  When the dial
    succeeds and the bind answers an error, [NewClient] returns no client,
    its error wraps the bind error twice, and the connection has been
    closed. *)
Theorem NewClient_closes_after_refused_bind (Server : Type)
    (dialer : Connection.Dialer Server)
    (config : ADGroupsProvider.ClientConfig) (d : Connection.Dialed Server)
    (e : string) (s s1 s2 : Server) :
  let address :=
    (ADGroupsProvider.cfg_Server config ++ ":"
       ++ strconv.FormatInt (ADGroupsProvider.cfg_Port config))%string in
  (if ADGroupsProvider.cfg_UseTLS config
   then Connection.DialTLS dialer "tcp" address
          {| Connection.InsecureSkipVerify :=
               ADGroupsProvider.cfg_Insecure config |} s
   else Connection.Dial dialer "tcp" address s) = (inr d, s1) ->
  Connection.d_Bind d (ADGroupsProvider.cfg_Username config)
    (ADGroupsProvider.cfg_Password config) s1 = (Some e, s2) ->
  Connection.NewClient dialer config s
  = (inl ("failed to connect to LDAP server: failed to bind to LDAP server: "
            ++ e)%string,
     Connection.d_Close d s2).
Proof.
  intros address Hdial Hbind.
  unfold Connection.NewClient, Connection.connect, Connection.address.
  cbn [Client.useTLS Client.username Client.password Client.server Client.port
         Client.baseDN].
  fold address. rewrite Hdial, Hbind. reflexivity.
Qed.

Lemma NewClient_closes_after_refused_bind_witness :
  exists e : string,
    Connection.NewClient Examples.network Examples.wrongPassword
      Directory.withStaff
    = (inl e, Directory.withStaff).
Proof.
  eexists.
  eapply (NewClient_closes_after_refused_bind Directory.t Examples.network
            Examples.wrongPassword Examples.reached _ Directory.withStaff).
  - reflexivity.
  - reflexivity.
Defined.

(** X26: with TLS asked for in the configuration, no port named and
    [AD_PORT] not set, the provider dials [<server>:636] over TLS, the
    certificate check being skipped exactly when the configuration or the
    environment says so; a failed dial ends [Configure] with one error and
    no client. *)
Theorem Configure_dials_636_over_TLS (Server : Type)
    (dialer : Connection.Dialer Server) (Getenv : ADGroupsProvider.Env)
    (configDiags : diag.Diagnostics)
    (data : ADGroupsProvider.ADGroupsProviderModel) (e : string)
    (s s1 : Server) :
  let insecure :=
    if String.eqb (Getenv "AD_INSECURE") "true" then true
    else types.ValueBool (ADGroupsProvider.Insecure data) in
  diag.HasError configDiags = false ->
  types.ValueString (ADGroupsProvider.Server data) <> "" ->
  types.ValueString (ADGroupsProvider.BaseDN data) <> "" ->
  types.ValueString (ADGroupsProvider.Username data) <> "" ->
  types.ValueString (ADGroupsProvider.Password data) <> "" ->
  types.ValueInt64 (ADGroupsProvider.Port data) = 0%Z ->
  Getenv "AD_PORT" = "" ->
  types.ValueBool (ADGroupsProvider.UseTLS data) = true ->
  Connection.DialTLS dialer "tcp"
    (types.ValueString (ADGroupsProvider.Server data) ++ ":636")
    {| Connection.InsecureSkipVerify := insecure |} s = (inl e, s1) ->
  Connection.Configure dialer Getenv configDiags data s
  = ({| Connection.Diagnostics :=
          configDiags
            ++ [ {| diag.severity := diag.SeverityError;
                    diag.Summary := "Unable to Create AD Client";
                    diag.Detail :=
                      "An unexpected error occurred when creating the AD client. If the error is not clear, please contact the provider developers.\n\nAD Client Error: "
                        ++ "failed to connect to LDAP server: "
                        ++ "failed to dial LDAP server: " ++ e |} ];
        Connection.DataSourceData := None;
        Connection.ResourceData := None |}, s1).
Proof.
  intros insecure Hdiags Hserver HbaseDN Husername Hpassword Hport Henv Htls
    Hdial.
  unfold Connection.Configure, ADGroupsProvider.Configure,
    ADGroupsProvider.orEnv.
  rewrite Hdiags.
  repeat match goal with
         | |- context [String.eqb (types.ValueString ?v) ""] =>
             destruct (String.eqb_spec (types.ValueString v) "");
             [contradiction |]
         end.
  rewrite (configurePort_default Getenv data Hport Henv), Htls.
  cbn [orb].
  unfold Connection.NewClient, Connection.connect, Connection.address.
  cbn [Client.useTLS Client.username Client.password Client.server Client.port
         Client.baseDN ADGroupsProvider.cfg_Server ADGroupsProvider.cfg_Port
         ADGroupsProvider.cfg_BaseDN ADGroupsProvider.cfg_Username
         ADGroupsProvider.cfg_Password ADGroupsProvider.cfg_UseTLS
         ADGroupsProvider.cfg_Insecure].
  replace (if String.eqb (Getenv "AD_USE_TLS") "true" then true else true)
    with true by (now destruct (String.eqb (Getenv "AD_USE_TLS") "true")).
  change (":" ++ strconv.FormatInt 636)%string with ":636"%string.
  fold insecure. rewrite Hdial.
  now rewrite (AddError_fresh configDiags _ _ Hdiags).
Qed.

Lemma Configure_dials_636_over_TLS_witness :
  exists ds : diag.Diagnostics,
    Connection.Configure Examples.unreachable Examples.noEnv []
      Examples.tlsNoPort Directory.empty
    = ({| Connection.Diagnostics := ds;
          Connection.DataSourceData := None;
          Connection.ResourceData := None |}, Directory.empty)
    /\ diag.HasError ds = true.
Proof.
  eexists. split.
  - eapply (Configure_dials_636_over_TLS Directory.t Examples.unreachable
              Examples.noEnv [] Examples.tlsNoPort).
    + reflexivity.
    + discriminate.
    + discriminate.
    + discriminate.
    + discriminate.
    + reflexivity.
    + reflexivity.
    + reflexivity.
    + reflexivity.
  - reflexivity.
Defined.
